(** * SipSession: lifecycle, teardown and transcoder wiring

    A shallow embedding of [SipSession] (the session orchestrator of the
    camera streaming code).  The class is event driven: [start] is an
    [async] method that suspends at each [await], and timers, remote
    termination, process exit and [stop] are callbacks.  The embedding is a
    deterministic step function over a session state; every call made on an
    external collaborator (signaling call, transport splitter, transcoding
    process, logger) is appended to a chronological trace, so that call
    counts and call order can be stated on the trace. *)

From Stdlib Require Import ZArith List String Ascii Bool Lia DecimalString.
Import ListNotations.
Local Open Scope string_scope.
Local Open Scope Z_scope.

Set Implicit Arguments.

(** ** Data model *)

(** Object identities.  Two references are the same object exactly when the
    identities are equal. *)
Definition RtpSplitter := nat.
Definition SipCall := nat.
Definition FfmpegProcess := nat.

Definition Buffer := list Byte.byte.

(** [type SpawnInput = string | number] *)
Inductive SpawnInput :=
| SpawnString (s : string)
| SpawnNumber (n : Z).

(** [video?: SpawnInput[] | false] *)
Inductive VideoOption :=
| VideoUndefined
| VideoFalse
| VideoArgs (args : list SpawnInput).

Record FfmpegOptions := mkFfmpegOptions {
  input : option (list SpawnInput);
  video : VideoOption;
  audio : option (list SpawnInput);
  output : list SpawnInput
}.

(** Per-stream negotiated parameters.  The interface is declared in
    [./rtp-utils]; the fields are those this class reads ([port],
    [rtcpPort], [iceUFrag]) plus the crypto parameters handed to
    [createCryptoLine]. *)
Record RtpStreamDescription := mkStream {
  port : Z;
  rtcpPort : Z;
  iceUFrag : option string;
  crypto : string
}.

Record RtpOptions := mkRtpOptions {
  rtpAudio : RtpStreamDescription;
  rtpVideo : RtpStreamDescription
}.

Record RtpDescription := mkRtpDescription {
  address : string;
  streams :> RtpOptions
}.

(** Signaling parameters; only [dingId] is read by the session. *)
Record SipOptions := mkSipOptions {
  dingId : string;
  signaling : string
}.

Record RingCamera := mkCamera { name : string }.

(** A thrown value: the [expiredDingError] sentinel (compared by identity
    in the source) or any other error. *)
Inductive JsError :=
| expiredDingError
| Error (message : string).

Definition AlreadyStarted := Error "SIP Session has already been started".
Definition AlreadyEnded := Error "SIP Session has already ended".

Definition isExpiredDing (e : JsError) : bool :=
  match e with expiredDingError => true | Error _ => false end.

Inductive StreamType := audioType | videoType.

(** The local user fragment is a property of the signaling call that is
    current when the request is built. *)
Inductive LocalUfrag :=
| audioUfrag (call : SipCall)
| videoUfrag (call : SipCall).

(** Argument object of [sendStunBindingRequest]. *)
Record StunBindingRequest := mkStunRequest {
  rtpSplitter : RtpSplitter;
  rtcpSplitter : RtpSplitter;
  rtpDescription : RtpDescription;
  localUfrag : LocalUfrag;
  type : StreamType
}.

(** Calls on collaborators and results delivered to the caller of [start],
    in the order in which they happen. *)
Inductive Effect :=
| NewSipCall (call : SipCall) (o : SipOptions) (r : RtpOptions) (tls : Z)
| Destroy (call : SipCall)
| SendBye (call : SipCall)
| Invite (call : SipCall)
| RequestKeyFrame (call : SipCall)
| ActivateCameraSpeaker (call : SipCall)
| ReservePorts (count : Z)
| GetUpdatedSipOptions (ding : string)
| Close (s : RtpSplitter)
| AddMessageHandler (s : RtpSplitter) (handler : Buffer -> option Z)
| CreateStunResponder (s : RtpSplitter)
| SendStunBindingRequest (req : StunBindingRequest)
| NewFfmpegProcess (ff : FfmpegProcess) (ffmpegArgs : list SpawnInput)
    (ffmpegPath logLabel : string)
| WriteStdin (ff : FfmpegProcess) (text : string)
| FfmpegStop (ff : FfmpegProcess)
| OnCallEndedNext
| LogDebug (text : string)
| StartResolved (d : RtpDescription)
| StartRejected (e : JsError).

(** What a subscription held by the session listens to. *)
Inductive Source :=
| EndedByRemote (call : SipCall)
| Timer (dueTime period : Z) (d : RtpDescription)
| FirstMessage (s : RtpSplitter) (label : string).

(** Modelled from the spec: the [Subscribed] base class ([./subscribed]) is
    not part of the sources.  Every subscription handed to
    [addSubscriptions] is kept in a session-scoped set, and [unsubscribe]
    cancels all of them in bulk; a cancelled subscription delivers nothing. *)
Record Subscription := mkSub {
  source : Source;
  closed : bool
}.

(** [new ReplaySubject(1)]: remembers whether a value was emitted and
    replays it to late subscribers. *)
Record ReplaySubject := mkSubject {
  buffered : bool;
  observers : list FfmpegProcess
}.

Record SipSession := mkSession {
  hasStarted : bool;
  hasCallEnded : bool;
  onCallEndedSubject : ReplaySubject;
  sipCall : SipCall;
  sipOptions : SipOptions;
  rtpOptions : RtpOptions;
  audioSplitter : RtpSplitter;
  audioRtcpSplitter : RtpSplitter;
  videoSplitter : RtpSplitter;
  videoRtcpSplitter : RtpSplitter;
  tlsPort : Z;
  camera : RingCamera;
  subscriptions : list Subscription
}.

(** Where a running [start] is suspended. *)
Inductive Suspended :=
| AwaitVideoPort (ffmpegOptions : option FfmpegOptions)
| AwaitAudioPort (ffmpegOptions : option FfmpegOptions) (videoPort : Z)
| AwaitInvite (ffmpegOptions : option FfmpegOptions) (videoPort audioPort : Z)
| AwaitSipOptions (ffmpegOptions : option FfmpegOptions).

Record World := mkWorld {
  session : SipSession;
  pending : option Suspended;
  nextSipCall : SipCall;
  nextFfmpeg : FfmpegProcess;
  trace : list Effect
}.

(** Completion of an awaited promise. *)
Inductive Settled (A : Type) :=
| Resolved (a : A)
| Rejected (e : JsError).
Arguments Rejected {A} e.

Inductive Event :=
| CallStart (ffmpegOptions : option FfmpegOptions)
| CallStop
| CallRequestKeyFrame
| CallActivateCameraSpeaker
| PortsReserved (r : Settled (Z * list Z))
| InviteSettled (r : Settled RtpDescription)
| SipOptionsSettled (r : Settled SipOptions)
| RemoteEnded (call : SipCall)
| FfmpegExited (ff : FfmpegProcess)
| TimerFired
| MessageReceived (s : RtpSplitter).

(** ** Field updates *)

Definition withSession (f : SipSession -> SipSession) (w : World) : World :=
  mkWorld (f (session w)) (pending w) (nextSipCall w) (nextFfmpeg w) (trace w).

Definition withPending (p : option Suspended) (w : World) : World :=
  mkWorld (session w) p (nextSipCall w) (nextFfmpeg w) (trace w).

Definition emit (e : Effect) (w : World) : World :=
  mkWorld (session w) (pending w) (nextSipCall w) (nextFfmpeg w)
    (trace w ++ [e])%list.

Definition setHasStarted (b : bool) (s : SipSession) : SipSession :=
  mkSession b (hasCallEnded s) (onCallEndedSubject s) (sipCall s)
    (sipOptions s) (rtpOptions s) (audioSplitter s) (audioRtcpSplitter s)
    (videoSplitter s) (videoRtcpSplitter s) (tlsPort s) (camera s)
    (subscriptions s).

Definition setHasCallEnded (b : bool) (s : SipSession) : SipSession :=
  mkSession (hasStarted s) b (onCallEndedSubject s) (sipCall s)
    (sipOptions s) (rtpOptions s) (audioSplitter s) (audioRtcpSplitter s)
    (videoSplitter s) (videoRtcpSplitter s) (tlsPort s) (camera s)
    (subscriptions s).

Definition setOnCallEndedSubject (r : ReplaySubject) (s : SipSession)
  : SipSession :=
  mkSession (hasStarted s) (hasCallEnded s) r (sipCall s)
    (sipOptions s) (rtpOptions s) (audioSplitter s) (audioRtcpSplitter s)
    (videoSplitter s) (videoRtcpSplitter s) (tlsPort s) (camera s)
    (subscriptions s).

Definition setSipCall (c : SipCall) (s : SipSession) : SipSession :=
  mkSession (hasStarted s) (hasCallEnded s) (onCallEndedSubject s) c
    (sipOptions s) (rtpOptions s) (audioSplitter s) (audioRtcpSplitter s)
    (videoSplitter s) (videoRtcpSplitter s) (tlsPort s) (camera s)
    (subscriptions s).

Definition setAudioRtcpSplitter (h : RtpSplitter) (s : SipSession)
  : SipSession :=
  mkSession (hasStarted s) (hasCallEnded s) (onCallEndedSubject s) (sipCall s)
    (sipOptions s) (rtpOptions s) (audioSplitter s) h
    (videoSplitter s) (videoRtcpSplitter s) (tlsPort s) (camera s)
    (subscriptions s).

Definition setVideoRtcpSplitter (h : RtpSplitter) (s : SipSession)
  : SipSession :=
  mkSession (hasStarted s) (hasCallEnded s) (onCallEndedSubject s) (sipCall s)
    (sipOptions s) (rtpOptions s) (audioSplitter s) (audioRtcpSplitter s)
    (videoSplitter s) h (tlsPort s) (camera s)
    (subscriptions s).

Definition setSubscriptions (l : list Subscription) (s : SipSession)
  : SipSession :=
  mkSession (hasStarted s) (hasCallEnded s) (onCallEndedSubject s) (sipCall s)
    (sipOptions s) (rtpOptions s) (audioSplitter s) (audioRtcpSplitter s)
    (videoSplitter s) (videoRtcpSplitter s) (tlsPort s) (camera s) l.

(** ** JavaScript helpers *)

(** Template-literal conversion of an integral number: its decimal
    digits.  JavaScript numbers are doubles, so this is the text the
    source produces for integers below 2^53 in magnitude, port numbers
    among them; larger values lose precision or print in exponent
    notation there. *)
Definition numberToString (n : Z) : string :=
  NilZero.string_of_int (Z.to_int n).

(** [Boolean(x)] on a string: only the empty string is falsy. *)
Definition truthyString (s : string) : bool :=
  negb (String.eqb s "").

(** Truthiness of an optional string property. *)
Definition truthy (o : option string) : bool :=
  match o with
  | Some s => truthyString s
  | None => false
  end.

(** [lines.join('\n')] *)
Definition newline : string := String (ascii_of_nat 10) "".
Definition join (sep : string) (l : list string) : string :=
  String.concat sep l.

(** ** The class, method by method *)

Section SipSessionCode.

(** Imported helpers whose bodies live outside this class. *)
Variable createCryptoLine : RtpStreamDescription -> string.
Variable isStunMessage : Buffer -> bool.
Variable getFfmpegPath : string.

(** Modelled from the spec: [addSubscriptions] of the [Subscribed] base
    class, which is not part of the sources; it captures the subscriptions
    in the session-scoped set. *)
Definition addSubscriptions (l : list Source) (w : World) : World :=
  withSession
    (fun s => setSubscriptions
                (subscriptions s ++ map (fun x => mkSub x false) l)%list s)
    w.

(** Modelled from the spec: [unsubscribe] of the [Subscribed] base class,
    which is not part of the sources; it cancels every captured
    subscription. *)
Definition unsubscribe (w : World) : World :=
  withSession
    (fun s => setSubscriptions
                (map (fun x => mkSub (source x) true) (subscriptions s)) s)
    w.

(** [this.onCallEndedSubject.next()]: the value is buffered and every
    observer runs; the only observers are the [() => ff.stop()] callbacks
    registered by [startTranscoder]. *)
Definition onCallEndedNext (w : World) : World :=
  let subject := onCallEndedSubject (session w) in
  let w := withSession
             (setOnCallEndedSubject (mkSubject true (observers subject))) w in
  fold_left (fun acc ff => emit (FfmpegStop ff) acc) (observers subject)
    (emit OnCallEndedNext w).

(** [this.onCallEnded.subscribe(() => ff.stop())]: a buffered value is
    replayed to the new observer at once. *)
Definition onCallEndedSubscribe (ff : FfmpegProcess) (w : World) : World :=
  let subject := onCallEndedSubject (session w) in
  let w := withSession
             (setOnCallEndedSubject
                (mkSubject (buffered subject) (observers subject ++ [ff])%list))
             w in
  if buffered subject then emit (FfmpegStop ff) w else w.

(** [private callEnded(sendBye: boolean)] *)
Definition callEnded (sendBye : bool) (w : World) : World :=
  if hasCallEnded (session w) then w
  else
    let w := withSession (setHasCallEnded true) w in
    let w := if sendBye then emit (SendBye (sipCall (session w))) w else w in
    let w := onCallEndedNext w in
    let w := emit (Destroy (sipCall (session w))) w in
    let w := emit (Close (audioSplitter (session w))) w in
    let w := emit (Close (audioRtcpSplitter (session w))) w in
    let w := emit (Close (videoSplitter (session w))) w in
    let w := emit (Close (videoRtcpSplitter (session w))) w in
    unsubscribe w.

(** [stop()] *)
Definition stop (w : World) : World := callEnded true w.

(** [createSipCall(sipOptions)] on a constructed session, where
    [this.sipCall] is always an object. *)
Definition createSipCall (o : SipOptions) (w : World) : World :=
  let w := emit (Destroy (sipCall (session w))) w in
  let call := nextSipCall w in
  let w := mkWorld (setSipCall call (session w)) (pending w) (S call)
             (nextFfmpeg w) (trace w) in
  let w := emit (NewSipCall call o (rtpOptions (session w))
                   (tlsPort (session w))) w in
  addSubscriptions [EndedByRemote call] w.

(** The constructor.  The field initialiser calls [createSipCall] while
    [this.sipCall] is still undefined, so nothing is destroyed there. *)
Definition newSipSession (o : SipOptions) (r : RtpOptions)
    (audioSplitter audioRtcpSplitter videoSplitter videoRtcpSplitter
       : RtpSplitter)
    (tls : Z) (cam : RingCamera) : World :=
  mkWorld
    (mkSession false false (mkSubject false []) 0%nat o r
       audioSplitter audioRtcpSplitter videoSplitter videoRtcpSplitter
       tls cam [mkSub (EndedByRemote 0%nat) false])
    None 1%nat 0%nat [NewSipCall 0%nat o r tls].

(** The [sendStunRequests] closure of [start]; [this.*] is read when the
    closure runs, [rtpDescription] is captured. *)
Definition sendStunRequests (d : RtpDescription) (w : World) : World :=
  let w := emit (SendStunBindingRequest
                   (mkStunRequest (audioSplitter (session w))
                      (audioRtcpSplitter (session w)) d
                      (audioUfrag (sipCall (session w))) audioType)) w in
  emit (SendStunBindingRequest
          (mkStunRequest (videoSplitter (session w))
             (audioRtcpSplitter (session w)) d
             (videoUfrag (sipCall (session w))) videoType)) w.

(** The packet handler installed by [forwardPacketsToFfmpeg]: the forward
    target for one inbound message, [None] for [null]. *)
Definition packetHandler (targetPort : Z) (message : Buffer) : option Z :=
  if isStunMessage message then None else Some targetPort.

Definition forwardPacketsToFfmpeg (s : RtpSplitter) (targetPort : Z)
    (w : World) : World :=
  emit (AddMessageHandler s (packetHandler targetPort)) w.

Definition orDefault (o : option (list SpawnInput)) (d : list SpawnInput)
  : list SpawnInput :=
  match o with Some l => l | None => d end.

(** [ffmpegOptions.video !== false] *)
Definition transcodeVideoStream (o : FfmpegOptions) : bool :=
  match video o with VideoFalse => false | _ => true end.

Definition ffmpegArgs (o : FfmpegOptions) : list SpawnInput :=
  ([SpawnString "-hide_banner"; SpawnString "-protocol_whitelist";
    SpawnString "pipe,udp,rtp,file,crypto"; SpawnString "-f";
    SpawnString "sdp"]
   ++ orDefault (input o) []
   ++ [SpawnString "-i"; SpawnString "pipe:"]
   ++ orDefault (audio o) [SpawnString "-acodec"; SpawnString "aac"]
   ++ (if transcodeVideoStream o
       then match video o with
            | VideoArgs l => l
            | _ => [SpawnString "-vcodec"; SpawnString "copy"]
            end
       else [])
   ++ output o)%list.

(** [inputSdpLines] as first built (the audio part). *)
Definition audioSdpLines (remote : RtpOptions) (audioPort : Z)
  : list string :=
  [ "v=0";
    "o=105202070 3747 461 IN IP4 127.0.0.1";
    "s=Talk";
    "c=IN IP4 127.0.0.1";
    "b=AS:380";
    "t=0 0";
    "a=rtcp-xr:rcvr-rtt=all:10000 stat-summary=loss,dup,jitt,TTL voip-metrics";
    "m=audio " ++ numberToString audioPort ++ " RTP/SAVP 0 101";
    "a=rtpmap:0 PCMU/8000";
    createCryptoLine (rtpAudio remote);
    "a=rtcp:" ++ numberToString (audioPort + 1) ++ " IN IP4 127.0.0.1" ].

(** The lines pushed when video is transcoded. *)
Definition videoSdpLines (remote : RtpOptions) (videoPort : Z)
  : list string :=
  [ "m=video " ++ numberToString videoPort ++ " RTP/SAVP 99";
    "a=rtpmap:99 H264/90000";
    createCryptoLine (rtpVideo remote);
    "a=rtcp:" ++ numberToString (videoPort + 1) ++ " IN IP4 127.0.0.1" ].

Definition inputSdpLines (o : FfmpegOptions) (remote : RtpOptions)
    (audioPort videoPort : Z) : list string :=
  (audioSdpLines remote audioPort
   ++ (if transcodeVideoStream o then videoSdpLines remote videoPort
       else []))%list.

(** [inputSdpLines.filter((x) => Boolean(x)).join('\n')] *)
Definition sdpDocument (o : FfmpegOptions) (remote : RtpOptions)
    (audioPort videoPort : Z) : string :=
  join newline (filter truthyString (inputSdpLines o remote audioPort videoPort)).

(** [private startTranscoder(...)] *)
Definition startTranscoder (o : FfmpegOptions) (remote : RtpOptions)
    (audioPort videoPort : Z) (w : World) : World :=
  let audioRtcpPort := audioPort + 1 in
  let videoRtcpPort := videoPort + 1 in
  let ff := nextFfmpeg w in
  let w := mkWorld (session w) (pending w) (nextSipCall w) (S ff) (trace w) in
  let w := emit (NewFfmpegProcess ff (ffmpegArgs o) getFfmpegPath
                   ("From Ring (" ++ name (camera (session w)) ++ ")")) w in
  let w := if transcodeVideoStream o
           then
             let w := forwardPacketsToFfmpeg
                        (videoSplitter (session w)) videoPort w in
             forwardPacketsToFfmpeg
               (videoRtcpSplitter (session w)) videoRtcpPort w
           else w in
  let w := onCallEndedSubscribe ff w in
  let w := emit (WriteStdin ff (sdpDocument o remote audioPort videoPort)) w in
  let w := forwardPacketsToFfmpeg (audioSplitter (session w)) audioPort w in
  forwardPacketsToFfmpeg (audioRtcpSplitter (session w)) audioRtcpPort w.


(** The synchronous tail of [start]'s [try] block, entered when
    [this.sipCall.invite()] resolves with [d]. *)
Definition startInvited (o : option FfmpegOptions) (videoPort audioPort : Z)
    (d : RtpDescription) (w : World) : World :=
  let w := match o with
           | Some opts => startTranscoder opts d audioPort videoPort w
           | None => w
           end in
  (* if rtcp-mux is supported, rtp splitter will be used for both *)
  let w := if port (rtpAudio d) =? rtcpPort (rtpAudio d)
           then
             let w := emit (Close (audioRtcpSplitter (session w))) w in
             withSession
               (fun s => setAudioRtcpSplitter (audioSplitter s) s) w
           else w in
  let w := if port (rtpVideo d) =? rtcpPort (rtpVideo d)
           then
             let w := emit (Close (videoRtcpSplitter (session w))) w in
             withSession
               (fun s => setVideoRtcpSplitter (videoSplitter s) s) w
           else w in
  let w := if truthy (iceUFrag (rtpVideo d))
           then
             let w := emit (LogDebug ("Connecting to "
                              ++ name (camera (session w)) ++ " using ICE")) w in
             let w := emit (CreateStunResponder (audioSplitter (session w))) w in
             let w := emit (CreateStunResponder (videoSplitter (session w))) w in
             sendStunRequests d w
           else
             let w := emit (LogDebug ("Connecting to "
                              ++ name (camera (session w)) ++ " using STUN")) w in
             addSubscriptions [Timer 0 500 d] w in
  let w := addSubscriptions
             [ FirstMessage (audioSplitter (session w))
                 ("Audio stream latched for " ++ name (camera (session w)));
               FirstMessage (videoSplitter (session w))
                 ("Video stream latched for " ++ name (camera (session w))) ]
             w in
  emit (StartResolved d) (withPending None w).

(** The guards of [start] and its first suspension. *)
Definition start (o : option FfmpegOptions) (w : World) : World :=
  if hasStarted (session w) then emit (StartRejected AlreadyStarted) w
  else
    let w := withSession (setHasStarted true) w in
    if hasCallEnded (session w) then emit (StartRejected AlreadyEnded) w
    else emit (ReservePorts (1 + 1)) (withPending (Some (AwaitVideoPort o)) w).

(** The [catch] block of [start], up to its [await]. *)
Definition startCatch (o : option FfmpegOptions) (e : JsError) (w : World)
  : World :=
  if isExpiredDing e
  then emit (GetUpdatedSipOptions (dingId (sipOptions (session w))))
         (withPending (Some (AwaitSipOptions o)) w)
  else emit (StartRejected e) (callEnded true (withPending None w)).

(** The rest of the [catch] block once the camera has answered. *)
Definition startRetry (o : option FfmpegOptions) (opts : SipOptions)
    (w : World) : World :=
  let w := createSipCall opts (withPending None w) in
  let w := withSession (setHasStarted false) w in
  start o w.

(** Delivery of a timer tick to the subscriptions that are still open. *)
Definition fireTimers (w : World) : World :=
  fold_left
    (fun acc sub =>
       match source sub, closed sub with
       | Timer _ _ d, false => sendStunRequests d acc
       | _, _ => acc
       end)
    (subscriptions (session w)) w.

(** [onMessage.pipe(take(1))]: the first message on [s] is logged and the
    subscription completes. *)
Definition latches (s : RtpSplitter) (sub : Subscription) : bool :=
  match source sub, closed sub with
  | FirstMessage s' _, false => Nat.eqb s s'
  | _, _ => false
  end.

Definition deliverMessage (s : RtpSplitter) (w : World) : World :=
  let subs := subscriptions (session w) in
  let w := fold_left
             (fun acc sub =>
                match source sub with
                | FirstMessage _ label =>
                    if latches s sub then emit (LogDebug label) acc else acc
                | _ => acc
                end) subs w in
  withSession
    (setSubscriptions
       (map (fun sub => if latches s sub then mkSub (source sub) true else sub)
          subs)) w.

Definition listensTo (call : SipCall) (sub : Subscription) : bool :=
  match source sub, closed sub with
  | EndedByRemote c, false => Nat.eqb call c
  | _, _ => false
  end.

(** One turn of the event loop. *)
Definition step (w : World) (ev : Event) : World :=
  match ev with
  | CallStart o => start o w
  | CallStop => stop w
  | CallRequestKeyFrame => emit (RequestKeyFrame (sipCall (session w))) w
  | CallActivateCameraSpeaker =>
      emit (ActivateCameraSpeaker (sipCall (session w))) w
  | PortsReserved r =>
      match pending w, r with
      | Some (AwaitVideoPort o), Resolved (p, _) =>
          emit (ReservePorts (1 + 1))
            (withPending (Some (AwaitAudioPort o p)) w)
      | Some (AwaitAudioPort o videoPort), Resolved (p, _) =>
          emit (Invite (sipCall (session w)))
            (withPending (Some (AwaitInvite o videoPort p)) w)
      | Some (AwaitVideoPort o), Rejected e
      | Some (AwaitAudioPort o _), Rejected e => startCatch o e w
      | _, _ => w
      end
  | InviteSettled r =>
      match pending w, r with
      | Some (AwaitInvite o videoPort audioPort), Resolved d =>
          startInvited o videoPort audioPort d w
      | Some (AwaitInvite o _ _), Rejected e => startCatch o e w
      | _, _ => w
      end
  | SipOptionsSettled r =>
      match pending w, r with
      | Some (AwaitSipOptions o), Resolved opts => startRetry o opts w
      | Some (AwaitSipOptions _), Rejected e =>
          emit (StartRejected e) (withPending None w)
      | _, _ => w
      end
  | RemoteEnded call =>
      if existsb (listensTo call) (subscriptions (session w))
      then callEnded false w else w
  | FfmpegExited ff =>
      if Nat.ltb ff (nextFfmpeg w) then callEnded true w else w
  | TimerFired => fireTimers w
  | MessageReceived s => deliverMessage s w
  end.

Definition run (w : World) (evs : list Event) : World :=
  fold_left step evs w.

End SipSessionCode.

(** ** Observations on the trace *)

Definition count (p : Effect -> bool) (t : list Effect) : nat :=
  List.length (filter p t).

Definition isSendBye (e : Effect) : bool :=
  match e with SendBye _ => true | _ => false end.

Definition isDestroy (call : SipCall) (e : Effect) : bool :=
  match e with Destroy c => Nat.eqb call c | _ => false end.

Definition isClose (s : RtpSplitter) (e : Effect) : bool :=
  match e with Close s' => Nat.eqb s s' | _ => false end.

Definition isOnCallEndedNext (e : Effect) : bool :=
  match e with OnCallEndedNext => true | _ => false end.

Definition isStunRequest (e : Effect) : bool :=
  match e with SendStunBindingRequest _ => true | _ => false end.

Definition isAnyStunResponder (e : Effect) : bool :=
  match e with CreateStunResponder _ => true | _ => false end.

(** The packet handlers registered so far, with the splitter each was
    registered on. *)
Fixpoint registrations (t : list Effect)
  : list (RtpSplitter * (Buffer -> option Z)) :=
  match t with
  | [] => []
  | AddMessageHandler s h :: t' => (s, h) :: registrations t'
  | _ :: t' => registrations t'
  end.

(** The handlers carried by splitter [s]. *)
Definition handlersOn (s : RtpSplitter) (t : list Effect)
  : list (Buffer -> option Z) :=
  map snd (filter (fun r => Nat.eqb s (fst r)) (registrations t)).

(** The four transport references of a session, in teardown order. *)
Definition handles (s : SipSession) : list RtpSplitter :=
  [audioSplitter s; audioRtcpSplitter s; videoSplitter s; videoRtcpSplitter s].

(** How many of the four references are the object [h]. *)
Definition references (h : RtpSplitter) (s : SipSession) : nat :=
  List.length (filter (Nat.eqb h) (handles s)).

Definition isOpenTimer (sub : Subscription) : bool :=
  match source sub, closed sub with
  | Timer _ _ _, false => true
  | _, _ => false
  end.

(** [text.split('\n')] *)
Fixpoint splitLines (text : string) : list string :=
  match text with
  | EmptyString => [""]
  | String c rest =>
      if Ascii.eqb c (ascii_of_nat 10) then "" :: splitLines rest
      else match splitLines rest with
           | line :: lines => String c line :: lines
           | [] => [String c ""]
           end
  end.

(** [true] when a string holds no line break. *)
Fixpoint noNewline (text : string) : bool :=
  match text with
  | EmptyString => true
  | String c rest => negb (Ascii.eqb c (ascii_of_nat 10)) && noNewline rest
  end.

(** [true] when a line of the document is a media ([m=]) line. *)
Definition isMediaLine (line : string) : bool :=
  match line with
  | String "m" (String "=" _) => true
  | _ => false
  end.

(** The three teardown triggers and the events that carry them. *)
Inductive Trigger :=
| ExplicitStop
| RemoteTermination (call : SipCall)
| TranscoderExit (ff : FfmpegProcess).

Definition triggerEvent (t : Trigger) : Event :=
  match t with
  | ExplicitStop => CallStop
  | RemoteTermination call => RemoteEnded call
  | TranscoderExit ff => FfmpegExited ff
  end.

(** The argument each trigger passes to [callEnded]. *)
Definition sendsBye (t : Trigger) : bool :=
  match t with
  | RemoteTermination _ => false
  | _ => true
  end.

(** A trigger reaches [callEnded] when its callback is still wired: the
    remote notification needs an open subscription, the exit callback a
    spawned process. *)
Definition wired (w : World) (t : Trigger) : bool :=
  match t with
  | ExplicitStop => true
  | RemoteTermination call =>
      existsb (listensTo call) (subscriptions (session w))
  | TranscoderExit ff => Nat.ltb ff (nextFfmpeg w)
  end.

(** Concrete stand-ins for the imported helpers, used to run examples. *)
Definition sampleCryptoLine (s : RtpStreamDescription) : string :=
  "a=crypto:1 AES_CM_128_HMAC_SHA1_80 inline:" ++ crypto s.

Definition sampleIsStun (m : Buffer) : bool :=
  match m with
  | Byte.x00 :: Byte.x01 :: _ => true
  | _ => false
  end.

Definition sampleFfmpegPath : string := "ffmpeg".

Definition sampleStep : World -> Event -> World :=
  step sampleCryptoLine sampleIsStun sampleFfmpegPath.

Definition sampleRun : World -> list Event -> World :=
  run sampleCryptoLine sampleIsStun sampleFfmpegPath.

(** A session over the four distinct splitters 10, 11, 20, 21. *)
Definition sampleSession : World :=
  newSipSession (mkSipOptions "ding-1" "sip:camera")
    (mkRtpOptions (mkStream 7000 7001 None "local-a")
                  (mkStream 7002 7003 None "local-v"))
    10%nat 11%nat 20%nat 21%nat 5061 (mkCamera "Front Door").

Definition sampleDescription (audioRtcp videoRtcp : Z)
    (videoUFrag : option string) : RtpDescription :=
  mkRtpDescription "192.0.2.7"
    (mkRtpOptions (mkStream 40000 audioRtcp None "key-a")
                  (mkStream 40002 videoRtcp videoUFrag "key-v")).

(** The events of a [start] whose awaits all succeed. *)
Definition startedWith (o : option FfmpegOptions) (d : RtpDescription)
  : list Event :=
  [ CallStart o;
    PortsReserved (Resolved (5000, [5001]));
    PortsReserved (Resolved (5002, [5003]));
    InviteSettled (Resolved d) ].

(** The effects of one teardown of a session in state [s]. *)
Definition teardownEffects (sendBye : bool) (s : SipSession) : list Effect :=
  ((if sendBye then [SendBye (sipCall s)] else [])
   ++ OnCallEndedNext :: map FfmpegStop (observers (onCallEndedSubject s))
   ++ [ Destroy (sipCall s);
        Close (audioSplitter s); Close (audioRtcpSplitter s);
        Close (videoSplitter s); Close (videoRtcpSplitter s) ])%list.

(** One round of [sendStunRequests] as the session in state [s] builds it. *)
Definition stunRound (s : SipSession) (d : RtpDescription) : list Effect :=
  [ SendStunBindingRequest
      (mkStunRequest (audioSplitter s) (audioRtcpSplitter s) d
         (audioUfrag (sipCall s)) audioType);
    SendStunBindingRequest
      (mkStunRequest (videoSplitter s) (audioRtcpSplitter s) d
         (videoUfrag (sipCall s)) videoType) ].

(** ** Closed forms

    What a teardown, a round of requests, [startTranscoder] and the tail of
    [start] add to the trace and do to the session, written as data. *)

Definition muxAudio (d : RtpDescription) : bool :=
  port (rtpAudio d) =? rtcpPort (rtpAudio d).

Definition muxVideo (d : RtpDescription) : bool :=
  port (rtpVideo d) =? rtcpPort (rtpVideo d).

(** The requests one timer tick makes on behalf of subscription [sub]. *)
Definition timerRound (s : SipSession) (sub : Subscription) : list Effect :=
  match source sub, closed sub with
  | Timer _ _ d, false => stunRound s d
  | _, _ => []
  end.

Definition noOpenTimer (s : SipSession) : bool :=
  forallb (fun sub => negb (isOpenTimer sub)) (subscriptions s).

(** What one timer tick sends for a session in state [s]. *)
Definition tickEffects (s : SipSession) : list Effect :=
  flat_map (timerRound s) (subscriptions s).

Definition isWriteStdin (e : Effect) : bool :=
  match e with WriteStdin _ _ => true | _ => false end.

Section ClosedForms.

Variable createCryptoLine : RtpStreamDescription -> string.
Variable isStunMessage : Buffer -> bool.
Variable getFfmpegPath : string.

(** The registrations made by [startTranscoder], in program order. *)
Definition videoForwarding (o : FfmpegOptions) (videoPort : Z)
    (s : SipSession) : list Effect :=
  if transcodeVideoStream o
  then [ AddMessageHandler (videoSplitter s)
           (packetHandler isStunMessage videoPort);
         AddMessageHandler (videoRtcpSplitter s)
           (packetHandler isStunMessage (videoPort + 1)) ]
  else [].

Definition audioForwarding (audioPort : Z) (s : SipSession) : list Effect :=
  [ AddMessageHandler (audioSplitter s)
      (packetHandler isStunMessage audioPort);
    AddMessageHandler (audioRtcpSplitter s)
      (packetHandler isStunMessage (audioPort + 1)) ].

(** The handlers [startTranscoder] registers, in program order. *)
Definition forwardingTable (o : FfmpegOptions) (vp ap : Z) (s : SipSession)
  : list (RtpSplitter * (Buffer -> option Z)) :=
  ((if transcodeVideoStream o
    then [ (videoSplitter s, packetHandler isStunMessage vp);
           (videoRtcpSplitter s, packetHandler isStunMessage (vp + 1)) ]
    else [])
   ++ [ (audioSplitter s, packetHandler isStunMessage ap);
        (audioRtcpSplitter s, packetHandler isStunMessage (ap + 1)) ])%list.

Definition transcoderEffects (o : FfmpegOptions) (remote : RtpOptions)
    (audioPort videoPort : Z) (ff : FfmpegProcess) (s : SipSession)
  : list Effect :=
  (NewFfmpegProcess ff (ffmpegArgs o) getFfmpegPath
     ("From Ring (" ++ name (camera s) ++ ")")
   :: videoForwarding o videoPort s
   ++ (if buffered (onCallEndedSubject s) then [FfmpegStop ff] else [])
   ++ WriteStdin ff (sdpDocument createCryptoLine o remote audioPort videoPort)
   :: audioForwarding audioPort s)%list.

Definition transcoderSession (ff : FfmpegProcess) (s : SipSession)
  : SipSession :=
  setOnCallEndedSubject
    (mkSubject (buffered (onCallEndedSubject s))
       (observers (onCallEndedSubject s) ++ [ff])%list) s.

(** State of the session when [start] returns [d]. *)
Definition aliasedSession (d : RtpDescription) (s : SipSession)
  : SipSession :=
  let s := if muxAudio d then setAudioRtcpSplitter (audioSplitter s) s
           else s in
  if muxVideo d then setVideoRtcpSplitter (videoSplitter s) s else s.

Definition natSubscriptions (d : RtpDescription) : list Source :=
  if truthy (iceUFrag (rtpVideo d)) then [] else [Timer 0 500 d].

Definition latchSubscriptions (s : SipSession) : list Source :=
  [ FirstMessage (audioSplitter s)
      ("Audio stream latched for " ++ name (camera s));
    FirstMessage (videoSplitter s)
      ("Video stream latched for " ++ name (camera s)) ].

Definition invitedSession (o : option FfmpegOptions) (d : RtpDescription)
    (ff : FfmpegProcess) (s : SipSession) : SipSession :=
  let s := match o with Some _ => transcoderSession ff s | None => s end in
  let s := aliasedSession d s in
  setSubscriptions
    (subscriptions s
     ++ map (fun x => mkSub x false)
          (natSubscriptions d ++ latchSubscriptions s))%list s.

(** The closes made by port-multiplex detection on a session in state [s]. *)
Definition muxEffects (d : RtpDescription) (s : SipSession) : list Effect :=
  ((if muxAudio d then [Close (audioRtcpSplitter s)] else [])
   ++ (if muxVideo d then [Close (videoRtcpSplitter s)] else []))%list.

(** The NAT-traversal branch, on a session whose references are already
    aliased. *)
Definition natEffects (d : RtpDescription) (s : SipSession) : list Effect :=
  if truthy (iceUFrag (rtpVideo d))
  then (LogDebug ("Connecting to " ++ name (camera s) ++ " using ICE")
        :: CreateStunResponder (audioSplitter s)
        :: CreateStunResponder (videoSplitter s)
        :: stunRound s d)
  else [LogDebug ("Connecting to " ++ name (camera s) ++ " using STUN")].

Definition invitedEffects (o : option FfmpegOptions) (vp ap : Z)
    (d : RtpDescription) (ff : FfmpegProcess) (s : SipSession)
  : list Effect :=
  ((match o with
    | Some opts => transcoderEffects opts d ap vp ff s
    | None => []
    end)
   ++ muxEffects d s
   ++ natEffects d (aliasedSession d s)
   ++ [StartResolved d])%list.

End ClosedForms.

(** What holds of every state a constructed session can be driven into:
    while a [start] is suspended the started flag is set (so a second
    [start] is always rejected and one suspended call is all there ever
    is); the keepalive timer exists only once a [start] has returned; and
    the current signaling client was allocated before the next one. *)
Definition invariant (w : World) : Prop :=
  (pending w <> None -> hasStarted (session w) = true)
  /\ (hasStarted (session w) = false \/ pending w <> None ->
      noOpenTimer (session w) = true)
  /\ (sipCall (session w) < nextSipCall w)%nat.

(** ** Further observations on the trace and the session *)

Definition isStartResolved (e : Effect) : bool :=
  match e with StartResolved _ => true | _ => false end.

Definition isNewFfmpegProcess (e : Effect) : bool :=
  match e with NewFfmpegProcess _ _ _ _ => true | _ => false end.

Definition isFfmpegStop (e : Effect) : bool :=
  match e with FfmpegStop _ => true | _ => false end.

Definition isNewSipCall (e : Effect) : bool :=
  match e with NewSipCall _ _ _ _ => true | _ => false end.

(** Effects that set media up: only the tail of [start] and the keepalive
    timer produce them. *)
Definition isMediaSetup (e : Effect) : bool :=
  match e with
  | SendStunBindingRequest _ | AddMessageHandler _ _ | CreateStunResponder _
  | NewFfmpegProcess _ _ _ _ | WriteStdin _ _ => true
  | _ => false
  end.

(** Effects that none of the counters below look at. *)
Definition isNeutral (e : Effect) : bool :=
  match e with
  | Invite _ | RequestKeyFrame _ | ActivateCameraSpeaker _ | ReservePorts _
  | GetUpdatedSipOptions _ | LogDebug _ | StartRejected _ => true
  | _ => false
  end.

(** A [timer] subscription, cancelled or not. *)
Definition isTimer (sub : Subscription) : bool :=
  match source sub with Timer _ _ _ => true | _ => false end.

Definition isStartRejected (e : Effect) : bool :=
  match e with StartRejected _ => true | _ => false end.

(** The signaling client constructed last. *)
Fixpoint lastNewSipCall (t : list Effect) : option SipCall :=
  match t with
  | [] => None
  | e :: t' =>
      match lastNewSipCall t' with
      | Some call => Some call
      | None => match e with NewSipCall call _ _ _ => Some call | _ => None end
      end
  end.

(** The splitters a STUN binding request is built on. *)
Definition requestSplitters (e : Effect) : list RtpSplitter :=
  match e with
  | SendStunBindingRequest r => [rtpSplitter r; rtcpSplitter r]
  | _ => []
  end.

(** What the first-message subscriptions log when a message arrives on
    splitter [s]. *)
Definition latchEffects (s : RtpSplitter) (subs : list Subscription)
  : list Effect :=
  flat_map
    (fun sub =>
       match source sub with
       | FirstMessage _ label => if latches s sub then [LogDebug label] else []
       | _ => []
       end) subs.

(** The splitters closed by port-multiplex detection. *)
Definition closedByMux (d : RtpDescription) (s : SipSession)
  : list RtpSplitter :=
  ((if muxAudio d then [audioRtcpSplitter s] else [])
   ++ (if muxVideo d then [videoRtcpSplitter s] else []))%list.

(** [text.startsWith(prefix)] *)
Fixpoint startsWith (prefix text : string) : bool :=
  match prefix, text with
  | EmptyString, _ => true
  | String a p, String b t => Ascii.eqb a b && startsWith p t
  | String _ _, EmptyString => false
  end.

(** A debug line that starts with [line]. *)
Definition isLatchLog (line : string) (e : Effect) : bool :=
  match e with
  | LogDebug text => startsWith line text
  | _ => false
  end.

(** An open first-message subscription whose line starts with [line]. *)
Definition isOpenLatch (line : string) (sub : Subscription) : bool :=
  match source sub, closed sub with
  | FirstMessage _ label, false => startsWith line label
  | _, _ => false
  end.

(** Every line logged so far and every line an open first-message
    subscription may still log is paid for by a [start] that resolved. *)
Definition latchBook (line : string) (w : World) : Prop :=
  (count (isLatchLog line) (trace w)
   + List.length (filter (isOpenLatch line) (subscriptions (session w)))
   <= count isStartResolved (trace w))%nat.

(** The books a session keeps, whatever the order of events: [start]
    resolves at most once and only from a suspended call; processes,
    timers and media set-up exist only after that; the call-ended subject
    mirrors the ended flag and has every spawned process as observer; each
    spawned process is told to stop exactly when the session has ended;
    the ended notification went out exactly when the flag is set and at
    most one bye with it; and the current signaling client is the one
    constructed last. *)
Definition ledger (w : World) : Prop :=
  let r := count isStartResolved (trace w) in
  let ended := hasCallEnded (session w) in
  (hasStarted (session w) = false \/ pending w <> None -> r = 0%nat)
  /\ (r <= 1)%nat
  /\ (nextFfmpeg w <= r)%nat
  /\ (List.length (filter isTimer (subscriptions (session w))) <= r)%nat
  /\ (r = 0%nat -> filter isMediaSetup (trace w) = [])
  /\ buffered (onCallEndedSubject (session w)) = ended
  /\ observers (onCallEndedSubject (session w)) = seq 0 (nextFfmpeg w)
  /\ filter isFfmpegStop (trace w)
     = (if ended then map FfmpegStop (seq 0 (nextFfmpeg w)) else [])
  /\ count isOnCallEndedNext (trace w) = (if ended then 1 else 0)%nat
  /\ (count isSendBye (trace w) <= if ended then 1 else 0)%nat
  /\ count isNewFfmpegProcess (trace w) = nextFfmpeg w
  /\ lastNewSipCall (trace w) = Some (sipCall (session w)).

(** The transport references of a session built over [a], [ar], [v] and
    [vr]: the RTP references are fixed, an RTCP reference is the original
    splitter or its RTP sibling. *)
Definition anchored (a ar v vr : RtpSplitter) (s : SipSession) : Prop :=
  audioSplitter s = a
  /\ videoSplitter s = v
  /\ (audioRtcpSplitter s = ar \/ audioRtcpSplitter s = a)
  /\ (videoRtcpSplitter s = vr \/ videoRtcpSplitter s = v).

(** One full attempt of [start] that ends in an expired ding and a
    refreshed set of signaling parameters. *)
Definition expiredRound (round : (Z * list Z) * (Z * list Z) * SipOptions)
  : list Event :=
  let '(videoPorts, audioPorts, opts) := round in
  [ PortsReserved (Resolved videoPorts);
    PortsReserved (Resolved audioPorts);
    InviteSettled (Rejected expiredDingError);
    SipOptionsSettled (Resolved opts) ].

(** The arguments [sampleSession] is constructed with. *)
Definition sampleSipOptions : SipOptions := mkSipOptions "ding-1" "sip:camera".

Definition sampleRtpOptions : RtpOptions :=
  mkRtpOptions (mkStream 7000 7001 None "local-a")
               (mkStream 7002 7003 None "local-v").

Definition sampleCamera : RingCamera := mkCamera "Front Door".

(** [sampleSession] with [start] suspended at the invite. *)
Definition sampleInviting (o : option FfmpegOptions) : World :=
  sampleRun sampleSession
    [ CallStart o;
      PortsReserved (Resolved (5000, [5001]));
      PortsReserved (Resolved (5002, [5003])) ].

(** ** Switch and sensor accessories

    The value readers and writers that the accessory classes hand to
    [registerCharacteristic]; the base class that wires them to HomeKit is
    not part of the sources. *)

(** The fields of the device data that these accessories read.  A missing
    property is [None]; [basicValue] is the integral Z-Wave basic value. *)
Record RingDeviceData := mkDeviceData {
  faulted : option bool;
  basicValue : option Z
}.

(** [Boolean(x)] on an optional boolean and on an optional integral number. *)
Definition truthyBool (o : option bool) : bool :=
  match o with Some b => b | None => false end.

Definition truthyNumber (o : option Z) : bool :=
  match o with Some n => negb (n =? 0) | None => false end.

(** The body of the [device.setInfo] request of the Z-Wave switch,
    [{ device: { v1: { basicValue } } }]. *)
Record DeviceInfo := mkDeviceInfo {
  v1BasicValue : Z
}.

Module UnknownZWaveSwitchSwitch.

(** [getValue: (data) => Boolean(data.basicValue)] *)
Definition getValue (data : RingDeviceData) : bool :=
  truthyNumber (basicValue data).

(** [setOnState(on)]: the line logged and the request made. *)
Definition setOnState (deviceName : string) (value : bool)
  : string * DeviceInfo :=
  ("Turning " ++ deviceName ++ " " ++ (if value then "On" else "Off"),
   mkDeviceInfo (if value then 255 else 0)).

End UnknownZWaveSwitchSwitch.

Module FreezeSensor.

(** [distinctUntilChanged()] on the values emitted so far: a value equal
    to the one emitted just before it is dropped. *)
Fixpoint distinctAfter (previous : Z) (values : list Z) : list Z :=
  match values with
  | [] => []
  | x :: rest =>
      if x =? previous then distinctAfter previous rest
      else x :: distinctAfter x rest
  end.

Definition distinctUntilChanged (values : list Z) : list Z :=
  match values with
  | [] => []
  | x :: rest => x :: distinctAfter x rest
  end.

Section Occupancy.

(** [OccupancyDetected.OCCUPANCY_DETECTED] and [OCCUPANCY_NOT_DETECTED]. *)
Variable OCCUPANCY_DETECTED OCCUPANCY_NOT_DETECTED : Z.

(** [onFreezeDetected], for the data the device has emitted so far. *)
Definition onFreezeDetected (emitted : list RingDeviceData) : list Z :=
  distinctUntilChanged
    (map (fun data =>
            if truthyBool (faulted data) then OCCUPANCY_DETECTED
            else OCCUPANCY_NOT_DETECTED) emitted).

(** The lines logged by the subscription behind
    [filter((faulted) => Boolean(faulted))]. *)
Definition freezeLog (deviceName : string) (emitted : list RingDeviceData)
  : list string :=
  map (fun _ => deviceName ++ " Detected Freezing")
    (filter (fun value => negb (value =? 0)) (onFreezeDetected emitted)).

End Occupancy.

(** How often a run of faulted readings begins. *)
Fixpoint freezesAfter (previous : bool) (readings : list bool) : nat :=
  match readings with
  | [] => 0
  | b :: rest =>
      ((if b && negb previous then 1 else 0) + freezesAfter b rest)%nat
  end.

Definition freezes (readings : list bool) : nat := freezesAfter false readings.

End FreezeSensor.

(** ** Basic facts *)

Lemma count_app (p : Effect -> bool) (a b : list Effect) :
  count p (a ++ b) = (count p a + count p b)%nat.
Proof. unfold count. rewrite filter_app, length_app. reflexivity. Qed.

Lemma world_eta (w : World) :
  mkWorld (session w) (pending w) (nextSipCall w) (nextFfmpeg w) (trace w) = w.
Proof. destruct w; reflexivity. Qed.

Lemma fold_emit (A : Type) (f : A -> Effect) (l : list A) (w : World) :
  fold_left (fun acc x => emit (f x) acc) l w
  = mkWorld (session w) (pending w) (nextSipCall w) (nextFfmpeg w)
      (trace w ++ map f l).
Proof.
  revert w. induction l as [|x l IH]; intro w; simpl.
  - rewrite app_nil_r. symmetry. apply world_eta.
  - rewrite IH. simpl. rewrite <- app_assoc. reflexivity.
Qed.

Lemma callEnded_again (b : bool) (w : World) :
  hasCallEnded (session w) = true -> callEnded b w = w.
Proof. intro H. unfold callEnded. rewrite H. reflexivity. Qed.

Lemma callEnded_first (b : bool) (w : World) :
  hasCallEnded (session w) = false ->
  callEnded b w
  = mkWorld
      (setSubscriptions
         (map (fun x => mkSub (source x) true) (subscriptions (session w)))
         (setOnCallEndedSubject
            (mkSubject true (observers (onCallEndedSubject (session w))))
            (setHasCallEnded true (session w))))
      (pending w) (nextSipCall w) (nextFfmpeg w)
      (trace w ++ teardownEffects b (session w)).
Proof.
  intro H. unfold callEnded, teardownEffects. rewrite H.
  unfold onCallEndedNext. destruct b; simpl; rewrite fold_emit; simpl;
    unfold unsubscribe, withSession; simpl;
    repeat rewrite <- app_assoc; reflexivity.
Qed.

Lemma callEnded_ends (b : bool) (w : World) :
  hasCallEnded (session (callEnded b w)) = true.
Proof.
  destruct (hasCallEnded (session w)) eqn:H.
  - rewrite callEnded_again; assumption.
  - rewrite callEnded_first by assumption. reflexivity.
Qed.

Lemma sendStunRequests_spec (d : RtpDescription) (w : World) :
  sendStunRequests d w
  = mkWorld (session w) (pending w) (nextSipCall w) (nextFfmpeg w)
      (trace w ++ stunRound (session w) d).
Proof.
  unfold sendStunRequests, stunRound, emit. simpl.
  rewrite <- app_assoc. reflexivity.
Qed.

Lemma fold_timers (l : list Subscription) (w : World) :
  fold_left
    (fun acc sub =>
       match source sub, closed sub with
       | Timer _ _ d, false => sendStunRequests d acc
       | _, _ => acc
       end) l w
  = mkWorld (session w) (pending w) (nextSipCall w) (nextFfmpeg w)
      (trace w ++ flat_map (timerRound (session w)) l).
Proof.
  revert w. induction l as [|sub l IH]; intro w; simpl.
  - rewrite app_nil_r. symmetry. apply world_eta.
  - rewrite IH. unfold timerRound at 2.
    destruct (source sub); destruct (closed sub); simpl;
      repeat rewrite <- app_assoc; reflexivity.
Qed.

Lemma fireTimers_spec (w : World) :
  fireTimers w
  = mkWorld (session w) (pending w) (nextSipCall w) (nextFfmpeg w)
      (trace w ++ flat_map (timerRound (session w)) (subscriptions (session w))).
Proof. unfold fireTimers. apply fold_timers. Qed.

Lemma fold_latches (s : RtpSplitter) (l : list Subscription) (w : World) :
  session
    (fold_left
       (fun acc sub =>
          match source sub with
          | FirstMessage _ label =>
              if latches s sub then emit (LogDebug label) acc else acc
          | _ => acc
          end) l w)
  = session w.
Proof.
  revert w. induction l as [|sub l IH]; intro w; simpl.
  - reflexivity.
  - rewrite IH. destruct (source sub); try reflexivity.
    destruct (latches s sub); reflexivity.
Qed.

(** ** [startTranscoder] and the tail of [start] meet their closed forms *)

Section ClosedFormLemmas.

Variable createCryptoLine : RtpStreamDescription -> string.
Variable isStunMessage : Buffer -> bool.
Variable getFfmpegPath : string.

Lemma startTranscoder_spec o remote ap vp w :
  startTranscoder createCryptoLine isStunMessage getFfmpegPath o remote ap vp w
  = mkWorld (transcoderSession (nextFfmpeg w) (session w))
      (pending w) (nextSipCall w) (S (nextFfmpeg w))
      (trace w
       ++ transcoderEffects createCryptoLine isStunMessage getFfmpegPath
            o remote ap vp (nextFfmpeg w) (session w)).
Proof.
  destruct w as [s p n f t].
  unfold startTranscoder, transcoderEffects, transcoderSession,
    videoForwarding, audioForwarding.
  destruct (transcodeVideoStream o);
    destruct (buffered (onCallEndedSubject s)) eqn:Hb;
    cbv beta iota zeta delta
      [onCallEndedSubscribe forwardPacketsToFfmpeg emit withSession
       session pending nextSipCall nextFfmpeg trace];
    rewrite ?Hb;
    cbv beta iota zeta delta
      [session pending nextSipCall nextFfmpeg trace setOnCallEndedSubject
       hasStarted hasCallEnded onCallEndedSubject sipCall sipOptions
       rtpOptions audioSplitter audioRtcpSplitter videoSplitter
       videoRtcpSplitter tlsPort camera subscriptions];
    repeat rewrite <- app_assoc; reflexivity.
Qed.

Lemma startInvited_spec o vp ap d w :
  startInvited createCryptoLine isStunMessage getFfmpegPath o vp ap d w
  = mkWorld (invitedSession o d (nextFfmpeg w) (session w))
      None (nextSipCall w)
      (match o with Some _ => S (nextFfmpeg w) | None => nextFfmpeg w end)
      (trace w
       ++ invitedEffects createCryptoLine isStunMessage getFfmpegPath
            o vp ap d (nextFfmpeg w) (session w)).
Proof.
  unfold startInvited.
  assert (E : forall w0 : World,
    (let w1 := if port (rtpAudio d) =? rtcpPort (rtpAudio d)
               then
                 let w2 := emit (Close (audioRtcpSplitter (session w0))) w0 in
                 withSession
                   (fun s => setAudioRtcpSplitter (audioSplitter s) s) w2
               else w0 in
     let w1 := if port (rtpVideo d) =? rtcpPort (rtpVideo d)
               then
                 let w2 := emit (Close (videoRtcpSplitter (session w1))) w1 in
                 withSession
                   (fun s => setVideoRtcpSplitter (videoSplitter s) s) w2
               else w1 in
     let w1 := if truthy (iceUFrag (rtpVideo d))
               then
                 let w2 := emit (LogDebug ("Connecting to "
                              ++ name (camera (session w1)) ++ " using ICE")) w1 in
                 let w2 := emit (CreateStunResponder (audioSplitter (session w2))) w2 in
                 let w2 := emit (CreateStunResponder (videoSplitter (session w2))) w2 in
                 sendStunRequests d w2
               else
                 let w2 := emit (LogDebug ("Connecting to "
                              ++ name (camera (session w1)) ++ " using STUN")) w1 in
                 addSubscriptions [Timer 0 500 d] w2 in
     let w1 := addSubscriptions
                 [ FirstMessage (audioSplitter (session w1))
                     ("Audio stream latched for " ++ name (camera (session w1)));
                   FirstMessage (videoSplitter (session w1))
                     ("Video stream latched for " ++ name (camera (session w1))) ]
                 w1 in
     emit (StartResolved d) (withPending None w1))
    = mkWorld
        (let s := aliasedSession d (session w0) in
         setSubscriptions
           (subscriptions s
            ++ map (fun x => mkSub x false)
                 (natSubscriptions d ++ latchSubscriptions s))%list s)
        None (nextSipCall w0) (nextFfmpeg w0)
        (trace w0 ++ muxEffects d (session w0)
           ++ natEffects d (aliasedSession d (session w0))
           ++ [StartResolved d])).
  { intros [s p n f t].
    unfold aliasedSession, muxEffects, natEffects, natSubscriptions,
      latchSubscriptions, muxAudio, muxVideo, stunRound.
    destruct (port (rtpAudio d) =? rtcpPort (rtpAudio d));
      destruct (port (rtpVideo d) =? rtcpPort (rtpVideo d));
      destruct (truthy (iceUFrag (rtpVideo d)));
      cbv beta iota zeta delta
        [sendStunRequests addSubscriptions emit withSession withPending
         session pending nextSipCall nextFfmpeg trace
         setAudioRtcpSplitter setVideoRtcpSplitter setSubscriptions
         hasStarted hasCallEnded onCallEndedSubject sipCall sipOptions
         rtpOptions audioSplitter audioRtcpSplitter videoSplitter
         videoRtcpSplitter tlsPort camera subscriptions];
      repeat rewrite <- app_assoc; simpl app; rewrite ?app_nil_r;
      reflexivity. }
  destruct o as [opts|]; [rewrite E, startTranscoder_spec | rewrite E];
    destruct w as [s p n f t];
    unfold invitedSession, invitedEffects, aliasedSession, muxEffects,
      natEffects, natSubscriptions, latchSubscriptions, stunRound,
      transcoderSession, muxAudio, muxVideo;
    destruct (port (rtpAudio d) =? rtcpPort (rtpAudio d));
    destruct (port (rtpVideo d) =? rtcpPort (rtpVideo d));
    destruct (truthy (iceUFrag (rtpVideo d)));
    cbv beta iota zeta delta
      [session pending nextSipCall nextFfmpeg trace
       setAudioRtcpSplitter setVideoRtcpSplitter setSubscriptions
       setOnCallEndedSubject
       hasStarted hasCallEnded onCallEndedSubject sipCall sipOptions
       rtpOptions audioSplitter audioRtcpSplitter videoSplitter
       videoRtcpSplitter tlsPort camera subscriptions];
    rewrite <- ?app_assoc; reflexivity.
Qed.

End ClosedFormLemmas.
Lemma invitedSession_hasCallEnded o d ff s :
  hasCallEnded (invitedSession o d ff s) = hasCallEnded s.
Proof.
  unfold invitedSession, aliasedSession, transcoderSession.
  destruct o; destruct (muxAudio d); destruct (muxVideo d); reflexivity.
Qed.

(** ** Lifecycle: the ended flag only ever goes up *)

Section Lifecycle.

Variable createCryptoLine : RtpStreamDescription -> string.
Variable isStunMessage : Buffer -> bool.
Variable getFfmpegPath : string.

Let step' := step createCryptoLine isStunMessage getFfmpegPath.
Let run' := run createCryptoLine isStunMessage getFfmpegPath.

Lemma start_keeps_ended o w :
  hasCallEnded (session (start o w)) = hasCallEnded (session w).
Proof.
  unfold start. destruct (hasStarted (session w)); simpl; try reflexivity.
  destruct (hasCallEnded (session w)) eqn:E; simpl; auto.
Qed.

Lemma startCatch_keeps_ended o e w :
  hasCallEnded (session w) = true ->
  hasCallEnded (session (startCatch o e w)) = true.
Proof.
  intro H. unfold startCatch. destruct (isExpiredDing e); simpl; auto.
  rewrite callEnded_again; auto.
Qed.

Lemma step_keeps_ended (w : World) (ev : Event) :
  hasCallEnded (session w) = true ->
  hasCallEnded (session (step' w ev)) = true.
Proof.
  intro H. unfold step'. destruct ev; simpl; auto.
  - rewrite start_keeps_ended. assumption.
  - apply callEnded_ends.
  - destruct (pending w) as [[o|o p|o p q|o]|]; destruct r as [[p' l]|e];
      simpl; auto using startCatch_keeps_ended.
  - destruct (pending w) as [[o|o p|o p q|o]|]; destruct r as [d|e];
      auto using startCatch_keeps_ended.
    rewrite startInvited_spec.
    cbv beta iota delta [session].
    rewrite invitedSession_hasCallEnded. assumption.
  - destruct (pending w) as [[o|o p|o p q|o]|]; destruct r as [opts|e];
      simpl; auto.
    unfold startRetry. rewrite start_keeps_ended. simpl. assumption.
  - destruct (existsb _ _); auto using callEnded_ends.
  - destruct (Nat.ltb _ _); auto using callEnded_ends.
  - rewrite fireTimers_spec. simpl. assumption.
  - unfold deliverMessage, withSession. simpl. rewrite fold_latches.
    assumption.
Qed.

Lemma run_keeps_ended (evs : list Event) (w : World) :
  hasCallEnded (session w) = true ->
  hasCallEnded (session (run' w evs)) = true.
Proof.
  revert w. induction evs as [|ev evs IH]; intros w H; simpl; auto.
  apply IH. apply step_keeps_ended. assumption.
Qed.

(** Every trigger event is a call of [callEnded] or nothing at all. *)
Lemma trigger_step (w : World) (t : Trigger) :
  step' w (triggerEvent t)
  = if wired w t then callEnded (sendsBye t) w else w.
Proof. destruct t; reflexivity. Qed.

Lemma triggers_after_end (ts : list Trigger) (w : World) :
  hasCallEnded (session w) = true ->
  run' w (map triggerEvent ts) = w.
Proof.
  revert w. induction ts as [|t ts IH]; intros w H; simpl; auto.
  fold step'. rewrite trigger_step.
  destruct (wired w t); [rewrite callEnded_again by assumption|]; auto.
Qed.

(** C1 (as amended).  For a session that has not ended, a first wired
    teardown trigger followed by any further triggers (explicit stops,
    remote terminations, process exits, in any number and order) leaves
    exactly the state of the first teardown: the session is Ended, the
    teardown effects appear once, the signaling client current at that
    moment is destroyed once more than before, all session-scoped
    subscriptions are cancelled, and one termination signal is sent when
    the first trigger is a stop or a process exit, none when it is a
    remote termination.  Ended is absorbing under every later event. *)
Theorem teardown_runs_once (w : World) (t : Trigger) (ts : list Trigger) :
  hasCallEnded (session w) = false ->
  wired w t = true ->
  let w' := run' w (map triggerEvent (t :: ts)) in
  w' = callEnded (sendsBye t) w
  /\ trace w' = (trace w ++ teardownEffects (sendsBye t) (session w))%list
  /\ hasCallEnded (session w') = true
  /\ count isSendBye (trace w')
     = (count isSendBye (trace w) + if sendsBye t then 1 else 0)%nat
  /\ count isOnCallEndedNext (trace w')
     = S (count isOnCallEndedNext (trace w))
  /\ count (isDestroy (sipCall (session w))) (trace w')
     = S (count (isDestroy (sipCall (session w))) (trace w))
  /\ Forall (fun sub => closed sub = true) (subscriptions (session w'))
  /\ forall evs, hasCallEnded (session (run' w' evs)) = true.
Proof.
  intros Hlive Hwired w'.
  assert (E : w' = callEnded (sendsBye t) w).
  { unfold w', run'. simpl. fold step' run'. rewrite trigger_step, Hwired.
    apply triggers_after_end, callEnded_ends. }
  assert (T : trace w' = (trace w ++ teardownEffects (sendsBye t) (session w))%list).
  { rewrite E, callEnded_first by assumption. reflexivity. }
  split; [exact E|]. split; [exact T|].
  split; [rewrite E; apply callEnded_ends|].
  split; [|split; [|split; [|split]]].
  - rewrite T, count_app. f_equal. unfold teardownEffects, count.
    destruct (sendsBye t); simpl; rewrite filter_app; simpl;
      induction (observers (onCallEndedSubject (session w))); simpl; auto.
  - rewrite T, count_app, Nat.add_comm. unfold teardownEffects, count.
    rewrite filter_app, length_app.
    destruct (sendsBye t); simpl; f_equal; rewrite filter_app; simpl;
      induction (observers (onCallEndedSubject (session w))); simpl; auto.
  - rewrite T, count_app, Nat.add_comm. unfold teardownEffects, count.
    rewrite filter_app, length_app.
    destruct (sendsBye t); simpl; rewrite filter_app; simpl;
      rewrite Nat.eqb_refl; simpl;
      induction (observers (onCallEndedSubject (session w))); simpl; auto.
  - rewrite E, callEnded_first by assumption. simpl.
    apply Forall_forall. intros sub Hin. apply in_map_iff in Hin.
    destruct Hin as [x [<- _]]. reflexivity.
  - intro evs. apply run_keeps_ended. rewrite E. apply callEnded_ends.
Qed.

(** C2 (as amended).  [start] on a session whose started flag is set is
    rejected with AlreadyStarted and changes nothing, whether or not the
    session has ended; [start] on a session that ended without having been
    started is rejected with AlreadyEnded, and its one state change is the
    started flag, which is set before the ended check. *)
Theorem start_usage_error (w : World) (o : option FfmpegOptions) :
  hasStarted (session w) || hasCallEnded (session w) = true ->
  step' w (CallStart o)
  = emit
      (StartRejected
         (if hasStarted (session w) then AlreadyStarted else AlreadyEnded))
      (if hasStarted (session w) then w
       else withSession (setHasStarted true) w).
Proof.
  intro H. unfold step'. simpl. unfold start.
  destruct (hasStarted (session w)); simpl in *; [reflexivity|].
  rewrite H. reflexivity.
Qed.

End Lifecycle.

Lemma teardown_runs_once_witness :
  hasCallEnded (session sampleSession) = false
  /\ wired sampleSession ExplicitStop = true
  /\ let w' := sampleRun sampleSession
                 (map triggerEvent
                    [ExplicitStop; RemoteTermination 0%nat; ExplicitStop]) in
     hasCallEnded (session w') = true
     /\ count isSendBye (trace w') = 1%nat.
Proof.
  split; [reflexivity|]. split; [reflexivity|].
  destruct (teardown_runs_once sampleCryptoLine sampleIsStun sampleFfmpegPath
              sampleSession ExplicitStop
              [RemoteTermination 0%nat; ExplicitStop] eq_refl eq_refl)
    as (_ & _ & Hended & Hbye & _).
  split; [exact Hended | exact Hbye].
Defined.

(** C1 as stated fails when the remote ends the call first: the session is
    Ended, later stops and process exits are absorbed, and no termination
    signal was ever sent. *)
Lemma remote_first_sends_no_bye :
  let w := sampleRun sampleSession
             (startedWith (Some (mkFfmpegOptions None VideoUndefined None []))
                (sampleDescription 40001 40003 None)) in
  let w' := sampleRun w
              (map triggerEvent
                 [RemoteTermination 0%nat; ExplicitStop; TranscoderExit 0%nat]) in
  hasCallEnded (session w) = false
  /\ wired w (RemoteTermination 0%nat) = true
  /\ hasCallEnded (session w') = true
  /\ count isSendBye (trace w') = 0%nat
  /\ count isSendBye (trace w') <> 1%nat.
Proof. vm_compute. repeat split; discriminate. Qed.

Lemma start_usage_error_witness :
  let w := sampleRun sampleSession [CallStart None] in
  hasStarted (session w) || hasCallEnded (session w) = true
  /\ sampleStep w (CallStart None) = emit (StartRejected AlreadyStarted) w.
Proof.
  split; [reflexivity|].
  exact (start_usage_error sampleCryptoLine sampleIsStun sampleFfmpegPath
           (sampleRun sampleSession [CallStart None]) None eq_refl).
Defined.

(** C2 as stated fails twice over.  A never-started session that was stopped
    rejects [start] with AlreadyEnded but comes out with its started flag
    set; and a session that was started and then ended rejects [start] with
    AlreadyStarted, not AlreadyEnded. *)
Lemma start_after_stop_changes_state :
  let w := sampleRun sampleSession [CallStop] in
  let w' := sampleStep w (CallStart None) in
  let v := sampleRun sampleSession
             (startedWith None (sampleDescription 40001 40003 None)
              ++ [CallStop]) in
  let v' := sampleStep v (CallStart None) in
  hasStarted (session w) = false
  /\ hasCallEnded (session w) = true
  /\ trace w' = (trace w ++ [StartRejected AlreadyEnded])%list
  /\ hasStarted (session w') = true
  /\ session w' <> session w
  /\ hasCallEnded (session v) = true
  /\ trace v' = (trace v ++ [StartRejected AlreadyStarted])%list
  /\ AlreadyStarted <> AlreadyEnded.
Proof. vm_compute. repeat split; discriminate. Qed.

(** ** Transport handles: aliasing and closing *)

Lemma count_map_FfmpegStop (p : Effect -> bool) (l : list FfmpegProcess) :
  (forall ff, p (FfmpegStop ff) = false) ->
  filter p (map FfmpegStop l) = [].
Proof.
  intro H. induction l as [|ff l IH]; simpl; [reflexivity|].
  rewrite H. exact IH.
Qed.

Lemma count_isClose_teardown (h : RtpSplitter) (b : bool) (s : SipSession) :
  count (isClose h) (teardownEffects b s) = references h s.
Proof.
  unfold teardownEffects, references, handles, count.
  rewrite filter_app.
  replace (filter (isClose h) (if b then [SendBye (sipCall s)] else []))
    with (@nil Effect) by (destruct b; reflexivity).
  simpl. rewrite filter_app, count_map_FfmpegStop by reflexivity. simpl.
  destruct (Nat.eqb h (audioSplitter s));
    destruct (Nat.eqb h (audioRtcpSplitter s));
    destruct (Nat.eqb h (videoSplitter s));
    destruct (Nat.eqb h (videoRtcpSplitter s)); reflexivity.
Qed.

Lemma count_isClose_mux (h : RtpSplitter) (d : RtpDescription)
    (s : SipSession) :
  count (isClose h) (muxEffects d s)
  = ((if muxAudio d && Nat.eqb h (audioRtcpSplitter s) then 1 else 0)
     + (if muxVideo d && Nat.eqb h (videoRtcpSplitter s) then 1 else 0))%nat.
Proof.
  unfold muxEffects, count.
  destruct (muxAudio d); destruct (muxVideo d); simpl;
    destruct (Nat.eqb h (audioRtcpSplitter s));
    destruct (Nat.eqb h (videoRtcpSplitter s)); reflexivity.
Qed.

Lemma handles_invitedSession o d ff s :
  handles (invitedSession o d ff s)
  = [ audioSplitter s;
      if muxAudio d then audioSplitter s else audioRtcpSplitter s;
      videoSplitter s;
      if muxVideo d then videoSplitter s else videoRtcpSplitter s ].
Proof.
  unfold invitedSession, aliasedSession, transcoderSession, handles.
  destruct o; destruct (muxAudio d); destruct (muxVideo d); reflexivity.
Qed.

Lemma references_invitedSession o d ff s :
  audioSplitter (invitedSession o d ff s) = audioSplitter s
  /\ audioRtcpSplitter (invitedSession o d ff s)
     = (if muxAudio d then audioSplitter s else audioRtcpSplitter s)
  /\ videoSplitter (invitedSession o d ff s) = videoSplitter s
  /\ videoRtcpSplitter (invitedSession o d ff s)
     = (if muxVideo d then videoSplitter s else videoRtcpSplitter s).
Proof.
  unfold invitedSession, aliasedSession, transcoderSession.
  destruct o; destruct (muxAudio d); destruct (muxVideo d);
    repeat split; reflexivity.
Qed.

Lemma distinct_handles (a ar v vr : RtpSplitter) :
  NoDup [a; ar; v; vr] ->
  Nat.eqb a ar = false /\ Nat.eqb a v = false /\ Nat.eqb a vr = false
  /\ Nat.eqb ar a = false /\ Nat.eqb ar v = false /\ Nat.eqb ar vr = false
  /\ Nat.eqb v a = false /\ Nat.eqb v ar = false /\ Nat.eqb v vr = false
  /\ Nat.eqb vr a = false /\ Nat.eqb vr ar = false /\ Nat.eqb vr v = false.
Proof.
  intro H.
  inversion H as [|? ? Ha H1]; subst. inversion H1 as [|? ? Har H2]; subst.
  inversion H2 as [|? ? Hv _]; subst. simpl in Ha, Har, Hv.
  repeat split; apply Nat.eqb_neq; intro; subst; intuition.
Qed.

Section Transport.

Variable createCryptoLine : RtpStreamDescription -> string.
Variable isStunMessage : Buffer -> bool.
Variable getFfmpegPath : string.

Let step' := step createCryptoLine isStunMessage getFfmpegPath.

Lemma count_isClose_transcoder h o remote ap vp ff s :
  count (isClose h)
    (transcoderEffects createCryptoLine isStunMessage getFfmpegPath
       o remote ap vp ff s) = 0%nat.
Proof.
  unfold transcoderEffects, videoForwarding, audioForwarding, count.
  destruct (transcodeVideoStream o);
    destruct (buffered (onCallEndedSubject s)); reflexivity.
Qed.

Lemma count_isClose_nat h d s :
  count (isClose h) (natEffects d s) = 0%nat.
Proof.
  unfold natEffects, count.
  destruct (truthy (iceUFrag (rtpVideo d))); reflexivity.
Qed.

Lemma count_isClose_invited h o vp ap d ff s :
  count (isClose h)
    (invitedEffects createCryptoLine isStunMessage getFfmpegPath
       o vp ap d ff s)
  = count (isClose h) (muxEffects d s).
Proof.
  unfold invitedEffects. rewrite !count_app, count_isClose_nat.
  replace (count (isClose h) [StartResolved d]) with 0%nat by reflexivity.
  destruct o; [rewrite count_isClose_transcoder|]; simpl; lia.
Qed.

(** The trace and session when the awaited invite resolves. *)
Lemma invite_resolved o vp ap d w :
  pending w = Some (AwaitInvite o vp ap) ->
  step' w (InviteSettled (Resolved d))
  = mkWorld (invitedSession o d (nextFfmpeg w) (session w))
      None (nextSipCall w)
      (match o with Some _ => S (nextFfmpeg w) | None => nextFfmpeg w end)
      (trace w
       ++ invitedEffects createCryptoLine isStunMessage getFfmpegPath
            o vp ap d (nextFfmpeg w) (session w)).
Proof.
  intro H. unfold step'. simpl. rewrite H. apply startInvited_spec.
Qed.

(** C5.  When the invite resolves, for audio and for video
    independently: if the remote RTP port equals the remote RTCP port, the
    local RTCP splitter receives one [close()] and the session's RTCP
    reference becomes the very object that is its RTP splitter; if the
    ports differ, the RTCP reference is unchanged and its splitter
    receives no [close()]. *)
Theorem port_multiplex_detection (w : World) (o : option FfmpegOptions)
    (vp ap : Z) (d : RtpDescription) :
  pending w = Some (AwaitInvite o vp ap) ->
  NoDup (handles (session w)) ->
  let w' := step' w (InviteSettled (Resolved d)) in
  let ar := audioRtcpSplitter (session w) in
  let vr := videoRtcpSplitter (session w) in
  audioSplitter (session w') = audioSplitter (session w)
  /\ videoSplitter (session w') = videoSplitter (session w)
  /\ (port (rtpAudio d) = rtcpPort (rtpAudio d) ->
      audioRtcpSplitter (session w') = audioSplitter (session w')
      /\ count (isClose ar) (trace w') = S (count (isClose ar) (trace w)))
  /\ (port (rtpAudio d) <> rtcpPort (rtpAudio d) ->
      audioRtcpSplitter (session w') = ar
      /\ count (isClose ar) (trace w') = count (isClose ar) (trace w))
  /\ (port (rtpVideo d) = rtcpPort (rtpVideo d) ->
      videoRtcpSplitter (session w') = videoSplitter (session w')
      /\ count (isClose vr) (trace w') = S (count (isClose vr) (trace w)))
  /\ (port (rtpVideo d) <> rtcpPort (rtpVideo d) ->
      videoRtcpSplitter (session w') = vr
      /\ count (isClose vr) (trace w') = count (isClose vr) (trace w)).
Proof.
  intros Hp Hnd w' ar vr. unfold w'. rewrite (@invite_resolved o vp ap d w Hp).
  cbn [session trace].
  destruct (references_invitedSession o d (nextFfmpeg w) (session w))
    as (Ha & Har & Hv & Hvr).
  rewrite Ha, Har, Hv, Hvr.
  rewrite !count_app, !count_isClose_invited, !count_isClose_mux.
  apply distinct_handles in Hnd.
  destruct Hnd as (_ & _ & _ & _ & _ & Harvr & _ & _ & _ & _ & Hvrar & _).
  fold ar vr in Harvr, Hvrar |- *.
  rewrite Harvr, Hvrar, !Nat.eqb_refl, !andb_false_r, !andb_true_r.
  unfold muxAudio, muxVideo.
  repeat split; try reflexivity.
  - apply Z.eqb_eq in H. rewrite H. reflexivity.
  - apply Z.eqb_eq in H. rewrite H. lia.
  - apply Z.eqb_neq in H. rewrite H. reflexivity.
  - apply Z.eqb_neq in H. rewrite H. lia.
  - apply Z.eqb_eq in H. rewrite H. reflexivity.
  - apply Z.eqb_eq in H. rewrite H. lia.
  - apply Z.eqb_neq in H. rewrite H. reflexivity.
  - apply Z.eqb_neq in H. rewrite H. lia.
Qed.

(** C3 (as amended).  Every teardown calls [close()] once on each of the
    four references, in the order audio RTP, audio RTCP, video RTP, video
    RTCP, so an object receives as many closes as there are references to
    it.  After a [start] on four distinct splitters: a stream that is not
    multiplexed has its RTP and its RTCP splitter closed once each; for a
    multiplexed stream the original RTCP splitter was closed once, at
    aliasing, is no longer among the session's references and receives
    nothing more, while the RTP splitter it was aliased to receives two
    closes. *)
Theorem teardown_closes_every_reference (w : World) (sendBye : bool) :
  hasCallEnded (session w) = false ->
  (forall h,
      count (isClose h) (trace (callEnded sendBye w))
      = (count (isClose h) (trace w) + references h (session w))%nat)
  /\ (forall o vp ap d,
        pending w = Some (AwaitInvite o vp ap) ->
        NoDup (handles (session w)) ->
        let w1 := step' w (InviteSettled (Resolved d)) in
        let w2 := callEnded sendBye w1 in
        let closes h := count (isClose h) (trace w2) in
        let before h := count (isClose h) (trace w) in
        trace w2 = (trace w1 ++ teardownEffects sendBye (session w1))%list
        /\ closes (audioSplitter (session w))
           = (before (audioSplitter (session w))
              + if muxAudio d then 2 else 1)%nat
        /\ closes (audioRtcpSplitter (session w))
           = (before (audioRtcpSplitter (session w)) + 1)%nat
        /\ closes (videoSplitter (session w))
           = (before (videoSplitter (session w))
              + if muxVideo d then 2 else 1)%nat
        /\ closes (videoRtcpSplitter (session w))
           = (before (videoRtcpSplitter (session w)) + 1)%nat
        /\ (muxAudio d = true ->
            ~ In (audioRtcpSplitter (session w)) (handles (session w1)))
        /\ (muxVideo d = true ->
            ~ In (videoRtcpSplitter (session w)) (handles (session w1)))).
Proof.
  intro Hlive. split.
  - intro h. rewrite callEnded_first by assumption.
    cbn [trace].
    rewrite count_app, count_isClose_teardown. reflexivity.
  - intros o vp ap d Hp Hnd w1 w2 closes before.
    assert (E1 : w1 = mkWorld (invitedSession o d (nextFfmpeg w) (session w))
              None (nextSipCall w)
              (match o with Some _ => S (nextFfmpeg w) | None => nextFfmpeg w end)
              (trace w
               ++ invitedEffects createCryptoLine isStunMessage getFfmpegPath
                    o vp ap d (nextFfmpeg w) (session w))).
    { unfold w1. apply invite_resolved. assumption. }
    assert (Hlive1 : hasCallEnded (session w1) = false).
    { rewrite E1. cbn [session].
      rewrite invitedSession_hasCallEnded. assumption. }
    assert (T2 : trace w2 = (trace w1 ++ teardownEffects sendBye (session w1))%list).
    { unfold w2. rewrite callEnded_first by assumption. reflexivity. }
    assert (C : forall h, closes h
                = (before h
                   + (count (isClose h) (muxEffects d (session w))
                      + references h (session w1)))%nat).
    { intro h. unfold closes, before.
      rewrite T2, count_app, count_isClose_teardown.
      rewrite E1 at 1. cbn [trace].
      rewrite count_app, count_isClose_invited. lia. }
    assert (Hh : handles (session w1)
                 = [ audioSplitter (session w);
                     if muxAudio d then audioSplitter (session w)
                     else audioRtcpSplitter (session w);
                     videoSplitter (session w);
                     if muxVideo d then videoSplitter (session w)
                     else videoRtcpSplitter (session w) ]).
    { rewrite E1. apply handles_invitedSession. }
    apply distinct_handles in Hnd.
    destruct Hnd as (H1 & H2 & H3 & H4 & H5 & H6 & H7 & H8 & H9 & H10
                     & H11 & H12).
    split; [exact T2|].
    rewrite !C, !count_isClose_mux. unfold references. rewrite Hh.
    destruct (muxAudio d); destruct (muxVideo d); simpl;
      rewrite ?Nat.eqb_refl, ?H1, ?H2, ?H3, ?H4, ?H5, ?H6, ?H7, ?H8, ?H9,
        ?H10, ?H11, ?H12; simpl;
      repeat split; try reflexivity; try discriminate;
      intros _ Hin; simpl in Hin;
      repeat (destruct Hin as [Hin|Hin];
              [apply Nat.eqb_eq in Hin; congruence|]);
      exact Hin.
Qed.

End Transport.

Lemma port_multiplex_detection_witness :
  let w := sampleRun sampleSession
             [ CallStart None;
               PortsReserved (Resolved (5000, [5001]));
               PortsReserved (Resolved (5002, [5003])) ] in
  let d := sampleDescription 40000 40003 None in
  let w' := sampleStep w (InviteSettled (Resolved d)) in
  pending w = Some (AwaitInvite None 5000 5002)
  /\ NoDup (handles (session w))
  /\ port (rtpAudio d) = rtcpPort (rtpAudio d)
  /\ audioRtcpSplitter (session w') = audioSplitter (session w')
  /\ count (isClose 11%nat) (trace w') = 1%nat
  /\ videoRtcpSplitter (session w') = 21%nat
  /\ count (isClose 21%nat) (trace w') = 0%nat.
Proof.
  assert (Hnd : NoDup [10; 11; 20; 21]%nat).
  { repeat constructor; simpl; intuition discriminate. }
  destruct (@port_multiplex_detection sampleCryptoLine sampleIsStun
              sampleFfmpegPath
              (sampleRun sampleSession
                 [ CallStart None;
                   PortsReserved (Resolved (5000, [5001]));
                   PortsReserved (Resolved (5002, [5003])) ])
              None 5000 5002 (sampleDescription 40000 40003 None)
              eq_refl Hnd)
    as (_ & _ & Ha & _ & _ & Hv).
  destruct (Ha eq_refl) as [Ha1 Ha2].
  assert (Hneq : 40002 <> 40003) by discriminate.
  destruct (Hv Hneq) as [Hv1 Hv2].
  repeat split; try exact Hnd; try assumption.
Defined.

Lemma teardown_closes_every_reference_witness :
  let w := sampleRun sampleSession
             [ CallStart None;
               PortsReserved (Resolved (5000, [5001]));
               PortsReserved (Resolved (5002, [5003])) ] in
  let d := sampleDescription 40000 40003 None in
  let w2 := callEnded true (sampleStep w (InviteSettled (Resolved d))) in
  hasCallEnded (session w) = false
  /\ pending w = Some (AwaitInvite None 5000 5002)
  /\ NoDup (handles (session w))
  /\ count (isClose 10%nat) (trace w2) = 2%nat
  /\ count (isClose 11%nat) (trace w2) = 1%nat.
Proof.
  assert (Hnd : NoDup [10; 11; 20; 21]%nat).
  { repeat constructor; simpl; intuition discriminate. }
  destruct (@teardown_closes_every_reference sampleCryptoLine sampleIsStun
              sampleFfmpegPath
              (sampleRun sampleSession
                 [ CallStart None;
                   PortsReserved (Resolved (5000, [5001]));
                   PortsReserved (Resolved (5002, [5003])) ])
              true eq_refl) as [_ H].
  destruct (H None 5000 5002 (sampleDescription 40000 40003 None) eq_refl Hnd)
    as (_ & Ha & Har & _).
  repeat split; try exact Hnd; assumption.
Defined.

(** C3 as stated fails when the remote multiplexes audio RTCP: at teardown
    the audio RTP splitter (10) is closed through both the RTP and the
    aliased RTCP reference, so its [close()] runs twice. *)
Lemma aliased_handle_closed_twice :
  let w := sampleRun sampleSession
             (startedWith None (sampleDescription 40000 40003 None)
              ++ [CallStop]) in
  audioSplitter (session w) = 10%nat
  /\ audioRtcpSplitter (session w) = 10%nat
  /\ count (isClose 10%nat) (trace w) = 2%nat
  /\ count (isClose 10%nat) (trace w) <> 1%nat.
Proof. vm_compute. repeat split; discriminate. Qed.

(** ** NAT traversal: ICE responders or STUN keepalive *)

Lemma timerRound_none (s : SipSession) (l : list Subscription) :
  forallb (fun sub => negb (isOpenTimer sub)) l = true ->
  flat_map (timerRound s) l = [].
Proof.
  induction l as [|sub l IH]; simpl; [reflexivity|].
  intro H. apply andb_true_iff in H. destruct H as [H1 H2].
  rewrite (IH H2), app_nil_r. unfold timerRound, isOpenTimer in *.
  destruct (source sub); destruct (closed sub); try reflexivity; discriminate.
Qed.

Lemma timerRound_closed (s : SipSession) (l : list Subscription) :
  flat_map (timerRound s) (map (fun x => mkSub (source x) true) l) = [].
Proof.
  induction l as [|sub l IH]; simpl; [reflexivity|].
  rewrite IH, app_nil_r. unfold timerRound. simpl.
  destruct (source sub); reflexivity.
Qed.

Lemma subscriptions_invitedSession o d ff s :
  subscriptions (invitedSession o d ff s)
  = (subscriptions s
     ++ map (fun x => mkSub x false)
          (natSubscriptions d
             ++ latchSubscriptions (invitedSession o d ff s)))%list.
Proof.
  unfold invitedSession, aliasedSession, transcoderSession.
  destruct o; destruct (muxAudio d); destruct (muxVideo d); reflexivity.
Qed.

Lemma natEffects_invitedSession o d ff s :
  natEffects d (aliasedSession d s) = natEffects d (invitedSession o d ff s).
Proof.
  unfold invitedSession, aliasedSession, transcoderSession.
  destruct o; destruct (muxAudio d); destruct (muxVideo d); reflexivity.
Qed.

Lemma tickEffects_invitedSession o d ff s :
  noOpenTimer s = true ->
  tickEffects (invitedSession o d ff s)
  = if truthy (iceUFrag (rtpVideo d)) then []
    else stunRound (invitedSession o d ff s) d.
Proof.
  intro H. unfold tickEffects. rewrite subscriptions_invitedSession.
  rewrite flat_map_app, (timerRound_none _ _ H). unfold natSubscriptions.
  destruct (truthy (iceUFrag (rtpVideo d))); reflexivity.
Qed.

Section NatTraversal.

Variable createCryptoLine : RtpStreamDescription -> string.
Variable isStunMessage : Buffer -> bool.
Variable getFfmpegPath : string.

Let step' := step createCryptoLine isStunMessage getFfmpegPath.
Let run' := run createCryptoLine isStunMessage getFfmpegPath.

(** [n] timer ticks in a row. *)
Lemma ticks (n : nat) (w : World) :
  run' w (repeat TimerFired n)
  = mkWorld (session w) (pending w) (nextSipCall w) (nextFfmpeg w)
      (trace w ++ List.concat (repeat (tickEffects (session w)) n)).
Proof.
  revert w. induction n as [|n IH]; intro w; simpl.
  - rewrite app_nil_r. symmetry. apply world_eta.
  - fold run'. rewrite IH, fireTimers_spec. cbn [session pending nextSipCall
      nextFfmpeg trace]. unfold tickEffects at 2.
    rewrite <- app_assoc. reflexivity.
Qed.

Lemma filter_transcoderEffects (p : Effect -> bool) o remote ap vp ff s :
  (forall x h, p (AddMessageHandler x h) = false) ->
  (forall x a b c, p (NewFfmpegProcess x a b c) = false) ->
  (forall x, p (FfmpegStop x) = false) ->
  (forall x t, p (WriteStdin x t) = false) ->
  filter p
    (transcoderEffects createCryptoLine isStunMessage getFfmpegPath
       o remote ap vp ff s) = [].
Proof.
  intros H1 H2 H3 H4.
  unfold transcoderEffects, videoForwarding, audioForwarding.
  destruct (transcodeVideoStream o);
    destruct (buffered (onCallEndedSubject s)); simpl;
    rewrite ?H1, ?H2, ?H3, ?H4; reflexivity.
Qed.

Lemma filter_invitedEffects (p : Effect -> bool) o vp ap d ff s :
  (forall x h, p (AddMessageHandler x h) = false) ->
  (forall x a b c, p (NewFfmpegProcess x a b c) = false) ->
  (forall x, p (FfmpegStop x) = false) ->
  (forall x t, p (WriteStdin x t) = false) ->
  (forall x, p (Close x) = false) ->
  (forall x, p (StartResolved x) = false) ->
  filter p
    (invitedEffects createCryptoLine isStunMessage getFfmpegPath
       o vp ap d ff s)
  = filter p (natEffects d (invitedSession o d ff s)).
Proof.
  intros H1 H2 H3 H4 H5 H6. unfold invitedEffects.
  rewrite !filter_app, (natEffects_invitedSession o d ff s).
  replace (filter p (muxEffects d s)) with (@nil Effect).
  2:{ unfold muxEffects. destruct (muxAudio d); destruct (muxVideo d);
      simpl; rewrite ?H5; reflexivity. }
  replace (filter p [StartResolved d]) with (@nil Effect)
    by (simpl; rewrite H6; reflexivity).
  rewrite app_nil_r. destruct o as [opts|]; [|reflexivity].
  rewrite filter_transcoderEffects by assumption. reflexivity.
Qed.


End NatTraversal.



(** ** Invite failures: expired ding retry and fatal errors *)

Lemma createSipCall_spec (opts : SipOptions) (w : World) :
  createSipCall opts w
  = mkWorld
      (setSubscriptions
         (subscriptions (session w)
          ++ [mkSub (EndedByRemote (nextSipCall w)) false])%list
         (setSipCall (nextSipCall w) (session w)))
      (pending w) (S (nextSipCall w)) (nextFfmpeg w)
      (trace w
       ++ [ Destroy (sipCall (session w));
            NewSipCall (nextSipCall w) opts (rtpOptions (session w))
              (tlsPort (session w)) ])%list.
Proof.
  destruct w as [s p n f t].
  unfold createSipCall, addSubscriptions, emit, withSession.
  cbn. rewrite <- app_assoc. reflexivity.
Qed.

Lemma start_accepted (o : option FfmpegOptions) (w : World) :
  hasStarted (session w) = false ->
  hasCallEnded (session w) = false ->
  start o w
  = mkWorld (setHasStarted true (session w)) (Some (AwaitVideoPort o))
      (nextSipCall w) (nextFfmpeg w) (trace w ++ [ReservePorts 2])%list.
Proof.
  intros H1 H2. unfold start. rewrite H1. cbn. rewrite H2. reflexivity.
Qed.

Section InviteFailure.

Variable createCryptoLine : RtpStreamDescription -> string.
Variable isStunMessage : Buffer -> bool.
Variable getFfmpegPath : string.

Let step' := step createCryptoLine isStunMessage getFfmpegPath.


End InviteFailure.


(** ** The session description fed to the transcoder *)

Lemma numberToString_decimal (z : Z) :
  0 <= z ->
  numberToString z = NilZero.string_of_uint (N.to_uint (Z.to_N z)).
Proof.
  intro H. destruct z as [|p|p]; [reflexivity|reflexivity|lia].
Qed.

Lemma noNewline_app (a b : string) :
  noNewline (a ++ b) = noNewline a && noNewline b.
Proof.
  induction a as [|c a IH]; simpl; [reflexivity|].
  rewrite IH. apply andb_assoc.
Qed.

Lemma noNewline_digits (u : Decimal.uint) :
  noNewline (NilEmpty.string_of_uint u) = true.
Proof. induction u; simpl; auto. Qed.

Lemma noNewline_decimal (u : Decimal.uint) :
  noNewline (NilZero.string_of_uint u) = true.
Proof.
  destruct u; try reflexivity; unfold NilZero.string_of_uint;
    apply noNewline_digits.
Qed.

Lemma splitLines_single (line : string) :
  noNewline line = true -> splitLines line = [line].
Proof.
  induction line as [|c line IH]; simpl; [reflexivity|].
  intro H. apply andb_true_iff in H. destruct H as [H1 H2].
  apply negb_true_iff in H1. rewrite H1, (IH H2). reflexivity.
Qed.

Lemma splitLines_cons (line rest : string) :
  noNewline line = true ->
  splitLines (line ++ String (ascii_of_nat 10) rest)
  = line :: splitLines rest.
Proof.
  induction line as [|c line IH]; intro H.
  - reflexivity.
  - simpl in H. apply andb_true_iff in H. destruct H as [H1 H2].
    apply negb_true_iff in H1.
    change (String c line ++ String (ascii_of_nat 10) rest)
      with (String c (line ++ String (ascii_of_nat 10) rest)).
    cbn [splitLines]. rewrite H1, (IH H2). reflexivity.
Qed.

Lemma splitLines_concat (lines : list string) :
  lines <> [] ->
  forallb noNewline lines = true ->
  splitLines (String.concat (String (ascii_of_nat 10) "") lines) = lines.
Proof.
  induction lines as [|line lines IH]; intros Hne H; [congruence|].
  simpl in H. apply andb_true_iff in H. destruct H as [H1 H2].
  destruct lines as [|line' lines].
  - simpl. apply splitLines_single. exact H1.
  - change (String.concat (String (ascii_of_nat 10) "")
              (line :: line' :: lines))
      with (line ++ String (ascii_of_nat 10)
                      (String.concat (String (ascii_of_nat 10) "")
                         (line' :: lines))).
    rewrite splitLines_cons by exact H1.
    rewrite IH; [reflexivity|discriminate|exact H2].
Qed.

Section SessionDescription.

Variable createCryptoLine : RtpStreamDescription -> string.
Variable isStunMessage : Buffer -> bool.
Variable getFfmpegPath : string.

Let step' := step createCryptoLine isStunMessage getFfmpegPath.

(** What the tail of [start] writes to a transcoder's standard input. *)
Lemma written_invitedEffects (opts : FfmpegOptions) (vp ap : Z)
    (d : RtpDescription) (ff : FfmpegProcess) (s : SipSession) :
  filter isWriteStdin
    (invitedEffects createCryptoLine isStunMessage getFfmpegPath
       (Some opts) vp ap d ff s)
  = [WriteStdin ff (sdpDocument createCryptoLine opts d ap vp)].
Proof.
  unfold invitedEffects. rewrite !filter_app.
  replace (filter isWriteStdin (muxEffects d s)) with (@nil Effect)
    by (unfold muxEffects; destruct (muxAudio d); destruct (muxVideo d);
        reflexivity).
  replace (filter isWriteStdin (natEffects d (aliasedSession d s)))
    with (@nil Effect)
    by (unfold natEffects; destruct (truthy (iceUFrag (rtpVideo d)));
        reflexivity).
  unfold transcoderEffects, videoForwarding, audioForwarding.
  destruct (transcodeVideoStream opts);
    destruct (buffered (onCallEndedSubject s)); reflexivity.
Qed.

(** The lines of the document, spelled out. *)
Lemma sdpDocument_lines (opts : FfmpegOptions) (remote : RtpOptions)
    (ap vp : Z) :
  0 <= ap <= 65535 -> 0 <= vp <= 65535 ->
  filter truthyString (inputSdpLines createCryptoLine opts remote ap vp)
  = (([ "v=0";
       "o=105202070 3747 461 IN IP4 127.0.0.1";
       "s=Talk";
       "c=IN IP4 127.0.0.1";
       "b=AS:380";
       "t=0 0";
       "a=rtcp-xr:rcvr-rtt=all:10000 stat-summary=loss,dup,jitt,TTL voip-metrics";
       ("m=audio " ++ NilZero.string_of_uint (N.to_uint (Z.to_N ap))
          ++ " RTP/SAVP 0 101")%string;
       "a=rtpmap:0 PCMU/8000" ]
     ++ (if String.eqb (createCryptoLine (rtpAudio remote)) "" then []
         else [createCryptoLine (rtpAudio remote)])
     ++ [ ("a=rtcp:" ++ NilZero.string_of_uint (N.to_uint (Z.to_N (ap + 1)))
             ++ " IN IP4 127.0.0.1")%string ])
     ++ match video opts with
        | VideoFalse => []
        | _ =>
            [ ("m=video " ++ NilZero.string_of_uint (N.to_uint (Z.to_N vp))
                 ++ " RTP/SAVP 99")%string;
              "a=rtpmap:99 H264/90000" ]
            ++ (if String.eqb (createCryptoLine (rtpVideo remote)) "" then []
                else [createCryptoLine (rtpVideo remote)])
            ++ [ ("a=rtcp:"
                    ++ NilZero.string_of_uint (N.to_uint (Z.to_N (vp + 1)))
                    ++ " IN IP4 127.0.0.1")%string ]
        end)%list.
Proof.
  intros Ha Hv.
  unfold inputSdpLines, audioSdpLines, videoSdpLines, transcodeVideoStream.
  rewrite !numberToString_decimal by lia.
  generalize (NilZero.string_of_uint (N.to_uint (Z.to_N ap))).
  generalize (NilZero.string_of_uint (N.to_uint (Z.to_N (ap + 1)))).
  generalize (NilZero.string_of_uint (N.to_uint (Z.to_N vp))).
  generalize (NilZero.string_of_uint (N.to_uint (Z.to_N (vp + 1)))).
  generalize (createCryptoLine (rtpAudio remote)).
  generalize (createCryptoLine (rtpVideo remote)).
  intros cv ca v1 v0 a1 a0.
  unfold truthyString.
  destruct (video opts); cbn [app filter String.eqb Ascii.eqb Bool.eqb negb
                              String.append];
    destruct (String.eqb ca ""); destruct (String.eqb cv ""); reflexivity.
Qed.


(** C7.  Under [start] with transcoding options, when the invite resolves
    one text is written to the standard input of the process just spawned:
    the lines below joined by line breaks.  They are the seven preamble
    lines, the audio media line on the audio port with payload types 0 and
    101, the PCMU/8000 map, the audio crypto line unless it is empty and
    the rtcp line on audio port + 1, followed by the video lines (payload
    99, H264/90000, video crypto unless empty, rtcp on video port + 1)
    exactly when the video option is not [false]; ports are printed in
    decimal.  When the crypto lines hold no line break, splitting the text
    at line breaks gives back these lines and none is empty; with video
    [false] they are the audio lines alone, of which exactly one is a
    media line as long as the audio crypto line is not one. *)
Theorem sdp_document_contract (w : World) (opts : FfmpegOptions)
    (vp ap : Z) (d : RtpDescription) :
  pending w = Some (AwaitInvite (Some opts) vp ap) ->
  0 <= ap <= 65535 ->
  0 <= vp <= 65535 ->
  let w1 := step' w (InviteSettled (Resolved d)) in
  let decimal := fun z => NilZero.string_of_uint (N.to_uint (Z.to_N z)) in
  let present :=
    fun line : string => if String.eqb line "" then [] else [line] in
  let audioLines :=
    ([ "v=0";
       "o=105202070 3747 461 IN IP4 127.0.0.1";
       "s=Talk";
       "c=IN IP4 127.0.0.1";
       "b=AS:380";
       "t=0 0";
       "a=rtcp-xr:rcvr-rtt=all:10000 stat-summary=loss,dup,jitt,TTL voip-metrics";
       ("m=audio " ++ decimal ap ++ " RTP/SAVP 0 101")%string;
       "a=rtpmap:0 PCMU/8000" ]
     ++ present (createCryptoLine (rtpAudio d))
     ++ [ ("a=rtcp:" ++ decimal (ap + 1) ++ " IN IP4 127.0.0.1")%string ])%list
  in
  let videoLines :=
    ([ ("m=video " ++ decimal vp ++ " RTP/SAVP 99")%string;
       "a=rtpmap:99 H264/90000" ]
     ++ present (createCryptoLine (rtpVideo d))
     ++ [ ("a=rtcp:" ++ decimal (vp + 1) ++ " IN IP4 127.0.0.1")%string ])%list
  in
  let lines :=
    (audioLines
     ++ match video opts with VideoFalse => [] | _ => videoLines end)%list in
  let text := String.concat (String (ascii_of_nat 10) "") lines in
  filter isWriteStdin (skipn (List.length (trace w)) (trace w1))
  = [WriteStdin (nextFfmpeg w) text]
  /\ (noNewline (createCryptoLine (rtpAudio d)) = true ->
      noNewline (createCryptoLine (rtpVideo d)) = true ->
      splitLines text = lines /\ ~ In "" (splitLines text))
  /\ (video opts = VideoFalse ->
      noNewline (createCryptoLine (rtpAudio d)) = true ->
      splitLines text = audioLines
      /\ ~ In "" (splitLines text)
      /\ (isMediaLine (createCryptoLine (rtpAudio d)) = false ->
          List.length (filter isMediaLine (splitLines text)) = 1%nat)).
Proof.
  intros Hp Ha Hv w1 decimal present audioLines videoLines lines text.
  assert (Na : noNewline (createCryptoLine (rtpAudio d)) = true ->
               forallb noNewline audioLines = true).
  { intro Hca. unfold audioLines, present, decimal.
    destruct (String.eqb (createCryptoLine (rtpAudio d)) "");
      cbn [app forallb];
      rewrite ?noNewline_app, ?noNewline_decimal, ?Hca; reflexivity. }
  assert (Nv : noNewline (createCryptoLine (rtpVideo d)) = true ->
               forallb noNewline videoLines = true).
  { intro Hcv. unfold videoLines, present, decimal.
    destruct (String.eqb (createCryptoLine (rtpVideo d)) "");
      cbn [app forallb];
      rewrite ?noNewline_app, ?noNewline_decimal, ?Hcv; reflexivity. }
  assert (Ea : ~ In "" audioLines).
  { unfold audioLines, present.
    destruct (String.eqb (createCryptoLine (rtpAudio d)) "") eqn:E;
      cbn [app In]; intro H;
      repeat (destruct H as [H|H]; [try discriminate H|]); try exact H.
    apply String.eqb_eq in H. congruence. }
  assert (Ev : ~ In "" videoLines).
  { unfold videoLines, present.
    destruct (String.eqb (createCryptoLine (rtpVideo d)) "") eqn:E;
      cbn [app In]; intro H;
      repeat (destruct H as [H|H]; [try discriminate H|]); try exact H.
    apply String.eqb_eq in H. congruence. }
  assert (Ne : forall l, (audioLines ++ l)%list <> []).
  { intro l. unfold audioLines. discriminate. }
  refine (conj _ (conj _ _)).
  - unfold w1, step'.
    rewrite (@invite_resolved createCryptoLine isStunMessage getFfmpegPath
               (Some opts) vp ap d w Hp).
    cbn [trace]. rewrite skipn_app, skipn_all, Nat.sub_diag.
    cbn [skipn app]. rewrite written_invitedEffects.
    unfold sdpDocument, join, newline.
    rewrite sdpDocument_lines by assumption. reflexivity.
  - intros Hca Hcv.
    assert (E : splitLines text = lines).
    { apply splitLines_concat; [apply Ne|].
      unfold lines. rewrite forallb_app, (Na Hca).
      destruct (video opts); [apply (Nv Hcv)|reflexivity|apply (Nv Hcv)]. }
    split; [exact E|]. rewrite E. unfold lines. intro H.
    apply in_app_or in H. destruct H as [H|H]; [exact (Ea H)|].
    destruct (video opts); [exact (Ev H)|exact H|exact (Ev H)].
  - intros Hvideo Hca.
    assert (E : splitLines text = audioLines).
    { unfold text, lines. rewrite Hvideo, app_nil_r.
      apply splitLines_concat; [|exact (Na Hca)].
      rewrite <- (app_nil_r audioLines). apply Ne. }
    refine (conj E (conj _ _)); rewrite E; [exact Ea|].
    intro Hm. unfold audioLines, present.
    destruct (String.eqb (createCryptoLine (rtpAudio d)) "");
      cbn [app filter isMediaLine String.append List.length];
      rewrite ?Hm; reflexivity.
Qed.

End SessionDescription.

Lemma sdp_document_contract_witness :
  pending (sampleInviting (Some (mkFfmpegOptions None VideoFalse None [])))
  = Some (AwaitInvite (Some (mkFfmpegOptions None VideoFalse None []))
            5000 5002)
  /\ 0 <= 5002 <= 65535
  /\ 0 <= 5000 <= 65535
  /\ noNewline
       (sampleCryptoLine (rtpAudio (sampleDescription 40001 40003 None)))
     = true
  /\ isMediaLine
       (sampleCryptoLine (rtpAudio (sampleDescription 40001 40003 None)))
     = false
  /\ filter isWriteStdin
       (skipn
          (List.length
             (trace
                (sampleInviting
                   (Some (mkFfmpegOptions None VideoFalse None [])))))
          (trace
             (sampleStep
                (sampleInviting
                   (Some (mkFfmpegOptions None VideoFalse None [])))
                (InviteSettled
                   (Resolved (sampleDescription 40001 40003 None))))))
     = [ WriteStdin 0%nat
           (String.concat (String (ascii_of_nat 10) "")
              [ "v=0";
                "o=105202070 3747 461 IN IP4 127.0.0.1";
                "s=Talk";
                "c=IN IP4 127.0.0.1";
                "b=AS:380";
                "t=0 0";
                "a=rtcp-xr:rcvr-rtt=all:10000 stat-summary=loss,dup,jitt,TTL voip-metrics";
                "m=audio 5002 RTP/SAVP 0 101";
                "a=rtpmap:0 PCMU/8000";
                "a=crypto:1 AES_CM_128_HMAC_SHA1_80 inline:key-a";
                "a=rtcp:5003 IN IP4 127.0.0.1" ]) ]
  /\ List.length
       (filter isMediaLine
          (splitLines
             (String.concat (String (ascii_of_nat 10) "")
                [ "v=0";
                  "o=105202070 3747 461 IN IP4 127.0.0.1";
                  "s=Talk";
                  "c=IN IP4 127.0.0.1";
                  "b=AS:380";
                  "t=0 0";
                  "a=rtcp-xr:rcvr-rtt=all:10000 stat-summary=loss,dup,jitt,TTL voip-metrics";
                  "m=audio 5002 RTP/SAVP 0 101";
                  "a=rtpmap:0 PCMU/8000";
                  "a=crypto:1 AES_CM_128_HMAC_SHA1_80 inline:key-a";
                  "a=rtcp:5003 IN IP4 127.0.0.1" ]))) = 1%nat.
Proof.
  assert (Ha : 0 <= 5002 <= 65535) by lia.
  assert (Hv : 0 <= 5000 <= 65535) by lia.
  destruct (@sdp_document_contract sampleCryptoLine sampleIsStun
              sampleFfmpegPath
              (sampleInviting (Some (mkFfmpegOptions None VideoFalse None [])))
              (mkFfmpegOptions None VideoFalse None []) 5000 5002
              (sampleDescription 40001 40003 None) eq_refl Ha Hv)
    as (Hwritten & _ & Haudio).
  destruct (Haudio eq_refl eq_refl) as (_ & _ & Hone).
  refine (conj eq_refl (conj Ha (conj Hv (conj eq_refl (conj eq_refl _))))).
  split; [exact Hwritten | exact (Hone eq_refl)].
Defined.

(** ** Packet forwarding to the transcoder *)

Lemma registrations_app (a b : list Effect) :
  registrations (a ++ b) = (registrations a ++ registrations b)%list.
Proof.
  induction a as [|e a IH]; simpl; [reflexivity|].
  destruct e; simpl; rewrite ?IH; reflexivity.
Qed.

Lemma handlersOn_app (h : RtpSplitter) (a b : list Effect) :
  handlersOn h (a ++ b) = (handlersOn h a ++ handlersOn h b)%list.
Proof.
  unfold handlersOn. rewrite registrations_app, filter_app, map_app.
  reflexivity.
Qed.

Section Forwarding.

Variable createCryptoLine : RtpStreamDescription -> string.
Variable isStunMessage : Buffer -> bool.
Variable getFfmpegPath : string.

Let step' := step createCryptoLine isStunMessage getFfmpegPath.

Lemma registrations_invitedEffects o vp ap d ff s :
  registrations
    (invitedEffects createCryptoLine isStunMessage getFfmpegPath
       o vp ap d ff s)
  = match o with
    | Some opts => forwardingTable isStunMessage opts vp ap s
    | None => []
    end.
Proof.
  unfold invitedEffects. rewrite !registrations_app.
  replace (registrations (muxEffects d s))
    with (@nil (RtpSplitter * (Buffer -> option Z)))
    by (unfold muxEffects; destruct (muxAudio d); destruct (muxVideo d);
        reflexivity).
  replace (registrations (natEffects d (aliasedSession d s)))
    with (@nil (RtpSplitter * (Buffer -> option Z)))
    by (unfold natEffects; destruct (truthy (iceUFrag (rtpVideo d)));
        reflexivity).
  simpl. rewrite app_nil_r. destruct o as [opts|]; [|reflexivity].
  unfold transcoderEffects, forwardingTable, videoForwarding,
    audioForwarding.
  destruct (transcodeVideoStream opts);
    destruct (buffered (onCallEndedSubject s)); reflexivity.
Qed.

(** C8.  When the invite resolves, packet handlers are registered only if
    transcode options were supplied, and then on exactly the audio RTP
    and audio RTCP splitters, preceded by the video RTP and video RTCP
    splitters when video is transcoded; the handler registered for a
    port returns no target for a STUN message and that port for every
    other message (RTP handlers target the reserved port, RTCP handlers
    the port after it). *)
Theorem packet_forwarding (w : World) (o : option FfmpegOptions)
    (vp ap : Z) (d : RtpDescription) :
  pending w = Some (AwaitInvite o vp ap) ->
  let w1 := step' w (InviteSettled (Resolved d)) in
  let s := session w in
  registrations (trace w1)
  = (registrations (trace w)
     ++ match o with
        | None => []
        | Some opts =>
            (if transcodeVideoStream opts
             then [ (videoSplitter s, packetHandler isStunMessage vp);
                    (videoRtcpSplitter s,
                     packetHandler isStunMessage (vp + 1)) ]
             else [])
            ++ [ (audioSplitter s, packetHandler isStunMessage ap);
                 (audioRtcpSplitter s,
                  packetHandler isStunMessage (ap + 1)) ]
        end)%list
  /\ forall targetPort message,
       (isStunMessage message = true ->
        packetHandler isStunMessage targetPort message = None)
       /\ (isStunMessage message = false ->
           packetHandler isStunMessage targetPort message = Some targetPort).
Proof.
  intros Hp w1 s. split.
  - unfold w1, step'. rewrite (@invite_resolved createCryptoLine isStunMessage
                          getFfmpegPath o vp ap d w Hp).
    cbn [trace]. rewrite registrations_app, registrations_invitedEffects.
    destruct o; reflexivity.
  - intros targetPort message. unfold packetHandler.
    split; intro H; rewrite H; reflexivity.
Qed.

(** C10.  With transcode options, the forwarding handlers are registered
    before port-multiplex detection runs.  So when the remote multiplexes
    audio RTCP, the handler for the transcoder's audio RTCP port sits on
    the original RTCP splitter, which is closed afterwards, and the
    splitter that is the audio RTCP reference once [start] returns (the
    audio RTP splitter) has gained only the handler for the RTP port,
    which never targets the RTCP port.  The same holds for video when
    video is transcoded. *)
Theorem rtcp_handler_left_on_closed_splitter (w : World)
    (opts : FfmpegOptions) (vp ap : Z) (d : RtpDescription) :
  pending w = Some (AwaitInvite (Some opts) vp ap) ->
  NoDup (handles (session w)) ->
  let w1 := step' w (InviteSettled (Resolved d)) in
  let a := audioSplitter (session w) in
  let ar := audioRtcpSplitter (session w) in
  let v := videoSplitter (session w) in
  let vr := videoRtcpSplitter (session w) in
  (port (rtpAudio d) = rtcpPort (rtpAudio d) ->
     audioRtcpSplitter (session w1) = a
     /\ handlersOn a (trace w1)
        = (handlersOn a (trace w) ++ [packetHandler isStunMessage ap])%list
     /\ handlersOn ar (trace w1)
        = (handlersOn ar (trace w)
           ++ [packetHandler isStunMessage (ap + 1)])%list
     /\ (exists t1 t2 t3,
           trace w1
           = (trace w ++ t1
              ++ AddMessageHandler ar (packetHandler isStunMessage (ap + 1))
                 :: t2 ++ Close ar :: t3)%list)
     /\ forall message,
          packetHandler isStunMessage ap message <> Some (ap + 1))
  /\ (port (rtpVideo d) = rtcpPort (rtpVideo d) ->
      transcodeVideoStream opts = true ->
        videoRtcpSplitter (session w1) = v
        /\ handlersOn v (trace w1)
           = (handlersOn v (trace w) ++ [packetHandler isStunMessage vp])%list
        /\ handlersOn vr (trace w1)
           = (handlersOn vr (trace w)
              ++ [packetHandler isStunMessage (vp + 1)])%list
        /\ (exists t1 t2 t3,
              trace w1
              = (trace w ++ t1
                 ++ AddMessageHandler vr
                      (packetHandler isStunMessage (vp + 1))
                    :: t2 ++ Close vr :: t3)%list)
        /\ forall message,
             packetHandler isStunMessage vp message <> Some (vp + 1)).
Proof.
  intros Hp Hnd w1 a ar v vr.
  assert (E1 : w1 = mkWorld
                      (invitedSession (Some opts) d (nextFfmpeg w) (session w))
                      None (nextSipCall w) (S (nextFfmpeg w))
                      (trace w
                       ++ invitedEffects createCryptoLine isStunMessage
                            getFfmpegPath (Some opts) vp ap d
                            (nextFfmpeg w) (session w))).
  { unfold w1. apply (@invite_resolved createCryptoLine isStunMessage
                        getFfmpegPath (Some opts) vp ap d w Hp). }
  assert (Hh : forall h,
             handlersOn h (trace w1)
             = (handlersOn h (trace w)
                ++ map snd (filter (fun r => Nat.eqb h (fst r))
                              (forwardingTable isStunMessage opts vp ap (session w))))%list).
  { intro h. rewrite E1. cbn [trace]. rewrite handlersOn_app.
    unfold handlersOn at 2. rewrite registrations_invitedEffects.
    reflexivity. }
  destruct (references_invitedSession (Some opts) d (nextFfmpeg w) (session w))
    as (_ & Har & _ & Hvr).
  apply distinct_handles in Hnd.
  destruct Hnd as (H1 & H2 & H3 & H4 & H5 & H6 & H7 & H8 & H9 & H10
                   & H11 & H12).
  fold a ar v vr in H1, H2, H3, H4, H5, H6, H7, H8, H9, H10, H11, H12.
  assert (Hph : forall p message,
             packetHandler isStunMessage p message <> Some (p + 1)).
  { intros p message. unfold packetHandler.
    destruct (isStunMessage message); [discriminate|].
    intro H. injection H as H. lia. }
  split.
  - intro Hmux. apply Z.eqb_eq in Hmux. fold (muxAudio d) in Hmux.
    refine (conj _ (conj _ (conj _ (conj _ (Hph ap))))).
    + rewrite E1. cbn [session]. rewrite Har, Hmux. reflexivity.
    + rewrite Hh. unfold forwardingTable. fold a ar v vr.
      destruct (transcodeVideoStream opts); simpl;
        rewrite ?Nat.eqb_refl, ?H1, ?H2, ?H3; reflexivity.
    + rewrite Hh. unfold forwardingTable. fold a ar v vr.
      destruct (transcodeVideoStream opts); simpl;
        rewrite ?Nat.eqb_refl, ?H4, ?H5, ?H6; reflexivity.
    + rewrite E1. cbn [trace]. unfold invitedEffects, transcoderEffects,
        audioForwarding, muxEffects. rewrite Hmux. fold a ar v vr.
      exists (NewFfmpegProcess (nextFfmpeg w) (ffmpegArgs opts) getFfmpegPath
                ("From Ring (" ++ name (camera (session w)) ++ ")")
              :: videoForwarding isStunMessage opts vp (session w)
              ++ (if buffered (onCallEndedSubject (session w))
                  then [FfmpegStop (nextFfmpeg w)] else [])
              ++ [ WriteStdin (nextFfmpeg w)
                     (sdpDocument createCryptoLine opts d ap vp);
                   AddMessageHandler a (packetHandler isStunMessage ap) ])%list.
      exists [].
      exists ((if muxVideo d then [Close vr] else [])
              ++ natEffects d (aliasedSession d (session w))
              ++ [StartResolved d])%list.
      f_equal. simpl. f_equal. rewrite <- !app_assoc. reflexivity.
  - intros Hmux Htv. apply Z.eqb_eq in Hmux. fold (muxVideo d) in Hmux.
    refine (conj _ (conj _ (conj _ (conj _ (Hph vp))))).
    + rewrite E1. cbn [session]. rewrite Hvr, Hmux. reflexivity.
    + rewrite Hh. unfold forwardingTable. fold a ar v vr. rewrite Htv.
      simpl. rewrite ?Nat.eqb_refl, ?H7, ?H8, ?H9. reflexivity.
    + rewrite Hh. unfold forwardingTable. fold a ar v vr. rewrite Htv.
      simpl. rewrite ?Nat.eqb_refl, ?H10, ?H11, ?H12. reflexivity.
    + rewrite E1. cbn [trace]. unfold invitedEffects, transcoderEffects,
        videoForwarding, muxEffects. rewrite Hmux, Htv. fold a ar v vr.
      exists [ NewFfmpegProcess (nextFfmpeg w) (ffmpegArgs opts) getFfmpegPath
                 ("From Ring (" ++ name (camera (session w)) ++ ")");
               AddMessageHandler v (packetHandler isStunMessage vp) ].
      exists ((if buffered (onCallEndedSubject (session w))
               then [FfmpegStop (nextFfmpeg w)] else [])
              ++ WriteStdin (nextFfmpeg w)
                   (sdpDocument createCryptoLine opts d ap vp)
                 :: audioForwarding isStunMessage ap (session w)
              ++ (if muxAudio d then [Close ar] else []))%list.
      exists (natEffects d (aliasedSession d (session w))
              ++ [StartResolved d])%list.
      f_equal. simpl. do 3 f_equal. rewrite <- ?app_assoc. simpl.
      rewrite <- ?app_assoc. reflexivity.
Qed.

End Forwarding.

Lemma packet_forwarding_witness :
  let o := mkFfmpegOptions None VideoFalse None [] in
  let w := sampleRun sampleSession
             [ CallStart (Some o);
               PortsReserved (Resolved (5000, [5001]));
               PortsReserved (Resolved (5002, [5003])) ] in
  let w1 := sampleStep w
              (InviteSettled (Resolved (sampleDescription 40001 40003 None))) in
  pending w = Some (AwaitInvite (Some o) 5000 5002)
  /\ registrations (trace w1)
     = [ (10%nat, packetHandler sampleIsStun 5002);
         (11%nat, packetHandler sampleIsStun 5003) ].
Proof.
  destruct (@packet_forwarding sampleCryptoLine sampleIsStun sampleFfmpegPath
              (sampleRun sampleSession
                 [ CallStart (Some (mkFfmpegOptions None VideoFalse None []));
                   PortsReserved (Resolved (5000, [5001]));
                   PortsReserved (Resolved (5002, [5003])) ])
              (Some (mkFfmpegOptions None VideoFalse None [])) 5000 5002
              (sampleDescription 40001 40003 None) eq_refl) as [H _].
  split; [reflexivity | exact H].
Defined.

Lemma rtcp_handler_left_on_closed_splitter_witness :
  let o := mkFfmpegOptions None VideoUndefined None [] in
  let w := sampleRun sampleSession
             [ CallStart (Some o);
               PortsReserved (Resolved (5000, [5001]));
               PortsReserved (Resolved (5002, [5003])) ] in
  let d := sampleDescription 40000 40003 None in
  let w1 := sampleStep w (InviteSettled (Resolved d)) in
  pending w = Some (AwaitInvite (Some o) 5000 5002)
  /\ NoDup (handles (session w))
  /\ port (rtpAudio d) = rtcpPort (rtpAudio d)
  /\ audioRtcpSplitter (session w1) = 10%nat
  /\ handlersOn 10%nat (trace w1) = [packetHandler sampleIsStun 5002]
  /\ handlersOn 11%nat (trace w1) = [packetHandler sampleIsStun 5003].
Proof.
  assert (Hnd : NoDup [10; 11; 20; 21]%nat).
  { repeat constructor; simpl; intuition discriminate. }
  destruct (@rtcp_handler_left_on_closed_splitter sampleCryptoLine
              sampleIsStun sampleFfmpegPath
              (sampleRun sampleSession
                 [ CallStart
                     (Some (mkFfmpegOptions None VideoUndefined None []));
                   PortsReserved (Resolved (5000, [5001]));
                   PortsReserved (Resolved (5002, [5003])) ])
              (mkFfmpegOptions None VideoUndefined None []) 5000 5002
              (sampleDescription 40000 40003 None) eq_refl Hnd) as [H _].
  destruct (H eq_refl) as (Hr & Ha & Har & _).
  refine (conj eq_refl (conj Hnd (conj eq_refl (conj Hr (conj Ha Har))))).
Defined.

(** ** STUN binding requests *)

(** C9 (the code departs from it).  On a session over the splitters 10
    (audio RTP), 11 (audio RTCP), 20 (video RTP) and 21 (video RTCP), with no
    multiplexing and an ICE-capable remote, the one round sent by [start]
    holds one request per stream; the audio request is built from 10 and
    11, but the video request is built from 20 and 11: its RTCP splitter is
    the audio one, not the video RTCP splitter 21. *)
Lemma video_request_built_on_audio_rtcp_splitter :
  let d := sampleDescription 40001 40003 (Some "remote-ufrag") in
  let w := sampleRun sampleSession (startedWith None d) in
  audioRtcpSplitter (session w) = 11%nat
  /\ videoRtcpSplitter (session w) = 21%nat
  /\ filter isStunRequest (trace w)
     = [ SendStunBindingRequest
           (mkStunRequest 10%nat 11%nat d (audioUfrag 0%nat) audioType);
         SendStunBindingRequest
           (mkStunRequest 20%nat 11%nat d (videoUfrag 0%nat) videoType) ]
  /\ map (fun e => match e with
                   | SendStunBindingRequest r => rtcpSplitter r
                   | _ => 0%nat
                   end) (filter isStunRequest (trace w))
     <> [audioRtcpSplitter (session w); videoRtcpSplitter (session w)].
Proof. vm_compute. repeat split; discriminate. Qed.

(** ** Worked examples *)

Example numberToString_port : numberToString 5002 = "5002".
Proof. reflexivity. Qed.

Example numberToString_zero : numberToString 0 = "0".
Proof. reflexivity. Qed.

Example audio_only_document :
  sdpDocument sampleCryptoLine (mkFfmpegOptions None VideoFalse None [])
    (sampleDescription 40001 40003 None) 5002 5000
  = join newline
      [ "v=0";
        "o=105202070 3747 461 IN IP4 127.0.0.1";
        "s=Talk";
        "c=IN IP4 127.0.0.1";
        "b=AS:380";
        "t=0 0";
        "a=rtcp-xr:rcvr-rtt=all:10000 stat-summary=loss,dup,jitt,TTL voip-metrics";
        "m=audio 5002 RTP/SAVP 0 101";
        "a=rtpmap:0 PCMU/8000";
        "a=crypto:1 AES_CM_128_HMAC_SHA1_80 inline:key-a";
        "a=rtcp:5003 IN IP4 127.0.0.1" ].
Proof. reflexivity. Qed.

Example default_ffmpeg_args :
  ffmpegArgs (mkFfmpegOptions None VideoUndefined None [SpawnString "out.mp4"])
  = [ SpawnString "-hide_banner"; SpawnString "-protocol_whitelist";
      SpawnString "pipe,udp,rtp,file,crypto"; SpawnString "-f";
      SpawnString "sdp"; SpawnString "-i"; SpawnString "pipe:";
      SpawnString "-acodec"; SpawnString "aac";
      SpawnString "-vcodec"; SpawnString "copy"; SpawnString "out.mp4" ].
Proof. reflexivity. Qed.

(** ** Reachable states *)

Lemma noOpenTimer_closed (l : list Subscription) :
  forallb (fun sub => negb (isOpenTimer sub))
    (map (fun x => mkSub (source x) true) l) = true.
Proof.
  induction l as [|sub l IH]; simpl; [reflexivity|].
  rewrite IH, andb_true_r. unfold isOpenTimer. simpl.
  destruct (source sub); reflexivity.
Qed.

Lemma noOpenTimer_latched (s : RtpSplitter) (l : list Subscription) :
  forallb (fun sub => negb (isOpenTimer sub))
    (map (fun sub => if latches s sub then mkSub (source sub) true else sub) l)
  = forallb (fun sub => negb (isOpenTimer sub)) l.
Proof.
  induction l as [|sub l IH]; simpl; [reflexivity|].
  rewrite IH. f_equal. unfold latches, isOpenTimer.
  destruct sub as [src c]; simpl.
  destruct src; destruct c; simpl; try reflexivity.
  destruct (Nat.eqb s s0); reflexivity.
Qed.

Lemma invariant_callEnded (b : bool) (w : World) :
  invariant w -> invariant (callEnded b w).
Proof.
  intros (I1 & I2 & I3).
  destruct (hasCallEnded (session w)) eqn:H.
  - rewrite callEnded_again by assumption. repeat split; assumption.
  - rewrite callEnded_first by assumption. unfold invariant, noOpenTimer.
    cbn. refine (conj I1 (conj _ I3)). intros _. apply noOpenTimer_closed.
Qed.

Lemma invariant_start (o : option FfmpegOptions) (w : World) :
  invariant w -> invariant (start o w).
Proof.
  intros (I1 & I2 & I3). unfold start.
  destruct (hasStarted (session w)) eqn:Hs.
  - unfold invariant. cbn. rewrite Hs. repeat split; auto.
  - cbn. destruct (hasCallEnded (session w)) eqn:He.
    + unfold invariant, noOpenTimer in *. cbn.
      assert (Hp : pending w = None).
      { destruct (pending w) eqn:Hp; [|reflexivity].
        assert (false = true) by (apply I1; discriminate).
        discriminate. }
      rewrite Hp. refine (conj (fun _ => eq_refl) (conj _ I3)).
      intros [H|H]; [discriminate | contradiction].
    + unfold invariant, noOpenTimer in *. cbn.
      refine (conj (fun _ => eq_refl) (conj _ I3)). intros _. auto.
Qed.

Lemma invariant_startCatch (o : option FfmpegOptions) (e : JsError)
    (w : World) :
  pending w <> None -> invariant w -> invariant (startCatch o e w).
Proof.
  intros Hp (I1 & I2 & I3). unfold startCatch. destruct (isExpiredDing e).
  - unfold invariant, noOpenTimer in *. cbn. repeat split; auto.
  - assert (I : invariant (callEnded true (withPending None w))).
    { apply invariant_callEnded. unfold invariant, noOpenTimer in *. cbn.
      repeat split; auto. }
    destruct I as (J1 & J2 & J3). unfold invariant. cbn.
    repeat split; auto.
Qed.

Section Reachable.

Variable createCryptoLine : RtpStreamDescription -> string.
Variable isStunMessage : Buffer -> bool.
Variable getFfmpegPath : string.

Let step' := step createCryptoLine isStunMessage getFfmpegPath.
Let run' := run createCryptoLine isStunMessage getFfmpegPath.

Lemma invariant_new o r a ar v vr tls cam :
  invariant (newSipSession o r a ar v vr tls cam).
Proof.
  unfold invariant. cbn. repeat split; auto.
Qed.

Lemma invariant_step (w : World) (ev : Event) :
  invariant w -> invariant (step' w ev).
Proof.
  intro I. unfold step'. destruct ev; cbn [step].
  - apply invariant_start. assumption.
  - apply invariant_callEnded. assumption.
  - destruct I as (I1 & I2 & I3). unfold invariant. cbn. auto.
  - destruct I as (I1 & I2 & I3). unfold invariant. cbn. auto.
  - destruct (pending w) as [[o|o p|o p q|o]|] eqn:Hp;
      destruct r as [[p' l]|e]; try assumption;
      try (apply invariant_startCatch; [rewrite Hp; discriminate | assumption]);
      destruct I as (I1 & I2 & I3); unfold invariant, noOpenTimer in *; cbn;
      (refine (conj _ (conj _ I3));
       [intros _; apply I1; rewrite Hp; discriminate
       |intros _; apply I2; right; rewrite Hp; discriminate]).
  - destruct (pending w) as [[o|o p|o p q|o]|] eqn:Hp;
      destruct r as [d|e]; try assumption;
      try (apply invariant_startCatch; [rewrite Hp; discriminate | assumption]).
    rewrite startInvited_spec. destruct I as (I1 & I2 & I3).
    assert (Hs : hasStarted (invitedSession o d (nextFfmpeg w) (session w))
                 = true).
    { unfold invitedSession, aliasedSession, transcoderSession.
      destruct o; destruct (muxAudio d); destruct (muxVideo d); cbn;
        apply I1; rewrite Hp; discriminate. }
    assert (Hc : sipCall (invitedSession o d (nextFfmpeg w) (session w))
                 = sipCall (session w)).
    { unfold invitedSession, aliasedSession, transcoderSession.
      destruct o; destruct (muxAudio d); destruct (muxVideo d); reflexivity. }
    unfold invariant. cbn [session pending nextSipCall]. rewrite Hs, Hc.
    refine (conj (fun _ => eq_refl) (conj _ I3)).
    intros [H|H]; [discriminate | contradiction].
  - destruct (pending w) as [[o|o p|o p q|o]|] eqn:Hp;
      destruct r as [opts|e]; try assumption.
    + unfold startRetry. apply invariant_start. rewrite createSipCall_spec.
      destruct I as (I1 & I2 & I3). unfold invariant, noOpenTimer in *. cbn.
      refine (conj _ (conj _ _)); [contradiction| |lia].
      intros _. rewrite forallb_app. cbn. rewrite andb_true_r.
      apply I2. right. rewrite Hp. discriminate.
    + destruct I as (I1 & I2 & I3). unfold invariant. cbn.
      assert (Hs : hasStarted (session w) = true) by (apply I1; rewrite Hp; discriminate).
      rewrite Hs. refine (conj (fun _ => eq_refl) (conj _ I3)).
      intros [H|H]; [discriminate | contradiction].
  - destruct (existsb _ _); [apply invariant_callEnded|]; assumption.
  - destruct (Nat.ltb _ _); [apply invariant_callEnded|]; assumption.
  - rewrite fireTimers_spec. destruct I as (I1 & I2 & I3).
    unfold invariant. cbn. auto.
  - destruct I as (I1 & I2 & I3). unfold deliverMessage, withSession.
    unfold invariant, noOpenTimer in *.
    cbn [session pending nextSipCall hasStarted sipCall subscriptions
         setSubscriptions].
    rewrite !fold_latches.
    assert (P : forall (l : list Subscription) (w0 : World),
               pending
                 (fold_left
                    (fun acc sub =>
                       match source sub with
                       | FirstMessage _ label =>
                           if latches s sub then emit (LogDebug label) acc
                           else acc
                       | _ => acc
                       end) l w0) = pending w0
               /\ nextSipCall
                    (fold_left
                       (fun acc sub =>
                          match source sub with
                          | FirstMessage _ label =>
                              if latches s sub then emit (LogDebug label) acc
                              else acc
                          | _ => acc
                          end) l w0) = nextSipCall w0).
    { induction l as [|sub l IH]; intro w0; cbn [fold_left]; [auto|].
      destruct (IH (match source sub with
                    | FirstMessage _ label =>
                        if latches s sub then emit (LogDebug label) w0 else w0
                    | _ => w0
                    end)) as [E1 E2].
      rewrite E1, E2. destruct (source sub); auto.
      destruct (latches s sub); auto. }
    destruct (P (subscriptions (session w)) w) as [E1 E2]. rewrite E1, E2.
    rewrite noOpenTimer_latched. auto.
Qed.

(** Every state reached from a freshly constructed session satisfies the
    invariant. *)
Lemma invariant_run (evs : list Event) (w : World) :
  invariant w -> invariant (run' w evs).
Proof.
  revert w. induction evs as [|ev evs IH]; intros w I; cbn; auto.
  apply IH. apply invariant_step. assumption.
Qed.

End Reachable.

(** ** The ledger is kept by every event *)

Lemma filter_neutral (p : Effect -> bool) (delta : list Effect) :
  (forall e, isNeutral e = true -> p e = false) ->
  Forall (fun e => isNeutral e = true) delta ->
  filter p delta = [].
Proof.
  intros Hp H. induction H as [|e l He _ IH]; simpl; [reflexivity|].
  rewrite (Hp e He). exact IH.
Qed.

Lemma count_nil (p : Effect -> bool) (t delta : list Effect) :
  filter p delta = [] -> count p (t ++ delta) = count p t.
Proof.
  intro H. rewrite count_app. unfold count at 2. rewrite H. simpl. lia.
Qed.

Lemma lastNewSipCall_app (t delta : list Effect) :
  lastNewSipCall (t ++ delta)
  = match lastNewSipCall delta with
    | Some call => Some call
    | None => lastNewSipCall t
    end.
Proof.
  induction t as [|e t IH]; simpl.
  - destruct (lastNewSipCall delta); reflexivity.
  - rewrite IH. destruct (lastNewSipCall delta); reflexivity.
Qed.

Lemma lastNewSipCall_none (delta : list Effect) :
  filter isNewSipCall delta = [] -> lastNewSipCall delta = None.
Proof.
  induction delta as [|e l IH]; simpl; [reflexivity|].
  destruct (isNewSipCall e) eqn:He; [discriminate|].
  intro H. rewrite (IH H). destruct e; try reflexivity; discriminate.
Qed.

Lemma ledger_frame_gen (w w' : World) (delta : list Effect) :
  ledger w ->
  trace w' = (trace w ++ delta)%list ->
  filter isStartResolved delta = [] ->
  (count isStartResolved (trace w) = 0%nat -> filter isMediaSetup delta = []) ->
  filter isFfmpegStop delta = [] ->
  filter isOnCallEndedNext delta = [] ->
  filter isSendBye delta = [] ->
  filter isNewFfmpegProcess delta = [] ->
  lastNewSipCall (trace w') = Some (sipCall (session w')) ->
  nextFfmpeg w' = nextFfmpeg w ->
  hasCallEnded (session w') = hasCallEnded (session w) ->
  onCallEndedSubject (session w') = onCallEndedSubject (session w) ->
  List.length (filter isTimer (subscriptions (session w')))
  = List.length (filter isTimer (subscriptions (session w))) ->
  (hasStarted (session w') = false \/ pending w' <> None ->
   count isStartResolved (trace w) = 0%nat) ->
  ledger w'.
Proof.
  intros (L1 & L2 & L3 & L4 & L5 & L6 & L7 & L8 & L9 & L10 & L11 & L12)
    Ht F1 F2 F3 F4 F5 F6 Hc Hf He Hs Hl Hp.
  unfold ledger. rewrite Hc. rewrite Ht, Hf, He, Hs, Hl.
  rewrite !count_nil by assumption.
  rewrite !filter_app, F3, !app_nil_r.
  refine (conj Hp (conj L2 (conj L3 (conj L4 (conj _ (conj L6 (conj L7
            (conj L8 (conj L9 (conj L10 (conj L11 eq_refl))))))))))).
  intro H. rewrite (L5 H), (F2 H). reflexivity.
Qed.

Lemma ledger_frame (w w' : World) (delta : list Effect) :
  ledger w ->
  trace w' = (trace w ++ delta)%list ->
  Forall (fun e => isNeutral e = true) delta ->
  nextFfmpeg w' = nextFfmpeg w ->
  hasCallEnded (session w') = hasCallEnded (session w) ->
  onCallEndedSubject (session w') = onCallEndedSubject (session w) ->
  sipCall (session w') = sipCall (session w) ->
  List.length (filter isTimer (subscriptions (session w')))
  = List.length (filter isTimer (subscriptions (session w))) ->
  (hasStarted (session w') = false \/ pending w' <> None ->
   count isStartResolved (trace w) = 0%nat) ->
  ledger w'.
Proof.
  intros L Ht Hn Hf He Hs Hc Hl Hp.
  assert (F : forall p, (forall e, isNeutral e = true -> p e = false) ->
                        filter p delta = [])
    by (intros p Hq; apply filter_neutral; assumption).
  assert (N : forall e p,
             (forall x, p x = true -> isNeutral x = false) ->
             isNeutral e = true -> p e = false).
  { intros e p Hq H. destruct (p e) eqn:E; [|reflexivity].
    rewrite (Hq e E) in H. discriminate. }
  assert (F7 : filter isNewSipCall delta = [])
    by (apply F; intro e; apply N; destruct x; simpl; congruence).
  apply (@ledger_frame_gen w w' delta); auto;
    try (apply F; intro e; apply N; destruct x; simpl; congruence).
  - intros _. apply F; intro e; apply N; destruct x; simpl; congruence.
  - rewrite Ht, lastNewSipCall_app, (lastNewSipCall_none _ F7), Hc.
    destruct L as (_ & _ & _ & _ & _ & _ & _ & _ & _ & _ & _ & L12).
    exact L12.
Qed.

Lemma ledger_emit (e : Effect) (w : World) :
  isNeutral e = true -> ledger w -> ledger (emit e w).
Proof.
  intros He L. apply (@ledger_frame w (emit e w) [e]); auto.
  destruct L as (L1 & _). exact L1.
Qed.

Lemma timers_closed (l : list Subscription) :
  filter isTimer (map (fun x => mkSub (source x) true) l)
  = map (fun x => mkSub (source x) true) (filter isTimer l).
Proof.
  induction l as [|sub l IH]; [reflexivity|].
  destruct sub as [src c]. destruct src; simpl; rewrite IH; reflexivity.
Qed.

Lemma filter_teardownEffects (p : Effect -> bool) (b : bool)
    (s : SipSession) :
  p OnCallEndedNext = false ->
  (forall c, p (SendBye c) = false) ->
  (forall c, p (Destroy c) = false) ->
  (forall h, p (Close h) = false) ->
  filter p (teardownEffects b s)
  = filter p (map FfmpegStop (observers (onCallEndedSubject s))).
Proof.
  intros H1 H2 H3 H4. unfold teardownEffects. rewrite filter_app.
  replace (filter p (if b then [SendBye (sipCall s)] else []))
    with (@nil Effect) by (destruct b; simpl; rewrite ?H2; reflexivity).
  simpl. rewrite H1, filter_app. simpl. rewrite H3, !H4.
  apply app_nil_r.
Qed.

Lemma filter_teardownEffects_nil (p : Effect -> bool) (b : bool)
    (s : SipSession) :
  p OnCallEndedNext = false ->
  (forall c, p (SendBye c) = false) ->
  (forall c, p (Destroy c) = false) ->
  (forall h, p (Close h) = false) ->
  (forall ff, p (FfmpegStop ff) = false) ->
  filter p (teardownEffects b s) = [].
Proof.
  intros H1 H2 H3 H4 H5. rewrite filter_teardownEffects by assumption.
  apply count_map_FfmpegStop. assumption.
Qed.

Lemma stops_teardownEffects (b : bool) (s : SipSession) :
  filter isFfmpegStop (teardownEffects b s)
  = map FfmpegStop (observers (onCallEndedSubject s)).
Proof.
  rewrite filter_teardownEffects by reflexivity.
  induction (observers (onCallEndedSubject s)); simpl; congruence.
Qed.

Lemma notified_teardownEffects (b : bool) (s : SipSession) :
  count isOnCallEndedNext (teardownEffects b s) = 1%nat.
Proof.
  unfold count, teardownEffects. rewrite filter_app.
  replace (filter isOnCallEndedNext (if b then [SendBye (sipCall s)] else []))
    with (@nil Effect) by (destruct b; reflexivity).
  simpl. rewrite filter_app, count_map_FfmpegStop by reflexivity.
  reflexivity.
Qed.

Lemma byes_teardownEffects (b : bool) (s : SipSession) :
  count isSendBye (teardownEffects b s) = (if b then 1 else 0)%nat.
Proof.
  unfold count, teardownEffects. rewrite filter_app. simpl.
  rewrite filter_app, count_map_FfmpegStop by reflexivity.
  destruct b; reflexivity.
Qed.

Lemma ledger_callEnded (b : bool) (w : World) :
  ledger w -> ledger (callEnded b w).
Proof.
  intro L. destruct (hasCallEnded (session w)) eqn:H.
  - rewrite callEnded_again; assumption.
  - destruct L as (L1 & L2 & L3 & L4 & L5 & L6 & L7 & L8 & L9 & L10 & L11
                   & L12).
    rewrite H in *. rewrite callEnded_first by assumption.
    unfold ledger.
    cbn [session pending nextSipCall nextFfmpeg trace hasStarted hasCallEnded
         onCallEndedSubject sipCall subscriptions setSubscriptions
         setOnCallEndedSubject setHasCallEnded buffered observers].
    rewrite timers_closed, length_map.
    rewrite (count_nil isStartResolved), (count_nil isNewFfmpegProcess)
      by (apply filter_teardownEffects_nil; reflexivity).
    rewrite !filter_app, stops_teardownEffects, L7, L8.
    rewrite (@filter_teardownEffects_nil isMediaSetup) by reflexivity.
    rewrite !count_app, notified_teardownEffects, byes_teardownEffects.
    rewrite lastNewSipCall_app, lastNewSipCall_none
      by (apply filter_teardownEffects_nil; reflexivity).
    rewrite L9, app_nil_r.
    refine (conj L1 (conj L2 (conj L3 (conj L4 (conj L5 (conj eq_refl
              (conj eq_refl (conj eq_refl (conj eq_refl (conj _
                (conj L11 L12))))))))))).
    destruct b; lia.
Qed.

Lemma ledger_flags (w w' : World) :
  ledger w ->
  trace w' = trace w ->
  nextFfmpeg w' = nextFfmpeg w ->
  hasCallEnded (session w') = hasCallEnded (session w) ->
  onCallEndedSubject (session w') = onCallEndedSubject (session w) ->
  sipCall (session w') = sipCall (session w) ->
  subscriptions (session w') = subscriptions (session w) ->
  (hasStarted (session w') = false \/ pending w' <> None ->
   count isStartResolved (trace w) = 0%nat) ->
  ledger w'.
Proof.
  intros L Ht Hf He Hs Hc Hl Hp.
  apply (@ledger_frame w w' []); auto.
  - rewrite app_nil_r. assumption.
  - rewrite Hl. reflexivity.
Qed.

Lemma ledger_unresolved (w : World) :
  ledger w ->
  hasStarted (session w) = false \/ pending w <> None ->
  count isStartResolved (trace w) = 0%nat.
Proof. intros (L1 & _) H. auto. Qed.

Lemma ledger_start (o : option FfmpegOptions) (w : World) :
  ledger w -> ledger (start o w).
Proof.
  intro L. unfold start. destruct (hasStarted (session w)) eqn:Hs.
  - apply ledger_emit; [reflexivity | assumption].
  - assert (R : count isStartResolved (trace w) = 0%nat)
      by (apply ledger_unresolved; auto).
    cbn [session withSession hasCallEnded setHasStarted].
    destruct (hasCallEnded (session w)) eqn:He.
    + apply ledger_emit; [reflexivity|].
      apply (@ledger_flags w); auto.
    + apply ledger_emit; [reflexivity|].
      apply (@ledger_flags w); auto.
Qed.

Lemma ledger_startCatch (o : option FfmpegOptions) (e : JsError) (w : World) :
  pending w <> None -> ledger w -> ledger (startCatch o e w).
Proof.
  intros Hp L.
  assert (R : count isStartResolved (trace w) = 0%nat)
    by (apply ledger_unresolved; auto).
  unfold startCatch. destruct (isExpiredDing e).
  - apply ledger_emit; [reflexivity|]. apply (@ledger_flags w); auto.
  - apply ledger_emit; [reflexivity|]. apply ledger_callEnded.
    apply (@ledger_flags w); auto.
Qed.

Lemma ledger_startRetry (o : option FfmpegOptions) (opts : SipOptions)
    (w : World) :
  pending w <> None -> ledger w -> ledger (startRetry o opts w).
Proof.
  intros Hp L.
  assert (R : count isStartResolved (trace w) = 0%nat)
    by (apply ledger_unresolved; auto).
  unfold startRetry. apply ledger_start. rewrite createSipCall_spec.
  apply (@ledger_frame_gen w _
           [ Destroy (sipCall (session w));
             NewSipCall (nextSipCall w) opts (rtpOptions (session w))
               (tlsPort (session w)) ]); auto.
  - cbn. rewrite lastNewSipCall_app. reflexivity.
  - cbn. rewrite filter_app. cbn. rewrite app_nil_r. reflexivity.
Qed.

Lemma fold_latchEffects (s : RtpSplitter) (l : list Subscription)
    (w : World) :
  fold_left
    (fun acc sub =>
       match source sub with
       | FirstMessage _ label =>
           if latches s sub then emit (LogDebug label) acc else acc
       | _ => acc
       end) l w
  = mkWorld (session w) (pending w) (nextSipCall w) (nextFfmpeg w)
      (trace w ++ latchEffects s l).
Proof.
  revert w. induction l as [|sub l IH]; intro w; simpl.
  - rewrite app_nil_r. symmetry. apply world_eta.
  - rewrite IH. unfold latchEffects at 2. simpl.
    destruct (source sub); simpl; try reflexivity.
    destruct (latches s sub); simpl; rewrite <- ?app_assoc; reflexivity.
Qed.

Lemma deliverMessage_spec (s : RtpSplitter) (w : World) :
  deliverMessage s w
  = mkWorld
      (setSubscriptions
         (map (fun sub => if latches s sub then mkSub (source sub) true
                          else sub)
            (subscriptions (session w)))
         (session w))
      (pending w) (nextSipCall w) (nextFfmpeg w)
      (trace w ++ latchEffects s (subscriptions (session w))).
Proof.
  unfold deliverMessage. rewrite fold_latchEffects. reflexivity.
Qed.

Lemma latchEffects_neutral (s : RtpSplitter) (l : list Subscription) :
  Forall (fun e => isNeutral e = true) (latchEffects s l).
Proof.
  unfold latchEffects. apply Forall_flat_map. apply Forall_forall.
  intros sub _. destruct (source sub); try constructor.
  destruct (latches s sub); repeat constructor.
Qed.

Lemma timers_latched (s : RtpSplitter) (l : list Subscription) :
  filter isTimer
    (map (fun sub => if latches s sub then mkSub (source sub) true else sub) l)
  = filter isTimer l.
Proof.
  induction l as [|sub l IH]; [reflexivity|].
  destruct sub as [src c].
  destruct src as [call|dueTime period d|s0 label]; destruct c;
    cbn [map filter]; unfold latches at 1, isTimer at 1;
    cbn [source closed]; rewrite ?IH; try reflexivity.
  destruct (Nat.eqb s s0); cbn [source isTimer]; reflexivity.
Qed.

Lemma ledger_deliverMessage (s : RtpSplitter) (w : World) :
  ledger w -> ledger (deliverMessage s w).
Proof.
  intro L. rewrite deliverMessage_spec.
  apply (@ledger_frame w _ (latchEffects s (subscriptions (session w))));
    auto using latchEffects_neutral.
  - cbn. rewrite timers_latched. reflexivity.
  - destruct L as (L1 & _). exact L1.
Qed.

Lemma tickEffects_no_timer (s : SipSession) :
  filter isTimer (subscriptions s) = [] -> tickEffects s = [].
Proof.
  unfold tickEffects. induction (subscriptions s) as [|sub l IH]; simpl;
    [reflexivity|].
  unfold isTimer at 1, timerRound at 1.
  destruct (source sub); simpl; auto. discriminate.
Qed.

Lemma filter_tickEffects (p : Effect -> bool) (s : SipSession) :
  (forall r, p (SendStunBindingRequest r) = false) ->
  filter p (tickEffects s) = [].
Proof.
  intro H. unfold tickEffects.
  induction (subscriptions s) as [|sub l IH]; simpl; [reflexivity|].
  rewrite filter_app, IH, app_nil_r. unfold timerRound.
  destruct (source sub); try reflexivity.
  destruct (closed sub); simpl; rewrite ?H; reflexivity.
Qed.

Lemma ledger_fireTimers (w : World) : ledger w -> ledger (fireTimers w).
Proof.
  intro L. rewrite fireTimers_spec.
  apply (@ledger_frame_gen w _ (tickEffects (session w))); auto;
    try (apply filter_tickEffects; reflexivity).
  - intro R. destruct L as (_ & _ & _ & L4 & _). rewrite R in L4.
    rewrite tickEffects_no_timer; [reflexivity|].
    destruct (filter isTimer (subscriptions (session w))); [reflexivity|].
    simpl in L4. lia.
  - cbn. rewrite lastNewSipCall_app, lastNewSipCall_none
      by (apply filter_tickEffects; reflexivity).
    destruct L as (_ & _ & _ & _ & _ & _ & _ & _ & _ & _ & _ & L12).
    exact L12.
  - destruct L as (L1 & _). exact L1.
Qed.

Lemma fields_invitedSession o d ff s :
  hasStarted (invitedSession o d ff s) = hasStarted s
  /\ sipCall (invitedSession o d ff s) = sipCall s
  /\ onCallEndedSubject (invitedSession o d ff s)
     = match o with
       | Some _ => mkSubject (buffered (onCallEndedSubject s))
                     (observers (onCallEndedSubject s) ++ [ff])
       | None => onCallEndedSubject s
       end.
Proof.
  unfold invitedSession, aliasedSession, transcoderSession.
  destruct o; destruct (muxAudio d); destruct (muxVideo d);
    repeat split; reflexivity.
Qed.

Section Ledger.

Variable createCryptoLine : RtpStreamDescription -> string.
Variable isStunMessage : Buffer -> bool.
Variable getFfmpegPath : string.

Let step' := step createCryptoLine isStunMessage getFfmpegPath.
Let run' := run createCryptoLine isStunMessage getFfmpegPath.

Lemma filter_invitedEffects_core (p : Effect -> bool) o vp ap d ff s :
  (forall x h, p (AddMessageHandler x h) = false) ->
  (forall x t, p (WriteStdin x t) = false) ->
  (forall x, p (Close x) = false) ->
  (forall t, p (LogDebug t) = false) ->
  (forall x, p (CreateStunResponder x) = false) ->
  (forall r, p (SendStunBindingRequest r) = false) ->
  filter p
    (invitedEffects createCryptoLine isStunMessage getFfmpegPath
       o vp ap d ff s)
  = (match o with
     | Some opts =>
         filter p
           [NewFfmpegProcess ff (ffmpegArgs opts) getFfmpegPath
              ("From Ring (" ++ name (camera s) ++ ")")]
         ++ (if buffered (onCallEndedSubject s) then filter p [FfmpegStop ff]
             else [])
     | None => []
     end
     ++ filter p [StartResolved d])%list.
Proof.
  intros H1 H2 H3 H4 H5 H6.
  unfold invitedEffects, transcoderEffects, videoForwarding, audioForwarding,
    muxEffects, natEffects, stunRound.
  generalize ("From Ring (" ++ name (camera s) ++ ")").
  generalize ("Connecting to " ++ name (camera (aliasedSession d s))
              ++ " using ICE").
  generalize ("Connecting to " ++ name (camera (aliasedSession d s))
              ++ " using STUN").
  intros stun ice label.
  destruct o as [opts|]; [destruct (transcodeVideoStream opts)|];
    destruct (buffered (onCallEndedSubject s));
    destruct (muxAudio d); destruct (muxVideo d);
    destruct (truthy (iceUFrag (rtpVideo d)));
    cbn [filter app];
    rewrite ?H1, ?H2, ?H3, ?H4, ?H5, ?H6;
    try destruct (p (NewFfmpegProcess ff (ffmpegArgs opts) getFfmpegPath
                       label));
    try destruct (p (FfmpegStop ff));
    destruct (p (StartResolved d)); reflexivity.
Qed.

Lemma tally_invitedEffects o vp ap d ff s :
  let effects := invitedEffects createCryptoLine isStunMessage getFfmpegPath
                   o vp ap d ff s in
  count isStartResolved effects = 1%nat
  /\ count isOnCallEndedNext effects = 0%nat
  /\ count isSendBye effects = 0%nat
  /\ count isNewFfmpegProcess effects
     = (match o with Some _ => 1 | None => 0 end)%nat
  /\ filter isFfmpegStop effects
     = match o with
       | Some _ => if buffered (onCallEndedSubject s) then [FfmpegStop ff]
                   else []
       | None => []
       end
  /\ filter isNewSipCall effects = [].
Proof.
  cbv zeta. unfold count.
  rewrite !filter_invitedEffects_core by reflexivity.
  destruct o; [destruct (buffered (onCallEndedSubject s))|];
    repeat split; reflexivity.
Qed.

Lemma ledger_startInvited o vp ap d (w : World) :
  ledger w -> invariant w ->
  pending w = Some (AwaitInvite o vp ap) ->
  ledger (startInvited createCryptoLine isStunMessage getFfmpegPath
            o vp ap d w).
Proof.
  intros (L1 & L2 & L3 & L4 & L5 & L6 & L7 & L8 & L9 & L10 & L11 & L12)
    (I1 & _) Hp.
  assert (R : count isStartResolved (trace w) = 0%nat)
    by (apply L1; right; rewrite Hp; discriminate).
  assert (Hs : hasStarted (session w) = true)
    by (apply I1; rewrite Hp; discriminate).
  rewrite R in *.
  assert (N0 : nextFfmpeg w = 0%nat) by (apply Nat.le_0_r; exact L3).
  assert (T0 : filter isTimer (subscriptions (session w)) = []).
  { destruct (filter isTimer (subscriptions (session w)));
      [reflexivity | simpl in L4; lia]. }
  rewrite N0 in *.
  destruct (fields_invitedSession o d 0%nat (session w)) as (E1 & E2 & E3).
  destruct (tally_invitedEffects o vp ap d 0%nat (session w))
    as (C1 & C2 & C3 & C4 & C5 & C6).
  rewrite startInvited_spec, N0. unfold ledger.
  cbn [session pending nextSipCall nextFfmpeg trace].
  rewrite E1, E2, E3, invitedSession_hasCallEnded, Hs.
  rewrite !count_app, !filter_app, lastNewSipCall_app.
  rewrite C1, C2, C3, C4, C5, (lastNewSipCall_none _ C6).
  rewrite R, L8, L9, L12, subscriptions_invitedSession, filter_app, T0.
  rewrite <- L6.
  replace (if buffered (onCallEndedSubject (session w))
           then map FfmpegStop (seq 0 0) else [])
    with (@nil Effect) by (destruct (buffered _); reflexivity).
  refine (conj _ (conj _ (conj _ (conj _ (conj _ (conj _ (conj _ (conj _
            (conj _ (conj _ (conj _ eq_refl))))))))))).
  - intros [H|H]; [discriminate | contradiction].
  - simpl. lia.
  - destruct o; simpl; lia.
  - unfold natSubscriptions, latchSubscriptions.
    destruct (truthy (iceUFrag (rtpVideo d))); simpl; lia.
  - simpl. intro. lia.
  - destruct o; reflexivity.
  - destruct o; cbn [observers]; rewrite L7; reflexivity.
  - destruct o; destruct (buffered (onCallEndedSubject (session w)));
      reflexivity.
  - destruct (buffered (onCallEndedSubject (session w))); simpl; lia.
  - rewrite <- L6 in L10.
    destruct (buffered (onCallEndedSubject (session w)));
      simpl; simpl in L10; lia.
  - destruct o; simpl; lia.
Qed.

Lemma ledger_new o r a ar v vr tls cam :
  ledger (newSipSession o r a ar v vr tls cam).
Proof.
  unfold ledger. cbn. repeat split; auto.
Qed.

Lemma ledger_step (w : World) (ev : Event) :
  invariant w -> ledger w -> ledger (step' w ev).
Proof.
  intros I L. unfold step'. destruct ev; cbn [step].
  - apply ledger_start. assumption.
  - apply ledger_callEnded. assumption.
  - apply ledger_emit; [reflexivity | assumption].
  - apply ledger_emit; [reflexivity | assumption].
  - destruct (pending w) as [[o|o p|o p q|o]|] eqn:Hp;
      destruct r as [[p' l]|e]; try assumption;
      try (apply ledger_startCatch; [rewrite Hp; discriminate | assumption]).
    + apply ledger_emit; [reflexivity|]. apply (@ledger_flags w); auto.
      intros _. apply (ledger_unresolved L). right. rewrite Hp. discriminate.
    + apply ledger_emit; [reflexivity|]. apply (@ledger_flags w); auto.
      intros _. apply (ledger_unresolved L). right. rewrite Hp. discriminate.
  - destruct (pending w) as [[o|o p|o p q|o]|] eqn:Hp;
      destruct r as [d|e]; try assumption;
      try (apply ledger_startCatch; [rewrite Hp; discriminate | assumption]).
    apply ledger_startInvited; assumption.
  - destruct (pending w) as [[o|o p|o p q|o]|] eqn:Hp;
      destruct r as [opts|e]; try assumption.
    + apply ledger_startRetry; [rewrite Hp; discriminate | assumption].
    + apply ledger_emit; [reflexivity|]. apply (@ledger_flags w); auto.
      intros _. apply (ledger_unresolved L). right. rewrite Hp. discriminate.
  - destruct (existsb _ _); [apply ledger_callEnded|]; assumption.
  - destruct (Nat.ltb _ _); [apply ledger_callEnded|]; assumption.
  - apply ledger_fireTimers. assumption.
  - apply ledger_deliverMessage. assumption.
Qed.

Lemma ledger_run (evs : list Event) (w : World) :
  invariant w -> ledger w ->
  invariant (run' w evs) /\ ledger (run' w evs).
Proof.
  revert w. induction evs as [|ev evs IH]; intros w I L; cbn; auto.
  apply IH.
  - apply invariant_step. assumption.
  - apply ledger_step; assumption.
Qed.

End Ledger.

(** ** Transport references over a run *)

Lemma anchored_handles (a ar v vr : RtpSplitter) (s s' : SipSession) :
  handles s' = handles s -> anchored a ar v vr s -> anchored a ar v vr s'.
Proof.
  unfold handles, anchored. intros H (H1 & H2 & H3 & H4).
  injection H as E1 E2 E3 E4. rewrite E1, E2, E3, E4. auto.
Qed.

Lemma handles_callEnded (b : bool) (w : World) :
  handles (session (callEnded b w)) = handles (session w).
Proof.
  destruct (hasCallEnded (session w)) eqn:H.
  - rewrite callEnded_again; auto.
  - rewrite callEnded_first by assumption. reflexivity.
Qed.

Lemma handles_start (o : option FfmpegOptions) (w : World) :
  handles (session (start o w)) = handles (session w).
Proof.
  unfold start. destruct (hasStarted (session w)); [reflexivity|].
  cbn [session withSession hasCallEnded setHasStarted].
  destruct (hasCallEnded (session w)); reflexivity.
Qed.

Lemma handles_startCatch (o : option FfmpegOptions) (e : JsError)
    (w : World) :
  handles (session (startCatch o e w)) = handles (session w).
Proof.
  unfold startCatch. destruct (isExpiredDing e); [reflexivity|].
  cbn [session emit]. rewrite handles_callEnded. reflexivity.
Qed.

Section References.

Variable createCryptoLine : RtpStreamDescription -> string.
Variable isStunMessage : Buffer -> bool.
Variable getFfmpegPath : string.

Let step' := step createCryptoLine isStunMessage getFfmpegPath.
Let run' := run createCryptoLine isStunMessage getFfmpegPath.

Lemma anchored_step (a ar v vr : RtpSplitter) (w : World) (ev : Event) :
  anchored a ar v vr (session w) -> anchored a ar v vr (session (step' w ev)).
Proof.
  intro A. unfold step'. destruct ev; cbn [step].
  - apply (anchored_handles (handles_start ffmpegOptions w) A).
  - apply (anchored_handles (handles_callEnded true w) A).
  - exact A.
  - exact A.
  - destruct (pending w) as [[o|o p|o p q|o]|]; destruct r as [[p' l]|e];
      try exact A; apply (anchored_handles (handles_startCatch o e w) A).
  - destruct (pending w) as [[o|o p|o p q|o]|]; destruct r as [d|e];
      try exact A;
      try apply (anchored_handles (handles_startCatch o e w) A).
    rewrite startInvited_spec. cbn [session].
    destruct (references_invitedSession o d (nextFfmpeg w) (session w))
      as (E1 & E2 & E3 & E4).
    destruct A as (A1 & A2 & A3 & A4). unfold anchored.
    rewrite E1, E2, E3, E4, A1, A2.
    destruct (muxAudio d); destruct (muxVideo d); auto.
  - destruct (pending w) as [[o|o p|o p q|o]|]; destruct r as [opts|e];
      try exact A.
    unfold startRetry.
    refine (anchored_handles _ A). rewrite handles_start, createSipCall_spec.
    reflexivity.
  - destruct (existsb _ _); [|exact A].
    apply (anchored_handles (handles_callEnded false w) A).
  - destruct (Nat.ltb _ _); [|exact A].
    apply (anchored_handles (handles_callEnded true w) A).
  - rewrite fireTimers_spec. exact A.
  - rewrite deliverMessage_spec. exact A.
Qed.

(** X6.  Over any sequence of events the two RTP references of a session
    stay the splitters it was constructed with, and each RTCP reference is
    either the splitter it was constructed with or the RTP splitter of the
    same stream. *)
Theorem transport_references_stay_anchored (o : SipOptions) (r : RtpOptions)
    (a ar v vr : RtpSplitter) (tls : Z) (cam : RingCamera)
    (evs : list Event) :
  let s := session (run' (newSipSession o r a ar v vr tls cam) evs) in
  audioSplitter s = a
  /\ videoSplitter s = v
  /\ (audioRtcpSplitter s = ar \/ audioRtcpSplitter s = a)
  /\ (videoRtcpSplitter s = vr \/ videoRtcpSplitter s = v).
Proof.
  cbv zeta.
  assert (G : forall w, anchored a ar v vr (session w) ->
                        anchored a ar v vr (session (run' w evs))).
  { induction evs as [|ev l IH]; intros w A; [exact A|].
    cbn. apply IH. apply anchored_step. exact A. }
  apply G. unfold anchored. cbn. auto.
Qed.

End References.

(** ** What holds over every run of a session *)

Section EveryRun.

Variable createCryptoLine : RtpStreamDescription -> string.
Variable isStunMessage : Buffer -> bool.
Variable getFfmpegPath : string.

Let step' := step createCryptoLine isStunMessage getFfmpegPath.
Let run' := run createCryptoLine isStunMessage getFfmpegPath.

Variables (sipOptions0 : SipOptions) (rtpOptions0 : RtpOptions).
Variables (a ar v vr : RtpSplitter) (tls : Z) (cam : RingCamera).

Let fresh := newSipSession sipOptions0 rtpOptions0 a ar v vr tls cam.

Lemma books_kept (evs : list Event) :
  invariant (run' fresh evs) /\ ledger (run' fresh evs).
Proof.
  apply ledger_run; [apply invariant_new | apply ledger_new].
Qed.

(** X1.  While a [start] is suspended at one of its awaits, another call
    of [start] is rejected with AlreadyStarted and leaves the session and
    the suspended call as they are. *)
Theorem second_start_rejected_while_suspended (evs : list Event)
    (o : option FfmpegOptions) :
  let w := run' fresh evs in
  pending w <> None ->
  step' w (CallStart o) = emit (StartRejected AlreadyStarted) w.
Proof.
  intros w Hp. destruct (books_kept evs) as [(I1 & _) _].
  fold w in I1. unfold step'. cbn [step]. unfold start. rewrite (I1 Hp).
  reflexivity.
Qed.

(** X2.  Whatever the events, [start] resolves at most once per session;
    at most one transcoding process is constructed and at most one
    keepalive timer subscribed, and only by a [start] that resolved; once
    it has resolved the started flag stays set and no call is suspended. *)
Theorem start_resolves_at_most_once (evs : list Event) :
  let w := run' fresh evs in
  let resolved := count isStartResolved (trace w) in
  (resolved <= 1)%nat
  /\ (count isNewFfmpegProcess (trace w) <= resolved)%nat
  /\ (List.length (filter isTimer (subscriptions (session w))) <= resolved)%nat
  /\ (resolved = 1%nat ->
      hasStarted (session w) = true /\ pending w = None).
Proof.
  intros w resolved.
  destruct (books_kept evs)
    as [_ (L1 & L2 & L3 & L4 & _ & _ & _ & _ & _ & _ & L11 & _)].
  fold w in L1, L2, L3, L4, L11. fold resolved in L1, L2, L3, L4.
  refine (conj L2 (conj _ (conj L4 _))).
  - rewrite L11. exact L3.
  - intro R. split.
    + destruct (hasStarted (session w)) eqn:H; [reflexivity|].
      assert (resolved = 0%nat) by (apply L1; left; reflexivity). lia.
    + destruct (pending w) eqn:H; [|reflexivity].
      assert (resolved = 0%nat) by (apply L1; right; discriminate). lia.
Qed.

(** X3.  Until a [start] has resolved, the session has sent no STUN
    binding request, created no STUN responder, registered no packet
    handler, constructed no transcoding process and written nothing to
    one, and holds no keepalive timer. *)
Theorem no_media_before_start_resolves (evs : list Event) :
  let w := run' fresh evs in
  count isStartResolved (trace w) = 0%nat ->
  filter isMediaSetup (trace w) = []
  /\ nextFfmpeg w = 0%nat
  /\ filter isTimer (subscriptions (session w)) = [].
Proof.
  intros w R.
  destruct (books_kept evs) as [_ (_ & _ & L3 & L4 & L5 & _)].
  fold w in L3, L4, L5. rewrite R in L3, L4.
  refine (conj (L5 R) (conj _ _)).
  - apply Nat.le_0_r. exact L3.
  - destruct (filter isTimer (subscriptions (session w)));
      [reflexivity | simpl in L4; lia].
Qed.

(** X4.  The transcoding process is told to stop exactly when the session
    has ended: in every state, [ff.stop()] has been called once on the
    process if the session has ended and a process was constructed (also
    when it was constructed after the end, through the replayed
    notification), and never otherwise. *)
Theorem transcoder_stopped_exactly_when_ended (evs : list Event) :
  let w := run' fresh evs in
  filter isFfmpegStop (trace w)
  = if hasCallEnded (session w)
       && Nat.ltb 0 (count isNewFfmpegProcess (trace w))
    then [FfmpegStop 0%nat] else [].
Proof.
  intro w.
  destruct (books_kept evs)
    as [_ (_ & L2 & L3 & _ & _ & _ & _ & L8 & _ & _ & L11 & _)].
  fold w in L2, L3, L8, L11. rewrite L8, L11.
  assert (H : nextFfmpeg w = 0%nat \/ nextFfmpeg w = 1%nat) by lia.
  destruct H as [H|H]; rewrite H; destruct (hasCallEnded (session w));
    reflexivity.
Qed.

(** X5.  Over any sequence of events (stops, remote terminations, process
    exits, failing awaits), the call-ended notification has gone out
    exactly once if the session has ended and not at all otherwise, and at
    most one bye was ever sent, none before the end. *)
Theorem notification_and_bye_at_most_once (evs : list Event) :
  let w := run' fresh evs in
  count isOnCallEndedNext (trace w)
  = (if hasCallEnded (session w) then 1 else 0)%nat
  /\ (count isSendBye (trace w)
      <= if hasCallEnded (session w) then 1 else 0)%nat.
Proof.
  intro w.
  destruct (books_kept evs)
    as [_ (_ & _ & _ & _ & _ & _ & _ & _ & L9 & L10 & _)].
  split; assumption.
Qed.

(** X12.  [requestKeyFrame] and [activateCameraSpeaker] change no session
    state and call the signaling client that was constructed last, also
    after any number of expired-ding retries. *)
Theorem requests_go_to_latest_client (evs : list Event) :
  let w := run' fresh evs in
  lastNewSipCall (trace w) = Some (sipCall (session w))
  /\ step' w CallRequestKeyFrame
     = emit (RequestKeyFrame (sipCall (session w))) w
  /\ step' w CallActivateCameraSpeaker
     = emit (ActivateCameraSpeaker (sipCall (session w))) w.
Proof.
  intro w.
  destruct (books_kept evs)
    as [_ (_ & _ & _ & _ & _ & _ & _ & _ & _ & _ & _ & L12)].
  refine (conj L12 (conj eq_refl eq_refl)).
Qed.

(** X9.  When the camera fails to deliver refreshed signaling parameters
    after an expired ding, [start] is rejected with that failure and
    nothing is torn down: the session state is untouched (not ended, no
    bye, no splitter closed), and since the started flag stays set every
    later [start] is rejected with AlreadyStarted. *)
Theorem refresh_failure_leaves_session_open (evs : list Event)
    (o : option FfmpegOptions) (e : JsError) :
  let w := run' fresh evs in
  pending w = Some (AwaitSipOptions o) ->
  let w1 := step' w (SipOptionsSettled (Rejected e)) in
  session w1 = session w
  /\ pending w1 = None
  /\ trace w1 = (trace w ++ [StartRejected e])%list
  /\ forall o', step' w1 (CallStart o')
                = emit (StartRejected AlreadyStarted) w1.
Proof.
  intros w Hp w1. destruct (books_kept evs) as [(I1 & _) _]. fold w in I1.
  assert (E : w1 = emit (StartRejected e) (withPending None w)).
  { unfold w1, step'. cbn [step]. rewrite Hp. reflexivity. }
  rewrite E. refine (conj eq_refl (conj eq_refl (conj eq_refl _))).
  intro o'. unfold step'. cbn [step]. unfold start. cbn [session emit withPending].
  rewrite I1 by (rewrite Hp; discriminate). reflexivity.
Qed.

End EveryRun.

(** ** Failing awaits and late resolutions *)

Section Awaits.

Variable createCryptoLine : RtpStreamDescription -> string.
Variable isStunMessage : Buffer -> bool.
Variable getFfmpegPath : string.

Let step' := step createCryptoLine isStunMessage getFfmpegPath.
Let run' := run createCryptoLine isStunMessage getFfmpegPath.

Lemma run_app (w : World) (l1 l2 : list Event) :
  run' w (l1 ++ l2) = run' (run' w l1) l2.
Proof. unfold run', run. apply fold_left_app. Qed.

Lemma expired_round (w : World) (o : option FfmpegOptions)
    (round : (Z * list Z) * (Z * list Z) * SipOptions) :
  pending w = Some (AwaitVideoPort o) ->
  hasCallEnded (session w) = false ->
  let w' := run' w (expiredRound round) in
  pending w' = Some (AwaitVideoPort o)
  /\ hasCallEnded (session w') = false
  /\ nextSipCall w' = S (nextSipCall w)
  /\ sipCall (session w') = nextSipCall w
  /\ trace w'
     = (trace w
        ++ [ ReservePorts 2;
             Invite (sipCall (session w));
             GetUpdatedSipOptions (dingId (sipOptions (session w)));
             Destroy (sipCall (session w));
             NewSipCall (nextSipCall w) (snd round) (rtpOptions (session w))
               (tlsPort (session w));
             ReservePorts 2 ])%list.
Proof.
  intros Hp He. destruct round as [[[vp vl] [ap al]] opts].
  destruct w as [s p n f t]. cbn in Hp, He. subst p.
  cbv zeta. unfold run', run, expiredRound. cbn [fold_left].
  cbn [step pending withPending emit session nextSipCall nextFfmpeg trace
       startCatch isExpiredDing].
  unfold startRetry. rewrite createSipCall_spec.
  rewrite start_accepted by (cbn; auto).
  cbn. rewrite <- !app_assoc.
  refine (conj eq_refl (conj He (conj eq_refl (conj eq_refl eq_refl)))).
Qed.

(** X8.  The expired-ding retry has no bound: however many attempts in a
    row end in an expired ding, [start] is suspended again at its first
    port reservation with the same transcode options, the session is not
    ended, [start] has neither resolved nor been rejected, and one more
    signaling client has been constructed per attempt. *)
Theorem expired_retry_has_no_bound (w : World) (o : option FfmpegOptions)
    (rounds : list ((Z * list Z) * (Z * list Z) * SipOptions)) :
  pending w = Some (AwaitVideoPort o) ->
  hasCallEnded (session w) = false ->
  let w' := run' w (flat_map expiredRound rounds) in
  pending w' = Some (AwaitVideoPort o)
  /\ hasCallEnded (session w') = false
  /\ nextSipCall w' = (nextSipCall w + List.length rounds)%nat
  /\ count isNewSipCall (trace w')
     = (count isNewSipCall (trace w) + List.length rounds)%nat
  /\ count isStartResolved (trace w') = count isStartResolved (trace w)
  /\ count isStartRejected (trace w') = count isStartRejected (trace w)
  /\ count isOnCallEndedNext (trace w') = count isOnCallEndedNext (trace w).
Proof.
  revert w. induction rounds as [|round rounds IH]; intros w Hp He.
  - cbn. repeat split; auto.
  - cbv zeta. cbn [flat_map]. rewrite run_app.
    destruct (expired_round w round Hp He) as (Hp1 & He1 & Hn1 & _ & Ht1).
    set (w1 := run' w (expiredRound round)) in *.
    destruct (IH w1 Hp1 He1) as (Hp2 & He2 & Hn2 & Hc2 & Hr2 & Hj2 & Hx2).
    rewrite Hn2, Hc2, Hr2, Hj2, Hx2, Hn1, Ht1, !count_app.
    refine (conj Hp2 (conj He2 (conj _ (conj _ (conj _ (conj _ _)))))).
    + simpl. lia.
    + unfold count at 2. simpl. lia.
    + unfold count at 2. simpl. lia.
    + unfold count at 2. simpl. lia.
    + unfold count at 2. simpl. lia.
Qed.

(** X10.  A failing port reservation is handled like a failing invite:
    any error other than the expired-ding sentinel tears the session down
    with a bye and rejects [start] with that error, while the sentinel
    itself, wherever in the [try] block it is thrown, starts the refresh of
    the signaling parameters instead. *)
Theorem port_reservation_failure (w : World) (o : option FfmpegOptions) :
  (pending w = Some (AwaitVideoPort o)
   \/ exists videoPort, pending w = Some (AwaitAudioPort o videoPort)) ->
  hasCallEnded (session w) = false ->
  (forall message,
      let w1 := step' w (PortsReserved (Rejected (Error message))) in
      trace w1
      = (trace w ++ teardownEffects true (session w)
         ++ [StartRejected (Error message)])%list
      /\ hasCallEnded (session w1) = true
      /\ pending w1 = None)
  /\ step' w (PortsReserved (Rejected expiredDingError))
     = emit (GetUpdatedSipOptions (dingId (sipOptions (session w))))
         (withPending (Some (AwaitSipOptions o)) w).
Proof.
  intros Hp He.
  assert (E : forall e, step' w (PortsReserved (Rejected e))
                        = startCatch o e w).
  { intro e. unfold step'. cbn [step].
    destruct Hp as [Hp|[vp Hp]]; rewrite Hp; reflexivity. }
  split.
  - intro message. cbv zeta. rewrite E. unfold startCatch.
    cbn [isExpiredDing]. rewrite callEnded_first by (cbn; assumption).
    cbn. rewrite <- app_assoc. auto.
  - rewrite E. reflexivity.
Qed.


(** X13.  STUN binding requests are never built on a splitter that
    port-multiplex detection has closed: for a session over four distinct
    splitters, neither the round sent when the invite resolves nor any
    keepalive round sent on a later tick names a closed RTCP splitter as
    its RTP or RTCP splitter. *)
Theorem requests_avoid_closed_splitters (w : World)
    (o : option FfmpegOptions) (vp ap : Z) (d : RtpDescription) (n : nat) :
  pending w = Some (AwaitInvite o vp ap) ->
  NoDup (handles (session w)) ->
  noOpenTimer (session w) = true ->
  let wn := run' (step' w (InviteSettled (Resolved d))) (repeat TimerFired n) in
  forall e h,
    In e (skipn (List.length (trace w)) (trace wn)) ->
    In h (closedByMux d (session w)) ->
    ~ In h (requestSplitters e).
Proof.
  intros Hp Hnd Hnt wn e h He Hh.
  set (s1 := invitedSession o d (nextFfmpeg w) (session w)).
  assert (T : trace wn
              = (trace w
                 ++ (invitedEffects createCryptoLine isStunMessage
                       getFfmpegPath o vp ap d (nextFfmpeg w) (session w)
                     ++ List.concat (repeat (tickEffects s1) n)))%list).
  { unfold wn, step'.
    rewrite (@invite_resolved createCryptoLine isStunMessage getFfmpegPath
               o vp ap d w Hp).
    unfold run'. rewrite ticks. cbn [trace session]. fold s1.
    rewrite <- app_assoc. reflexivity. }
  rewrite T, skipn_app, skipn_all, Nat.sub_diag in He. cbn [app skipn] in He.
  assert (R : forall x, In x (stunRound s1 d) -> ~ In h (requestSplitters x)).
  { intros x Hx. unfold stunRound in Hx.
    destruct (references_invitedSession o d (nextFfmpeg w) (session w))
      as (E1 & E2 & E3 & E4). fold s1 in E1, E2, E3, E4.
    rewrite E1, E2, E3 in Hx.
    apply distinct_handles in Hnd.
    destruct Hnd as (H1 & H2 & H3 & H4 & H5 & H6 & H7 & H8 & H9 & H10
                     & H11 & H12).
    apply Nat.eqb_neq in H1, H2, H3, H4, H5, H6, H7, H8, H9, H10, H11, H12.
    unfold closedByMux in Hh.
    destruct (muxAudio d); destruct (muxVideo d); simpl in Hh, Hx;
      repeat (destruct Hh as [Hh|Hh]; [subst h|]); try contradiction;
      repeat (destruct Hx as [Hx|Hx]; [subst x|]); try contradiction;
      simpl; intros [F|[F|[]]]; congruence. }
  destruct (isStunRequest e) eqn:Hs;
    [|destruct e; try discriminate; simpl; auto].
  apply R. apply in_app_or in He. destruct He as [He|He].
  - assert (Hf : In e (filter isStunRequest
                         (invitedEffects createCryptoLine isStunMessage
                            getFfmpegPath o vp ap d (nextFfmpeg w)
                            (session w))))
      by (apply filter_In; auto).
    rewrite filter_invitedEffects in Hf by reflexivity. fold s1 in Hf.
    apply filter_In in Hf. destruct Hf as [Hf _]. unfold natEffects in Hf.
    destruct (truthy (iceUFrag (rtpVideo d))); simpl in Hf.
    + destruct Hf as [Hf|[Hf|[Hf|Hf]]]; try (subst e; discriminate).
      exact Hf.
    + destruct Hf as [Hf|[]]. subst e. discriminate.
  - apply in_concat in He. destruct He as (l & Hl & Hin).
    apply repeat_spec in Hl. subst l.
    unfold s1 in Hin. rewrite tickEffects_invitedSession in Hin by assumption.
    fold s1 in Hin. destruct (truthy (iceUFrag (rtpVideo d)));
      [destruct Hin | exact Hin].
Qed.

End Awaits.

(** ** The stream-latched lines *)

Section Latching.

Variable createCryptoLine : RtpStreamDescription -> string.
Variable isStunMessage : Buffer -> bool.
Variable getFfmpegPath : string.

Let step' := step createCryptoLine isStunMessage getFfmpegPath.
Let run' := run createCryptoLine isStunMessage getFfmpegPath.

Variable line : string.

Hypothesis not_connecting :
  forall x, startsWith line ("Connecting to " ++ x) = false.
Hypothesis one_stream :
  forall x,
    startsWith line ("Audio stream latched for " ++ x)
    && startsWith line ("Video stream latched for " ++ x) = false.

Lemma latchBook_frame (w w' : World) (delta : list Effect) :
  latchBook line w ->
  trace w' = (trace w ++ delta)%list ->
  (count (isLatchLog line) delta
   + List.length (filter (isOpenLatch line) (subscriptions (session w')))
   <= List.length (filter (isOpenLatch line) (subscriptions (session w)))
      + count isStartResolved delta)%nat ->
  latchBook line w'.
Proof.
  unfold latchBook. intros J Ht H. rewrite Ht, !count_app. lia.
Qed.

Lemma latchBook_same (w w' : World) :
  trace w' = trace w ->
  subscriptions (session w') = subscriptions (session w) ->
  latchBook line w -> latchBook line w'.
Proof. unfold latchBook. intros Ht Hs J. rewrite Ht, Hs. exact J. Qed.

Lemma latchBook_emit (e : Effect) (w : World) :
  isLatchLog line e = false -> latchBook line w -> latchBook line (emit e w).
Proof.
  intros He J. apply (@latchBook_frame w (emit e w) [e] J eq_refl).
  unfold count. cbn [filter session emit]. rewrite He. cbn. lia.
Qed.

Lemma openLatch_closed (l : list Subscription) :
  filter (isOpenLatch line) (map (fun x => mkSub (source x) true) l) = [].
Proof.
  induction l as [|sub l IH]; [reflexivity|].
  cbn [map filter]. rewrite IH. unfold isOpenLatch. cbn [source closed].
  destruct (source sub); reflexivity.
Qed.

Lemma latchBook_callEnded (b : bool) (w : World) :
  latchBook line w -> latchBook line (callEnded b w).
Proof.
  intro J. destruct (hasCallEnded (session w)) eqn:H.
  - rewrite callEnded_again; assumption.
  - rewrite callEnded_first by assumption.
    apply (@latchBook_frame w _ (teardownEffects b (session w)) J); [reflexivity|].
    cbn [session subscriptions setSubscriptions].
    rewrite openLatch_closed. unfold count at 1.
    rewrite filter_teardownEffects_nil by reflexivity. cbn. lia.
Qed.

Lemma latchBook_start (o : option FfmpegOptions) (w : World) :
  latchBook line w -> latchBook line (start o w).
Proof.
  intro J. unfold start. destruct (hasStarted (session w)).
  - apply latchBook_emit; [reflexivity | assumption].
  - cbn [session withSession hasCallEnded setHasStarted].
    destruct (hasCallEnded (session w));
      (apply latchBook_emit; [reflexivity|]);
      apply (@latchBook_same w); auto.
Qed.

Lemma latchBook_startCatch (o : option FfmpegOptions) (e : JsError)
    (w : World) :
  latchBook line w -> latchBook line (startCatch o e w).
Proof.
  intro J. unfold startCatch. destruct (isExpiredDing e).
  - apply latchBook_emit; [reflexivity|]. apply (@latchBook_same w); auto.
  - apply latchBook_emit; [reflexivity|]. apply latchBook_callEnded.
    apply (@latchBook_same w); auto.
Qed.

Lemma latchBook_startRetry (o : option FfmpegOptions) (opts : SipOptions)
    (w : World) :
  latchBook line w -> latchBook line (startRetry o opts w).
Proof.
  intro J. unfold startRetry. apply latchBook_start.
  rewrite createSipCall_spec.
  apply (@latchBook_frame w _
           [ Destroy (sipCall (session w));
             NewSipCall (nextSipCall w) opts (rtpOptions (session w))
               (tlsPort (session w)) ] J); [reflexivity|].
  cbn [session withSession withPending subscriptions setSubscriptions
       setHasStarted].
  rewrite filter_app. cbn. rewrite app_nil_r. lia.
Qed.

Lemma latch_conserved (s : RtpSplitter) (l : list Subscription) :
  (count (isLatchLog line) (latchEffects s l)
   + List.length
       (filter (isOpenLatch line)
          (map (fun sub => if latches s sub then mkSub (source sub) true
                           else sub) l))
   <= List.length (filter (isOpenLatch line) l))%nat.
Proof.
  induction l as [|sub l IH]; [cbn; lia|].
  assert (E : latchEffects s (sub :: l)
              = (match source sub with
                 | FirstMessage _ label =>
                     if latches s sub then [LogDebug label] else []
                 | _ => []
                 end ++ latchEffects s l)%list) by reflexivity.
  rewrite E, count_app. clear E. cbn [map filter]. revert IH.
  generalize (count (isLatchLog line) (latchEffects s l)).
  match goal with
  | |- context [filter (isOpenLatch line) (map ?f l)] =>
      generalize (filter (isOpenLatch line) (map f l))
  end.
  generalize (filter (isOpenLatch line) l).
  intros open open' logged IH.
  destruct sub as [src c].
  destruct src as [call|dueTime period d|s0 label]; destruct c;
    unfold latches, isOpenLatch, count; cbn [source closed];
    try (cbn; lia).
  destruct (Nat.eqb s s0); cbn [source closed filter isLatchLog];
    destruct (startsWith line label); cbn; lia.
Qed.

Lemma latchBook_deliverMessage (s : RtpSplitter) (w : World) :
  latchBook line w -> latchBook line (deliverMessage s w).
Proof.
  intro J. rewrite deliverMessage_spec.
  apply (@latchBook_frame w _ (latchEffects s (subscriptions (session w)))
           J); [reflexivity|].
  cbn [session subscriptions setSubscriptions].
  pose proof (latch_conserved s (subscriptions (session w))). lia.
Qed.

Lemma latchBook_fireTimers (w : World) :
  latchBook line w -> latchBook line (fireTimers w).
Proof.
  intro J. rewrite fireTimers_spec.
  apply (@latchBook_frame w _ (tickEffects (session w)) J); [reflexivity|].
  cbn [session]. unfold count at 1.
  rewrite filter_tickEffects by reflexivity. cbn. lia.
Qed.

Lemma one_latch_per_line (s : SipSession) :
  (List.length
     (filter (isOpenLatch line)
        (map (fun x => mkSub x false) (latchSubscriptions s))) <= 1)%nat.
Proof.
  unfold latchSubscriptions. cbn [map filter]. unfold isOpenLatch.
  cbn [source closed].
  pose proof (one_stream (name (camera s))) as O.
  destruct (startsWith line ("Audio stream latched for " ++ name (camera s)));
    destruct (startsWith line
                ("Video stream latched for " ++ name (camera s)));
    try discriminate O; cbn; lia.
Qed.

Lemma latchLogs_invitedEffects o vp ap d ff s :
  filter (isLatchLog line)
    (invitedEffects createCryptoLine isStunMessage getFfmpegPath
       o vp ap d ff s) = [].
Proof.
  rewrite (@filter_invitedEffects createCryptoLine isStunMessage
             getFfmpegPath (isLatchLog line)) by reflexivity.
  unfold natEffects, stunRound.
  destruct (truthy (iceUFrag (rtpVideo d)));
    cbn [filter isLatchLog]; rewrite not_connecting; reflexivity.
Qed.

Lemma latchBook_startInvited o vp ap d (w : World) :
  latchBook line w ->
  latchBook line
    (startInvited createCryptoLine isStunMessage getFfmpegPath o vp ap d w).
Proof.
  intro J. rewrite startInvited_spec.
  apply (@latchBook_frame w _
           (invitedEffects createCryptoLine isStunMessage getFfmpegPath
              o vp ap d (nextFfmpeg w) (session w)) J); [reflexivity|].
  cbn [session].
  destruct (tally_invitedEffects createCryptoLine isStunMessage
              getFfmpegPath o vp ap d (nextFfmpeg w) (session w))
    as (C1 & _).
  rewrite C1. unfold count. rewrite latchLogs_invitedEffects.
  rewrite subscriptions_invitedSession, filter_app, length_app.
  rewrite map_app, filter_app, length_app.
  assert (T : filter (isOpenLatch line)
                (map (fun x => mkSub x false) (natSubscriptions d)) = []).
  { unfold natSubscriptions. destruct (truthy (iceUFrag (rtpVideo d)));
      reflexivity. }
  rewrite T. cbn [List.length].
  pose proof (one_latch_per_line
                (invitedSession o d (nextFfmpeg w) (session w))).
  lia.
Qed.

(** A message on [s] makes an open subscription on [s] log its line. *)
Lemma latch_fires (s : RtpSplitter) (label : string)
    (l : list Subscription) :
  In (mkSub (FirstMessage s label) false) l ->
  startsWith line label = true ->
  (1 <= count (isLatchLog line) (latchEffects s l))%nat.
Proof.
  intros Hin Hl. induction l as [|sub l IH]; [destruct Hin|].
  assert (E : latchEffects s (sub :: l)
              = (match source sub with
                 | FirstMessage _ label =>
                     if latches s sub then [LogDebug label] else []
                 | _ => []
                 end ++ latchEffects s l)%list) by reflexivity.
  rewrite E, count_app. clear E. destruct Hin as [Hin|Hin].
  - subst sub. unfold latches. cbn [source closed].
    rewrite Nat.eqb_refl. unfold count at 1. cbn [filter isLatchLog].
    rewrite Hl. cbn. lia.
  - specialize (IH Hin). lia.
Qed.

Lemma latchBook_step (w : World) (ev : Event) :
  latchBook line w -> latchBook line (step' w ev).
Proof.
  intro J. unfold step'. destruct ev; cbn [step].
  - apply latchBook_start. assumption.
  - apply latchBook_callEnded. assumption.
  - apply latchBook_emit; [reflexivity | assumption].
  - apply latchBook_emit; [reflexivity | assumption].
  - destruct (pending w) as [[o|o p|o p q|o]|];
      destruct r as [[p' l]|e]; try assumption;
      try (apply latchBook_startCatch; assumption);
      (apply latchBook_emit; [reflexivity|]);
      apply (@latchBook_same w); auto.
  - destruct (pending w) as [[o|o p|o p q|o]|];
      destruct r as [d|e]; try assumption;
      try (apply latchBook_startCatch; assumption).
    apply latchBook_startInvited; assumption.
  - destruct (pending w) as [[o|o p|o p q|o]|];
      destruct r as [opts|e]; try assumption.
    + apply latchBook_startRetry; assumption.
    + apply latchBook_emit; [reflexivity|]. apply (@latchBook_same w); auto.
  - destruct (existsb _ _); [apply latchBook_callEnded|]; assumption.
  - destruct (Nat.ltb _ _); [apply latchBook_callEnded|]; assumption.
  - apply latchBook_fireTimers. assumption.
  - apply latchBook_deliverMessage. assumption.
Qed.

Lemma latchBook_run (evs : list Event) (w : World) :
  latchBook line w -> latchBook line (run' w evs).
Proof.
  revert w. induction evs as [|ev evs IH]; intros w J; cbn; auto.
  apply IH. apply latchBook_step. assumption.
Qed.

End Latching.

Section LatchedOnce.

Variable createCryptoLine : RtpStreamDescription -> string.
Variable isStunMessage : Buffer -> bool.
Variable getFfmpegPath : string.

Let step' := step createCryptoLine isStunMessage getFfmpegPath.
Let run' := run createCryptoLine isStunMessage getFfmpegPath.


End LatchedOnce.

(** ** Switch and sensor accessories *)

(** X14.  The Z-Wave switch reads back what it writes: [setOnState]
    writes basic value 255 for on and 0 for off, and [getValue] on data
    carrying the written value returns the state that was set; in general
    [getValue] is on exactly for a basic value that is present and not
    zero. *)
Theorem zwave_switch_reads_back_what_it_writes (deviceName : string)
    (value : bool) (data : RingDeviceData) :
  basicValue data
  = Some (v1BasicValue
            (snd (UnknownZWaveSwitchSwitch.setOnState deviceName value))) ->
  UnknownZWaveSwitchSwitch.getValue data = value
  /\ (v1BasicValue
        (snd (UnknownZWaveSwitchSwitch.setOnState deviceName value)) = 255
      \/ v1BasicValue
           (snd (UnknownZWaveSwitchSwitch.setOnState deviceName value)) = 0)
  /\ forall other,
       UnknownZWaveSwitchSwitch.getValue other = true
       <-> exists n, basicValue other = Some n /\ n <> 0.
Proof.
  intro H. unfold UnknownZWaveSwitchSwitch.getValue, truthyNumber.
  refine (conj _ (conj _ _)).
  - rewrite H. destruct value; reflexivity.
  - destruct value; [left | right]; reflexivity.
  - intro other. destruct (basicValue other) as [n|]; split.
    + intro E. exists n. split; [reflexivity|].
      apply negb_true_iff in E. apply Z.eqb_neq in E. exact E.
    + intros (m & Hm & Hz). injection Hm as <-.
      apply negb_true_iff. apply Z.eqb_neq. exact Hz.
    + discriminate.
    + intros (m & Hm & _). discriminate.
Qed.

Lemma freezes_after (detected notDetected : Z) (previous : bool)
    (readings : list bool) :
  detected <> 0 -> notDetected = 0 ->
  List.length
    (filter (fun value => negb (value =? 0))
       (FreezeSensor.distinctAfter
          (if previous then detected else notDetected)
          (map (fun b : bool => if b then detected else notDetected)
             readings)))
  = FreezeSensor.freezesAfter previous readings.
Proof.
  intros Hd Hn. subst notDetected. revert previous.
  induction readings as [|b rest IH]; intro previous; [reflexivity|].
  cbn [map FreezeSensor.distinctAfter FreezeSensor.freezesAfter].
  apply Z.eqb_neq in Hd.
  destruct b; destruct previous; cbn [andb negb];
    rewrite ?Z.eqb_refl, ?Hd; try rewrite (Z.eqb_sym 0 detected), Hd;
    cbn [filter List.length negb]; rewrite ?Z.eqb_refl, ?Hd;
    cbn [filter List.length negb];
    try (rewrite (IH true)); try (rewrite (IH false)); reflexivity.
Qed.

(** X15.  With a truthy [OCCUPANCY_DETECTED] and [OCCUPANCY_NOT_DETECTED]
    equal to 0, the freeze sensor logs its line once per freezing episode:
    as many times as a faulted reading follows a reading that was not
    faulted (or opens the stream), however long the device keeps
    reporting the fault, and every logged line is the same. *)
Theorem freeze_logged_once_per_episode (detected notDetected : Z)
    (deviceName : string) (emitted : list RingDeviceData) :
  detected <> 0 -> notDetected = 0 ->
  List.length (FreezeSensor.freezeLog detected notDetected deviceName emitted)
  = FreezeSensor.freezes (map (fun data => truthyBool (faulted data)) emitted)
  /\ Forall (fun line => line = deviceName ++ " Detected Freezing")
       (FreezeSensor.freezeLog detected notDetected deviceName emitted).
Proof.
  intros Hd Hn. split.
  - unfold FreezeSensor.freezeLog, FreezeSensor.onFreezeDetected,
      FreezeSensor.freezes. rewrite length_map.
    destruct emitted as [|data rest]; [reflexivity|].
    cbn [map FreezeSensor.distinctUntilChanged FreezeSensor.freezesAfter
         filter].
    pose proof (freezes_after (truthyBool (faulted data))
                  (map (fun x => truthyBool (faulted x)) rest) Hd Hn) as F.
    rewrite map_map in F. rewrite <- F.
    apply Z.eqb_neq in Hd.
    destruct (truthyBool (faulted data)); cbn [andb negb];
      [rewrite Hd | subst notDetected; rewrite Z.eqb_refl]; reflexivity.
  - unfold FreezeSensor.freezeLog. apply Forall_forall. intros line Hin.
    apply in_map_iff in Hin. destruct Hin as (x & Hx & _). auto.
Qed.

(** ** The properties above at concrete sessions *)

Lemma second_start_rejected_while_suspended_witness :
  let w := sampleRun sampleSession [CallStart None] in
  pending w <> None
  /\ sampleStep w (CallStart None) = emit (StartRejected AlreadyStarted) w.
Proof.
  assert (Hp : pending (sampleRun sampleSession [CallStart None]) <> None)
    by (vm_compute; discriminate).
  split; [exact Hp|].
  exact (@second_start_rejected_while_suspended sampleCryptoLine sampleIsStun
           sampleFfmpegPath sampleSipOptions sampleRtpOptions
           10%nat 11%nat 20%nat 21%nat 5061 sampleCamera
           [CallStart None] None Hp).
Defined.

Lemma start_resolves_at_most_once_witness :
  let w := sampleRun sampleSession
             (startedWith None (sampleDescription 40001 40003 None)
              ++ [CallStart None; InviteSettled
                                    (Resolved
                                       (sampleDescription 40001 40003 None))]) in
  count isStartResolved (trace w) = 1%nat
  /\ hasStarted (session w) = true
  /\ pending w = None.
Proof.
  destruct (@start_resolves_at_most_once sampleCryptoLine sampleIsStun
              sampleFfmpegPath sampleSipOptions sampleRtpOptions
              10%nat 11%nat 20%nat 21%nat 5061 sampleCamera
              (startedWith None (sampleDescription 40001 40003 None)
               ++ [CallStart None;
                   InviteSettled
                     (Resolved (sampleDescription 40001 40003 None))]))
    as (_ & _ & _ & H).
  split; [reflexivity | exact (H eq_refl)].
Defined.

Lemma no_media_before_start_resolves_witness :
  let w := sampleRun (sampleInviting None)
             [TimerFired; MessageReceived 10%nat; CallRequestKeyFrame] in
  count isStartResolved (trace w) = 0%nat
  /\ filter isMediaSetup (trace w) = []
  /\ nextFfmpeg w = 0%nat.
Proof.
  destruct (@no_media_before_start_resolves sampleCryptoLine sampleIsStun
              sampleFfmpegPath sampleSipOptions sampleRtpOptions
              10%nat 11%nat 20%nat 21%nat 5061 sampleCamera
              [ CallStart None;
                PortsReserved (Resolved (5000, [5001]));
                PortsReserved (Resolved (5002, [5003]));
                TimerFired; MessageReceived 10%nat; CallRequestKeyFrame ]
              eq_refl) as (H1 & H2 & _).
  split; [reflexivity|]. split; [exact H1 | exact H2].
Defined.

Lemma refresh_failure_leaves_session_open_witness :
  let w := run sampleCryptoLine sampleIsStun sampleFfmpegPath
             (newSipSession sampleSipOptions sampleRtpOptions
                10%nat 11%nat 20%nat 21%nat 5061 sampleCamera)
             [ CallStart None;
               PortsReserved (Resolved (5000, [5001]));
               PortsReserved (Resolved (5002, [5003]));
               InviteSettled (Rejected expiredDingError) ] in
  let w1 := step sampleCryptoLine sampleIsStun sampleFfmpegPath w
              (SipOptionsSettled (Rejected (Error "offline"))) in
  pending w = Some (AwaitSipOptions None)
  /\ session w1 = session w
  /\ trace w1 = (trace w ++ [StartRejected (Error "offline")])%list.
Proof.
  destruct (@refresh_failure_leaves_session_open sampleCryptoLine sampleIsStun
              sampleFfmpegPath sampleSipOptions sampleRtpOptions
              10%nat 11%nat 20%nat 21%nat 5061 sampleCamera
              [ CallStart None;
                PortsReserved (Resolved (5000, [5001]));
                PortsReserved (Resolved (5002, [5003]));
                InviteSettled (Rejected expiredDingError) ]
              None (Error "offline") eq_refl) as (H1 & _ & H3 & _).
  split; [reflexivity|]. split; [exact H1 | exact H3].
Defined.

Lemma expired_retry_has_no_bound_witness :
  let w := sampleRun sampleSession [CallStart None] in
  let round := ((5000, [5001]), (5002, [5003]), sampleSipOptions) in
  let w' := sampleRun w (flat_map expiredRound [round; round; round]) in
  pending w = Some (AwaitVideoPort None)
  /\ hasCallEnded (session w) = false
  /\ pending w' = Some (AwaitVideoPort None)
  /\ nextSipCall w' = 4%nat.
Proof.
  destruct (@expired_retry_has_no_bound sampleCryptoLine sampleIsStun
              sampleFfmpegPath (sampleRun sampleSession [CallStart None]) None
              [ ((5000, [5001]), (5002, [5003]), sampleSipOptions);
                ((5000, [5001]), (5002, [5003]), sampleSipOptions);
                ((5000, [5001]), (5002, [5003]), sampleSipOptions) ]
              eq_refl eq_refl) as (H1 & _ & H3 & _).
  refine (conj eq_refl (conj eq_refl (conj H1 H3))).
Defined.

Lemma port_reservation_failure_witness :
  let w := sampleRun sampleSession [CallStart None] in
  let w1 := sampleStep w (PortsReserved (Rejected (Error "EADDRINUSE"))) in
  pending w = Some (AwaitVideoPort None)
  /\ hasCallEnded (session w) = false
  /\ hasCallEnded (session w1) = true
  /\ pending w1 = None.
Proof.
  destruct (@port_reservation_failure sampleCryptoLine sampleIsStun
              sampleFfmpegPath (sampleRun sampleSession [CallStart None]) None
              (or_introl eq_refl) eq_refl) as [H _].
  destruct (H "EADDRINUSE") as (_ & H2 & H3).
  refine (conj eq_refl (conj eq_refl (conj H2 H3))).
Defined.



Lemma requests_avoid_closed_splitters_witness :
  pending (sampleInviting None) = Some (AwaitInvite None 5000 5002)
  /\ NoDup (handles (session (sampleInviting None)))
  /\ noOpenTimer (session (sampleInviting None)) = true
  /\ In (SendStunBindingRequest
           (mkStunRequest 10%nat 10%nat
              (sampleDescription 40000 40003 (Some "remote-ufrag"))
              (audioUfrag 0%nat) audioType))
        (skipn (List.length (trace (sampleInviting None)))
           (trace
              (sampleRun
                 (sampleStep (sampleInviting None)
                    (InviteSettled
                       (Resolved
                          (sampleDescription 40000 40003
                             (Some "remote-ufrag")))))
                 (repeat TimerFired 2))))
  /\ In 11%nat
        (closedByMux (sampleDescription 40000 40003 (Some "remote-ufrag"))
           (session (sampleInviting None)))
  /\ ~ In 11%nat
         (requestSplitters
            (SendStunBindingRequest
               (mkStunRequest 10%nat 10%nat
                  (sampleDescription 40000 40003 (Some "remote-ufrag"))
                  (audioUfrag 0%nat) audioType))).
Proof.
  assert (Hnd : NoDup (handles (session (sampleInviting None)))).
  { repeat constructor; simpl; intuition discriminate. }
  assert (He : In (SendStunBindingRequest
                     (mkStunRequest 10%nat 10%nat
                        (sampleDescription 40000 40003 (Some "remote-ufrag"))
                        (audioUfrag 0%nat) audioType))
                 (skipn (List.length (trace (sampleInviting None)))
                    (trace
                       (sampleRun
                          (sampleStep (sampleInviting None)
                             (InviteSettled
                                (Resolved
                                   (sampleDescription 40000 40003
                                      (Some "remote-ufrag")))))
                          (repeat TimerFired 2))))).
  { vm_compute. tauto. }
  assert (Hh : In 11%nat
                 (closedByMux
                    (sampleDescription 40000 40003 (Some "remote-ufrag"))
                    (session (sampleInviting None)))).
  { vm_compute. tauto. }
  assert (H : forall e h,
             In e (skipn (List.length (trace (sampleInviting None)))
                     (trace
                        (sampleRun
                           (sampleStep (sampleInviting None)
                              (InviteSettled
                                 (Resolved
                                    (sampleDescription 40000 40003
                                       (Some "remote-ufrag")))))
                           (repeat TimerFired 2)))) ->
             In h (closedByMux
                     (sampleDescription 40000 40003 (Some "remote-ufrag"))
                     (session (sampleInviting None))) ->
             ~ In h (requestSplitters e)).
  { exact (@requests_avoid_closed_splitters sampleCryptoLine sampleIsStun
             sampleFfmpegPath (sampleInviting None) None 5000 5002
             (sampleDescription 40000 40003 (Some "remote-ufrag")) 2%nat
             eq_refl Hnd eq_refl). }
  refine (conj eq_refl (conj Hnd (conj eq_refl (conj He (conj Hh _))))).
  exact (H _ _ He Hh).
Defined.

Lemma zwave_switch_reads_back_what_it_writes_witness :
  let data := mkDeviceData None (Some 255) in
  basicValue data
  = Some (v1BasicValue
            (snd (UnknownZWaveSwitchSwitch.setOnState "Porch" true)))
  /\ UnknownZWaveSwitchSwitch.getValue data = true.
Proof.
  destruct (@zwave_switch_reads_back_what_it_writes "Porch" true
              (mkDeviceData None (Some 255)) eq_refl) as (H & _).
  split; [reflexivity | exact H].
Defined.

Lemma freeze_logged_once_per_episode_witness :
  let readings := [ mkDeviceData (Some false) None;
                    mkDeviceData (Some true) None;
                    mkDeviceData (Some true) None;
                    mkDeviceData None None;
                    mkDeviceData (Some true) None ] in
  1 <> 0 /\ 0 = 0
  /\ List.length (FreezeSensor.freezeLog 1 0 "Basement" readings) = 2%nat.
Proof.
  assert (H1 : 1 <> 0) by discriminate.
  destruct (@freeze_logged_once_per_episode 1 0 "Basement"
              [ mkDeviceData (Some false) None;
                mkDeviceData (Some true) None;
                mkDeviceData (Some true) None;
                mkDeviceData None None;
                mkDeviceData (Some true) None ] H1 eq_refl) as (H & _).
  refine (conj H1 (conj eq_refl _)). exact H.
Defined.
